(** * DecTree: a shallow embedding of [src/dectree/core.py]

    The development follows the Python source function by function.
    Raster samples are exact rationals extended with the IEEE special
    values, numpy arrays are a shape with a row-major buffer, the file
    system is a finite map from paths to files, and Python exceptions are
    an explicit result type threaded through a state monad. *)

From Stdlib Require Import QArith Ascii String.
From stdpp Require Import gmap strings list fin_maps.

Local Open Scope Z_scope.

(** ** Python results and exceptions *)

Inductive exn :=
  | SystemExit (code : Z)
  | TypeError
  | ValueError
  | IndexError
  | AttributeError
  | OverflowError
  | FileNotFoundError
  | RequestException.

Inductive res (A : Type) :=
  | Ok (a : A)
  | Raise (e : exn).
Arguments Ok {A} a.
Arguments Raise {A} e.

#[global] Instance res_ret : MRet res := λ A a, Ok a.
#[global] Instance res_bind : MBind res := λ A B f m,
  match m with
  | Ok a => f a
  | Raise e => Raise e
  end.

(** ** Raster samples

    A band holds integers or IEEE floats. Every finite value of either
    kind is a rational, so a sample is a rational or one of the three
    special values; the comparisons below are the IEEE ones (every
    comparison with NaN is false). *)

Inductive sample :=
  | Fin (q : Q)
  | PosInf
  | NegInf
  | NaN.

#[global] Instance sample_inhabited : Inhabited sample := populate NaN.

Definition Qltb (x y : Q) : bool := Qnum x * QDen y <? Qnum y * QDen x.

(** [x < c], [x > c], [x >= c] and [x == c] for a sample [x] and a Python
    numeric literal [c]. *)
Definition sample_lt (x : sample) (c : Q) : bool :=
  match x with
  | Fin q => Qltb q c
  | NegInf => true
  | PosInf | NaN => false
  end.

Definition sample_gt (x : sample) (c : Q) : bool :=
  match x with
  | Fin q => Qltb c q
  | PosInf => true
  | NegInf | NaN => false
  end.

Definition sample_ge (x : sample) (c : Q) : bool :=
  match x with
  | Fin q => Qle_bool c q
  | PosInf => true
  | NegInf | NaN => false
  end.

Definition sample_eq (x : sample) (c : Q) : bool :=
  match x with
  | Fin q => Qeq_bool q c
  | PosInf | NegInf | NaN => false
  end.

Definition of_int (z : Z) : sample := Fin (inject_Z z).

(** Python's [int(x)] on a float: truncation toward zero, [ValueError] on
    NaN and [OverflowError] on an infinity. *)
Definition py_int (x : sample) : res Z :=
  match x with
  | Fin q => Ok (Z.quot (Qnum q) (QDen q))
  | NaN => Raise ValueError
  | PosInf | NegInf => Raise OverflowError
  end.

(** ** numpy arrays of rank two *)

Record ndarray (A : Type) := NdArray {
  nrows : nat;
  ncols : nat;
  buf : list A
}.
Arguments NdArray {A} nrows ncols buf.
Arguments nrows {A} _.
Arguments ncols {A} _.
Arguments buf {A} _.

Definition cell `{!Inhabited A} (a : ndarray A) (i j : nat) : A :=
  buf a !!! (i * ncols a + j)%nat.

Definition tabulate {A} (r c : nat) (g : nat → nat → A) : ndarray A :=
  NdArray r c (i ← seq 0 r; g i <$> seq 0 c).

Definition same_shape {A B} (a : ndarray A) (b : ndarray B) : bool :=
  bool_decide (nrows a = nrows b) && bool_decide (ncols a = ncols b).

(** [np.full(shape, v)] *)
Definition np_full {A} (r c : nat) (v : A) : ndarray A := tabulate r c (λ _ _, v).

(** A ufunc of one array and Python scalars, e.g. [a < 10.0]. *)
Definition np_map `{!Inhabited A} {B} (f : A → B) (a : ndarray A) : ndarray B :=
  tabulate (nrows a) (ncols a) (λ i j, f (cell a i j)).

(** Broadcasting of one axis: equal lengths, or one of them is 1. *)
Definition bdim (n m : nat) : option nat :=
  if (n =? m)%nat then Some n
  else if (n =? 1)%nat then Some m
  else if (m =? 1)%nat then Some n
  else None.

Definition bidx (n i : nat) : nat := if (n =? 1)%nat then 0%nat else i.

Definition bcell `{!Inhabited A} (a : ndarray A) (i j : nat) : A :=
  cell a (bidx (nrows a) i) (bidx (ncols a) j).

(** A binary ufunc of two arrays; [ValueError] when the shapes cannot be
    broadcast together. *)
Definition np_zip `{!Inhabited A, !Inhabited B} {C} (f : A → B → C)
    (a : ndarray A) (b : ndarray B) : res (ndarray C) :=
  match bdim (nrows a) (nrows b), bdim (ncols a) (ncols b) with
  | Some r, Some c => Ok (tabulate r c (λ i j, f (bcell a i j) (bcell b i j)))
  | _, _ => Raise ValueError
  end.

(** A boolean operand is either an array or a scalar ([False] is what
    [None == 1] evaluates to, and [np.isin(None, ...)] is a 0-d [False]). *)
Inductive mask :=
  | Scalar (b : bool)
  | Arr (a : ndarray bool).

(** [np.logical_and(a, m)] with an array on the left. *)
Definition np_logical_and (a : ndarray bool) (m : mask) : res (ndarray bool) :=
  match m with
  | Scalar b => Ok (np_map (λ x, x && b) a)
  | Arr b => np_zip andb a b
  end.

Definition np_logical_not (a : ndarray bool) : ndarray bool := np_map negb a.

(** [a[m] = v]: a boolean array index must have the shape of [a]
    ([IndexError] otherwise); a scalar index selects everything or
    nothing. *)
Definition np_setmask `{!Inhabited A} (a : ndarray A) (m : mask) (v : A)
    : res (ndarray A) :=
  match m with
  | Scalar b => Ok (np_map (λ x, if b then v else x) a)
  | Arr m =>
      if same_shape a m
      then Ok (tabulate (nrows a) (ncols a)
                 (λ i j, if cell m i j then v else cell a i j))
      else Raise IndexError
  end.

(** A band read may have returned [None]. Ordering comparisons with
    [None] raise [TypeError]; [None == c] is [False]. *)
Definition np_cmp (f : sample → Q → bool) (x : option (ndarray sample)) (c : Q)
    : res (ndarray bool) :=
  match x with
  | Some a => Ok (np_map (λ s, f s c) a)
  | None => Raise TypeError
  end.

Definition py_eq (x : option (ndarray sample)) (c : Q) : mask :=
  match x with
  | Some a => Arr (np_map (λ s, sample_eq s c) a)
  | None => Scalar false
  end.

(** [np.isin(x, values)] *)
Definition np_isin (x : option (ndarray sample)) (values : list Q) : mask :=
  match x with
  | Some a => Arr (np_map (λ s, existsb (sample_eq s) values) a)
  | None => Scalar false
  end.

(** [x.shape] *)
Definition py_shape {A} (x : option (ndarray A)) : res (nat * nat) :=
  match x with
  | Some a => Ok (nrows a, ncols a)
  | None => Raise AttributeError
  end.

(** ** [__process_chmap], lines 225-258: the two threshold rules *)

Definition total_change_strong_rule (blue_band red_band nir_band kisqr_band :
    option (ndarray sample)) : res (ndarray bool) :=
  b1 ← np_cmp sample_lt blue_band 10; b2 ← np_cmp sample_gt blue_band 2;
  b ← np_logical_and b1 (Arr b2);
  r1 ← np_cmp sample_lt red_band (-1); r2 ← np_cmp sample_gt red_band (-5);
  r ← np_logical_and r1 (Arr r2);
  br ← np_logical_and b (Arr r);
  n1 ← np_cmp sample_lt nir_band (-1); n2 ← np_cmp sample_gt nir_band (-5);
  n ← np_logical_and n1 (Arr n2);
  k1 ← np_cmp sample_lt kisqr_band 1500; k2 ← np_cmp sample_gt kisqr_band 150;
  k ← np_logical_and k1 (Arr k2);
  nk ← np_logical_and n (Arr k);
  np_logical_and br (Arr nk).

Definition total_change_weak_rule (blue_band red_band nir_band kisqr_band :
    option (ndarray sample)) : res (ndarray bool) :=
  b1 ← np_cmp sample_lt blue_band 11; b2 ← np_cmp sample_gt blue_band 1;
  b ← np_logical_and b1 (Arr b2);
  r1 ← np_cmp sample_lt red_band 0; r2 ← np_cmp sample_gt red_band (-6);
  r ← np_logical_and r1 (Arr r2);
  br ← np_logical_and b (Arr r);
  n1 ← np_cmp sample_lt nir_band 0; n2 ← np_cmp sample_gt nir_band (-6);
  n ← np_logical_and n1 (Arr n2);
  k1 ← np_cmp sample_lt kisqr_band 2000; k2 ← np_cmp sample_gt kisqr_band 100;
  k ← np_logical_and k1 (Arr k2);
  nk ← np_logical_and n (Arr k);
  np_logical_and br (Arr nk).

Definition excluded_classes : list Q := [2; 3; 4; 5; 6]%Q.

(** The weak grid as it stands after line 255, before the no-data cells
    are cleared on line 256. *)
Definition total_change_weak_255 (lc_sub_array blue_band red_band nir_band
    kisqr_band : option (ndarray sample)) : res (ndarray bool) :=
  total_change_weak ← total_change_weak_rule blue_band red_band nir_band kisqr_band;
  np_setmask total_change_weak (np_isin lc_sub_array excluded_classes) false.

Record evidence := Evidence {
  total_change_strong : ndarray bool;
  total_change_weak : ndarray bool;
  sum_change : ndarray Z
}.

Definition threshold_stage (lc_sub_array blue_band red_band nir_band kisqr_band :
    option (ndarray sample)) : res evidence :=
  strong ← total_change_strong_rule blue_band red_band nir_band kisqr_band;
  weak ← total_change_weak_rule blue_band red_band nir_band kisqr_band;
  nodata_mask ← np_cmp sample_ge kisqr_band 2000;
  let other_classes := np_isin lc_sub_array excluded_classes in
  strong ← np_setmask strong other_classes false;
  strong ← np_setmask strong (Arr nodata_mask) false;
  weak ← np_setmask weak other_classes false;
  weak ← np_setmask weak (Arr nodata_mask) false;
  sum ← np_zip (λ s w, Z.b2z s + Z.b2z w) strong weak;
  mret (Evidence strong weak sum).

(** ** Lines 284-297: confirmed change and class labels *)

Definition total_change_of (total_change_weak : ndarray bool)
    (prx_array : ndarray sample) : res (ndarray bool) :=
  np_logical_and total_change_weak (py_eq (Some prx_array) 0).

Definition label_stage (total_change : ndarray bool)
    (lc_sub_array : option (ndarray sample)) (mask_fchm : mask)
    : res (ndarray Z) :=
  forest_changes ← np_logical_and total_change (py_eq lc_sub_array 0);
  rangeland_changes ← np_logical_and total_change (py_eq lc_sub_array 1);
  '(r, c) ← py_shape lc_sub_array;
  let final_array := np_full r c 255 in
  final_array ← np_setmask final_array (Arr forest_changes) 0;
  final_array ← np_setmask final_array (Arr rangeland_changes) 1;
  np_setmask final_array mask_fchm 255.

(** ** Strings and paths *)

(** [s.replace(old, new)]: every non-overlapping occurrence, scanned from
    the left. [skip] counts the characters of a match still to be
    dropped. *)
Fixpoint str_replace_from (skip : nat) (old new s : string) : string :=
  match s with
  | EmptyString => EmptyString
  | String c s' =>
      match skip with
      | S k => str_replace_from k old new s'
      | O =>
          if String.prefix old s
          then new +:+ str_replace_from (String.length old - 1) old new s'
          else String c (str_replace_from 0 old new s')
      end
  end.

Definition str_replace (old new s : string) : string :=
  str_replace_from 0 old new s.

(** [s.split(sep)] for a one-character separator. *)
Fixpoint str_split (sep : ascii) (s : string) : list string :=
  match s with
  | EmptyString => [EmptyString]
  | String c s' =>
      if Ascii.eqb c sep then EmptyString :: str_split sep s'
      else match str_split sep s' with
           | h :: t => String c h :: t
           | [] => [String c EmptyString]
           end
  end.

(** [s.rpartition(c)] without the separator; [None] when [c] is absent. *)
Fixpoint rsplit1 (c : ascii) (s : string) : option (string * string) :=
  match s with
  | EmptyString => None
  | String a s' =>
      match rsplit1 c s' with
      | Some (b, t) => Some (String a b, t)
      | None => if Ascii.eqb a c then Some (EmptyString, s') else None
      end
  end.

Fixpoint all_char (c : ascii) (s : string) : bool :=
  match s with
  | EmptyString => true
  | String a s' => Ascii.eqb a c && all_char c s'
  end.

Definition ends_with_slash (s : string) : bool :=
  match rsplit1 "/" s with
  | Some (_, EmptyString) => true
  | _ => false
  end.

(** [s.rstrip('/')] *)
Fixpoint rstrip_slash (s : string) : string :=
  match s with
  | EmptyString => EmptyString
  | String a s' =>
      if all_char "/" s then EmptyString else String a (rstrip_slash s')
  end.

(** [posixpath.join(a, b)] *)
Definition dir_prefix (a : string) : string :=
  match a with
  | EmptyString => EmptyString
  | _ => if ends_with_slash a then a else a +:+ "/"
  end.

Definition os_path_join (a b : string) : string :=
  if String.prefix "/" b then b else dir_prefix a +:+ b.

(** [posixpath.split(p)] *)
Definition os_path_split (p : string) : string * string :=
  match rsplit1 "/" p with
  | None => (EmptyString, p)
  | Some (b, tail) =>
      let head := b +:+ "/" in
      (if all_char "/" head then head else rstrip_slash head, tail)
  end.

(** [posixpath.splitext(p)]: the extension starts at the last dot of the
    last component, unless only dots precede it there. *)
Definition os_path_splitext (p : string) : string * string :=
  let '(dir, base) :=
    match rsplit1 "/" p with
    | None => (EmptyString, p)
    | Some (b, tail) => (b +:+ "/", tail)
    end in
  match rsplit1 "." base with
  | Some (stem, ext) =>
      if all_char "." stem then (p, EmptyString)
      else (dir +:+ stem, "." +:+ ext)
  | None => (p, EmptyString)
  end.

(** ** Rasters, files and the world *)

Record geotrans := GeoTrans {
  gt0 : sample; gt1 : sample; gt2 : sample;
  gt3 : sample; gt4 : sample; gt5 : sample
}.

Record band := Band {
  NoDataValue : option sample;
  pixels : ndarray sample
}.

Record dataset := Dataset {
  GeoTransform : geotrans;
  Projection : string;
  RasterXSize : Z;
  RasterYSize : Z;
  bands : list band
}.

(** A file is a raster or a zip archive, empty or with one member (the
    only archives the program writes). *)
Inductive file :=
  | Raster (ds : dataset)
  | EmptyZip
  | ZipFile (arcname : string) (member : file).

(** A trace of the calls into the two private methods. The source keeps
    no such record; the trace is how a statement that a method was or was
    not invoked is expressed. *)
Inductive call :=
  | CallProcessChmap (temp_dir chmap bin_file_path : string)
  | CallDbSeeder (temp_dir image_path ptype : string).

Record world := World {
  fs : gmap string file;
  dirs : gset string;
  calls : list call
}.

(** State survives an exception: what was written before a [raise] stays
    written. *)
Definition M (A : Type) : Type := world → res A * world.

#[global] Instance M_ret : MRet M := λ A a w, (Ok a, w).
#[global] Instance M_bind : MBind M := λ A B f m w,
  match m w with
  | (Ok a, w') => f a w'
  | (Raise e, w') => (Raise e, w')
  end.

Definition lift {A} (r : res A) : M A := λ w, (r, w).
Definition raise {A} (e : exn) : M A := λ w, (Raise e, w).
Definition get_world : M world := λ w, (Ok w, w).
Definition record_call (c : call) : M unit :=
  λ w, (Ok tt, World (fs w) (dirs w) (c :: calls w)).
Definition commit (path : string) (f : file) : M unit :=
  λ w, (Ok tt, World (<[path := f]> (fs w)) (dirs w) (calls w)).

(** [os.path.exists] *)
Definition os_path_exists (path : string) : M bool :=
  λ w, (Ok (bool_decide (is_Some (fs w !! path)) || bool_decide (path ∈ dirs w)), w).

(** [os.makedirs]; only the leaf directory is recorded. *)
Definition os_makedirs (path : string) : M unit :=
  λ w, (Ok tt, World (fs w) ({[path]} ∪ dirs w) (calls w)).

(** [gdal.Open(path, GA_ReadOnly)], which returns [None] on failure (the
    source never enables GDAL exceptions and tests for [None]). *)
Definition gdal_Open (path : string) : M (option dataset) :=
  λ w, (Ok match fs w !! path with Some (Raster ds) => Some ds | _ => None end, w).

Definition GetRasterBand (ds : dataset) (k : nat) : option band :=
  match k with
  | O => None
  | S k' => bands ds !! k'
  end.

Definition XSize (b : band) : Z := Z.of_nat (ncols (pixels b)).
Definition YSize (b : band) : Z := Z.of_nat (nrows (pixels b)).

(** [band.ReadAsArray(xoff, yoff, win_xsize, win_ysize)]: a negative size
    raises when the buffer is allocated, an empty window reads nothing,
    and a window that leaves the band makes GDAL return [None]. *)
Definition ReadAsArray (b : band) (xoff yoff win_xsize win_ysize : Z)
    : res (option (ndarray sample)) :=
  if (win_xsize <? 0) || (win_ysize <? 0) then Raise ValueError
  else if (win_xsize =? 0) || (win_ysize =? 0)
          || ((0 <=? xoff) && (0 <=? yoff)
              && (xoff + win_xsize <=? XSize b) && (yoff + win_ysize <=? YSize b))
  then Ok (Some (tabulate (Z.to_nat win_ysize) (Z.to_nat win_xsize)
                   (λ i j, cell (pixels b) (Z.to_nat yoff + i) (Z.to_nat xoff + j))))
  else Ok None.

(** A method call on a band handle that may be [None]. *)
Definition band_ReadAsArray (b : option band) (xoff yoff : sample)
    (win_xsize win_ysize : Z) : res (option (ndarray sample)) :=
  match b with
  | None => Raise AttributeError
  | Some b =>
      x ← py_int xoff; y ← py_int yoff;
      ReadAsArray b x y win_xsize win_ysize
  end.

(** Conversion of a Python integer to [GDT_Byte], which saturates. *)
Definition to_byte (z : Z) : sample := of_int (Z.max 0 (Z.min 255 z)).

(** [band.WriteArray(array)] at offset (0, 0): an array larger than the
    band is refused, a smaller one fills the upper left corner. *)
Definition WriteArray (b : band) (array : ndarray Z) : res band :=
  if (XSize b <? Z.of_nat (ncols array)) || (YSize b <? Z.of_nat (nrows array))
  then Raise ValueError
  else Ok (Band (NoDataValue b)
             (tabulate (nrows (pixels b)) (ncols (pixels b))
                (λ i j, if (i <? nrows array)%nat && (j <? ncols array)%nat
                        then to_byte (cell array i j)
                        else cell (pixels b) i j))).

Definition default_geotrans : geotrans :=
  GeoTrans (of_int 0) (of_int 1) (of_int 0) (of_int 0) (of_int 0) (of_int 1).

Definition blank_byte_dataset (xsize ysize : Z) : dataset :=
  Dataset default_geotrans EmptyString xsize ysize
    [Band None (np_full (Z.to_nat ysize) (Z.to_nat xsize) (of_int 0))].

(** [driver.Create(path, xsize, ysize, 1, gdal.GDT_Byte)] followed by the
    first method call on its result: GDAL refuses an empty raster and
    returns [None], on which the method call raises. *)
Definition gdal_Create (path : string) (xsize ysize : Z) : M dataset :=
  if (0 <? xsize) && (0 <? ysize)
  then let ds := blank_byte_dataset xsize ysize in
       commit path (Raster ds);; mret ds
  else raise AttributeError.

Definition SetGeoTransform (gt : geotrans) (ds : dataset) : dataset :=
  Dataset gt (Projection ds) (RasterXSize ds) (RasterYSize ds) (bands ds).

Definition SetProjection (proj : string) (ds : dataset) : dataset :=
  Dataset (GeoTransform ds) proj (RasterXSize ds) (RasterYSize ds) (bands ds).

Definition set_band1 (b : band) (ds : dataset) : dataset :=
  Dataset (GeoTransform ds) (Projection ds) (RasterXSize ds) (RasterYSize ds)
    (<[0%nat := b]> (bands ds)).

Definition SetNoDataValue (v : sample) (b : band) : band :=
  Band (Some v) (pixels b).

(** The band of a dataset made by [gdal_Create]. *)
Definition band1 (ds : dataset) : band :=
  default (Band None (np_full 0 0 NaN)) (GetRasterBand ds 1).

(** ** The object and its collaborators *)

(** An instance of [DecTree]. [__init__] assigns [seed_db], [url_bin],
    [url_nrgb] and [headers] only inside its first [if]; an attribute that
    was never assigned is [None] here, and reading it raises
    [AttributeError]. The assigned value of [seed_db] is Python's [None]
    or [True]. *)
Record DecTree := {
  input_base_dir : string;
  output_base_dir : string;
  landcover : string;
  false_mask : string;
  url_bin : option string;
  url_nrgb : option string;
  seed_db : option (option bool)
}.

(** The relocated transform and the two pixel windows: [_sub] is the
    window into the change map, the other the window into the land cover
    (and the false mask). *)
Record windows := Windows {
  new_trg_geoTrans : geotrans;
  ulX_sub : sample; ulY_sub : sample; xsize_sub : Z; ysize_sub : Z;
  ulX : sample; ulY : sample; xsize : Z; ysize : Z
}.

(** What the program consumes from GDAL/OGR, the operating system and the
    network and this development leaves open: floating-point arithmetic,
    geometry, reprojection, the proximity transform, directory listings,
    temporary names, the calendar conversion and HTTP. For
    [ComputeProximity] the function gives the value written to cell
    [(i, j)] of the destination band. *)
Class Externals := {
  fadd : sample → sample → sample;
  fsub : sample → sample → sample;
  fmul : sample → sample → sample;
  geometry : Type;
  Polygon : list (sample * sample) → geometry;
  Intersection : geometry → geometry → option geometry;
  Area : geometry → sample;
  Boundary : geometry → geometry;
  GetEnvelope : geometry → sample * sample * sample * sample;
  Warp : dataset → option dataset;
  InvGeoTransform : geotrans → option geotrans;
  ApplyGeoTransform : geotrans → sample → sample → sample * sample;
  ComputeProximity : ndarray sample → list string → nat → nat → sample;
  listdir : world → string → res (list string);
  mkdtemp : world → string;
  fromgregorian : string → option (string * Z * Z);
  get_token : string → string → string → res (option string);
  requests_get : string → res Z;
  requests_post : string → string → file → res string
}.

Definition truthy (s : option string) : bool :=
  match s with
  | Some (String _ _) => true
  | _ => false
  end.

Section program.
Context {ext : Externals}.

(** [DecTree.__init__] (logging left out). *)
Definition DecTree_init (address username password : option string)
    (input output landcover false_mask : string) (seed_db : bool)
    : res DecTree :=
  let plain := Build_DecTree input output landcover false_mask None None None in
  if seed_db && truthy address && truthy username && truthy password then
    let address := default EmptyString address in
    let url_bin := address +:+ "/gcms/api/TreeCoverLossRaster/" in
    let url_nrgb := address +:+ "/gcms/api/Sentinel2Raster/" in
    auth_token ← get_token address (default EmptyString username)
                    (default EmptyString password);
    let connected :=
      if truthy auth_token then
        match requests_get url_bin with
        | Ok 200 => Some true
        | _ => None
        end
      else None in
    mret (Build_DecTree input output landcover false_mask
            (Some url_bin) (Some url_nrgb) (Some connected))
  else mret plain.

(** [DecTree.__getBBox] *)
Definition getBBox (ds : dataset) : geometry :=
  let xmin := gt0 (GeoTransform ds) in
  let xpixel := gt1 (GeoTransform ds) in
  let ymax := gt3 (GeoTransform ds) in
  let ypixel := gt5 (GeoTransform ds) in
  let width := RasterXSize ds in
  let height := RasterYSize ds in
  let xmax := fadd xmin (fmul (of_int width) xpixel) in
  let ymin := fadd ymax (fmul (of_int height) ypixel) in
  Polygon [(xmin, ymin); (xmax, ymin); (xmax, ymax); (xmin, ymax); (xmin, ymin)].

(** [gdal.Warp(dst, src, ...)]: the reprojected raster is written to
    [dst] and returned; [None] on failure. *)
Definition gdal_Warp (dst src : string) : M (option dataset) :=
  src_ds ← gdal_Open src;
  match src_ds ≫= Warp with
  | Some ds => commit dst (Raster ds);; mret (Some ds)
  | None => mret None
  end.

(** [gdal.ApplyGeoTransform] on the result of [gdal.InvGeoTransform],
    which is [None] for a singular transform. *)
Definition gdal_ApplyGeoTransform (gt : option geotrans) (x y : sample)
    : res (sample * sample) :=
  match gt with
  | Some gt => Ok (ApplyGeoTransform gt x y)
  | None => Raise TypeError
  end.

Definition proximity_options : list string :=
  ["VALUES=2"; "MAXDIST=5"; "DISTUNITS=PIXEL"; "NODATA=255"; "FIXED_BUF_VAL=0"].

Definition gdal_ComputeProximity (src dst : band) (options : list string) : band :=
  Band (NoDataValue dst)
    (tabulate (nrows (pixels dst)) (ncols (pixels dst))
       (ComputeProximity (pixels src) options)).

(** [__process_chmap], lines 180-206: the relocated transform and the
    two pixel windows. *)
Definition aligned_windows (lc_inv_geotrans : option geotrans)
    (trg_geoTrans : geotrans) (intersection : geometry) : res windows :=
  let bounds_geo := Boundary intersection in
  let '(xmin_sub, xmax_sub, ymin_sub, ymax_sub) := GetEnvelope bounds_geo in
  let new_trg_geoTrans :=
    GeoTrans xmin_sub (gt1 trg_geoTrans) (gt2 trg_geoTrans)
             ymax_sub (gt4 trg_geoTrans) (gt5 trg_geoTrans) in
  let trg_inv_geotrans := InvGeoTransform trg_geoTrans in
  '(ulX_sub, ulY_sub) ← gdal_ApplyGeoTransform trg_inv_geotrans xmin_sub ymax_sub;
  '(lrX_sub, lrY_sub) ← gdal_ApplyGeoTransform trg_inv_geotrans xmax_sub ymin_sub;
  xsize_sub ← py_int (fsub lrX_sub ulX_sub);
  ysize_sub ← py_int (fsub lrY_sub ulY_sub);
  '(ulX, ulY) ← gdal_ApplyGeoTransform lc_inv_geotrans xmin_sub ymax_sub;
  '(lrX, lrY) ← gdal_ApplyGeoTransform lc_inv_geotrans xmax_sub ymin_sub;
  xsize ← py_int (fsub lrX ulX);
  ysize ← py_int (fsub lrY ulY);
  mret (Windows new_trg_geoTrans ulX_sub ulY_sub xsize_sub ysize_sub
          ulX ulY xsize ysize).

(** Lines 208-220: the land cover, the false mask and every band of the
    change map, each read over its own window. *)
Definition read_windows (lc_band fm_band : option band) (trg_ds : dataset)
    (win : windows)
    : res (option (ndarray sample) * option (ndarray sample)
           * list (option (ndarray sample))) :=
  lc_sub_array ← band_ReadAsArray lc_band (ulX win) (ulY win) (xsize win) (ysize win);
  fm_sub_array ← band_ReadAsArray fm_band (ulX win) (ulY win) (xsize win) (ysize win);
  image_bands ← mapM (λ trg_band,
      band_ReadAsArray (Some trg_band) (ulX_sub win) (ulY_sub win)
        (xsize_sub win) (ysize_sub win))
    (bands trg_ds);
  mret (lc_sub_array, fm_sub_array, image_bands).

(** Lines 261-282: the evidence sum and the proximity map, both written
    to the temporary directory; the result is [prx_array]. *)
Definition write_sum_and_proximity (temp_dir trg_projection : string)
    (win : windows) (sum_change : ndarray Z) : M (ndarray sample) :=
  let sum_fname := os_path_join temp_dir "sum_change_temp.tif" in
  sum_ds ← gdal_Create sum_fname (xsize win) (ysize win);
  let sum_ds := SetProjection trg_projection
                  (SetGeoTransform (new_trg_geoTrans win) sum_ds) in
  commit sum_fname (Raster sum_ds);;
  sum_band ← lift (WriteArray (band1 sum_ds) sum_change);
  commit sum_fname (Raster (set_band1 sum_band sum_ds));;
  let prx_fname := os_path_join temp_dir "proxy_temp.tif" in
  prx_ds ← gdal_Create prx_fname (xsize win) (ysize win);
  let prx_ds := SetProjection trg_projection
                  (SetGeoTransform (new_trg_geoTrans win) prx_ds) in
  commit prx_fname (Raster prx_ds);;
  let prx_band := gdal_ComputeProximity sum_band (band1 prx_ds) proximity_options in
  commit prx_fname (Raster (set_band1 prx_band prx_ds));;
  mret (pixels prx_band).

(** Lines 299-308: the label raster. *)
Definition write_labels (bin_file_path trg_projection : string)
    (win : windows) (final_array : ndarray Z) : M unit :=
  bin_ds ← gdal_Create bin_file_path (xsize win) (ysize win);
  let bin_ds := SetProjection trg_projection
                  (SetGeoTransform (new_trg_geoTrans win) bin_ds) in
  commit bin_file_path (Raster bin_ds);;
  let bin_band := SetNoDataValue (of_int 255) (band1 bin_ds) in
  commit bin_file_path (Raster (set_band1 bin_band bin_ds));;
  bin_band ← lift (WriteArray bin_band final_array);
  commit bin_file_path (Raster (set_band1 bin_band bin_ds)).

(** Lines 208-308, from the windows on. *)
Definition classify_and_write (temp_dir bin_file_path : string)
    (lc_band fm_band : option band) (trg_ds : dataset) (win : windows)
    : M unit :=
  '(lc_sub_array, fm_sub_array, image_bands) ←
    lift (read_windows lc_band fm_band trg_ds win);
  let mask_fchm := py_eq fm_sub_array 1 in
  match image_bands with
  | [blue_band; green_band; red_band; nir_band; kisqr_band] =>
      ev ← lift (threshold_stage lc_sub_array blue_band red_band nir_band kisqr_band);
      prx_array ← write_sum_and_proximity temp_dir (Projection trg_ds) win
                    (sum_change ev);
      total_change ← lift (total_change_of (total_change_weak ev) prx_array);
      final_array ← lift (label_stage total_change lc_sub_array mask_fchm);
      write_labels bin_file_path (Projection trg_ds) win final_array
  | _ => raise ValueError
  end.

(** The body of the overlap branch, lines 180-322. *)
Definition process_overlap (temp_dir bin_file_path : string)
    (lc_band fm_band : option band) (lc_inv_geotrans : option geotrans)
    (trg_ds : dataset) (intersection : geometry) : M unit :=
  win ← lift (aligned_windows lc_inv_geotrans (GeoTransform trg_ds) intersection);
  classify_and_write temp_dir bin_file_path lc_band fm_band trg_ds win.

(** [DecTree.__process_chmap] *)
Definition process_chmap (self : DecTree) (temp_dir chmap bin_file_path : string)
    : M unit :=
  record_call (CallProcessChmap temp_dir chmap bin_file_path);;
  lc_ds ← gdal_Open (landcover self);
  match lc_ds with
  | None => raise (SystemExit 1)
  | Some lc_ds =>
      let lc_band := GetRasterBand lc_ds 1 in
      let lc_bbox := getBBox lc_ds in
      let lc_inv_geotrans := InvGeoTransform (GeoTransform lc_ds) in
      fm_ds ← gdal_Open (false_mask self);
      match fm_ds with
      | None => raise (SystemExit 1)
      | Some fm_ds =>
          let fm_band := GetRasterBand fm_ds 1 in
          let trg_fname := os_path_join temp_dir "CHMAP_3857_temp.tif" in
          trg_ds ← gdal_Warp trg_fname chmap;
          match trg_ds with
          | None => raise AttributeError
          | Some trg_ds =>
              let trg_bbox := getBBox trg_ds in
              match Intersection lc_bbox trg_bbox with
              | Some intersection =>
                  if sample_gt (Area intersection) 0
                  then process_overlap temp_dir bin_file_path lc_band fm_band
                         lc_inv_geotrans trg_ds intersection
                  else mret tt
              | None => mret tt
              end
          end
      end
  end.

(** [DecTree.__db_seeder]. The archive exists, empty, from the moment
    [zipfile.ZipFile] opens it for writing; [zf.write] then reads the
    image. *)
Definition db_seeder (self : DecTree) (temp_dir image_path ptype : string)
    : M string :=
  record_call (CallDbSeeder temp_dir image_path ptype);;
  let '(base_dir, _ext) := os_path_splitext image_path in
  let '(base_dir, fname) := os_path_split base_dir in
  match str_split "_" fname with
  | [platform; date_obj; product; tile; c; version; frc; ftype] =>
      let date_time_str := default EmptyString (head (str_split "-" date_obj)) in
      match fromgregorian date_time_str with
      | None => raise ValueError
      | Some (yyyymm, year, month) =>
          let pname := ptype +:+ "_" +:+ yyyymm +:+ "_" +:+ tile +:+ ".tif" in
          let zfname := ptype +:+ "_" +:+ yyyymm +:+ "_" +:+ tile +:+ ".zip" in
          let zpath := os_path_join temp_dir zfname in
          commit zpath EmptyZip;;
          w ← get_world;
          match fs w !! image_path with
          | None => raise FileNotFoundError
          | Some image =>
              let zf := ZipFile pname image in
              commit zpath zf;;
              url ← (if String.eqb ftype "NRGB"
                     then match url_nrgb self with
                          | Some u => mret u
                          | None => raise AttributeError
                          end
                     else match url_bin self with
                          | Some u => mret u
                          | None => raise AttributeError
                          end);
              lift (requests_post url zfname zf)
          end
      end
  | _ => raise ValueError
  end.

(** [if self.seed_db:] *)
Definition read_seed_db (self : DecTree) : M bool :=
  match seed_db self with
  | None => raise AttributeError
  | Some v => mret (default false v)
  end.

Definition in_dir (d p : string) : bool := String.prefix (dir_prefix d) p.

(** [with tempfile.TemporaryDirectory() as temp_dir:] -- the directory
    and everything in it are removed when the block is left, by
    [return] or by an exception. *)
Definition enter_temp_dir (w : world) : world :=
  World (fs w) ({[mkdtemp w]} ∪ dirs w) (calls w).

Definition leave_temp_dir (temp_dir : string) (w : world) : world :=
  World (filter (λ kv, in_dir temp_dir kv.1 = false) (fs w))
        (dirs w ∖ {[temp_dir]}) (calls w).

Definition with_TemporaryDirectory {A} (body : string → M A) : M A :=
  λ w,
    let temp_dir := mkdtemp w in
    let '(r, w') := body temp_dir (enter_temp_dir w) in
    (r, leave_temp_dir temp_dir w').

(** [DecTree.run], lines 384-419: the body of the inner loop. *)
Definition run_file (self : DecTree) (out_dir chmap_paths file : string) : M unit :=
  let chmap_file_path := os_path_join chmap_paths file in
  let bname := str_replace "CHMAP" "BIN" file in
  let bin_file_path := os_path_join out_dir bname in
  with_TemporaryDirectory (λ temp_dir,
    present ← os_path_exists bin_file_path;
    if negb present then
      process_chmap self temp_dir chmap_file_path bin_file_path;;
      seed ← read_seed_db self;
      if seed : bool then db_seeder self temp_dir bin_file_path "CHMAP";; mret tt
      else mret tt
    else
      seed ← read_seed_db self;
      if seed : bool then db_seeder self temp_dir bin_file_path "CHMAP";; mret tt
      else mret tt).

Definition for_each {A} (l : list A) (body : A → M unit) : M unit :=
  foldr (λ x rest, body x;; rest) (mret tt) l.

Definition os_listdir (path : string) : M (list string) :=
  λ w, (listdir w path, w).

(** [DecTree.run], lines 374-383: the body of the outer loop. *)
Definition run_tile (self : DecTree) (tile : string) : M unit :=
  let out_dir := os_path_join (output_base_dir self) tile in
  present ← os_path_exists out_dir;
  (if negb present then os_makedirs out_dir else mret tt);;
  let chmap_paths := os_path_join (input_base_dir self) tile in
  chmaps ← os_listdir chmap_paths;
  for_each chmaps (run_file self out_dir chmap_paths).

(** [DecTree.run] *)
Definition run (self : DecTree) : M unit :=
  tiles ← os_listdir (input_base_dir self);
  for_each tiles (run_tile self).
End program.

(** ** A concrete instance of the collaborators

    Exact rational arithmetic, axis-aligned rectangles, an identity
    reprojection, a proximity transform over a disc, and the calendar on
    the one day the demo inputs carry. It is used to run the program on
    concrete worlds; the general results below hold for every
    instance. *)

Definition exact2 (f : Q → Q → Q) (x y : sample) : sample :=
  match x, y with
  | Fin a, Fin b => Fin (Qred (f a b))
  | _, _ => NaN
  end.

Definition Qmin' (a b : Q) : Q := if Qle_bool a b then a else b.
Definition Qmax' (a b : Q) : Q := if Qle_bool a b then b else a.

(** A rectangle [(xmin, xmax, ymin, ymax)]; [None] is the empty geometry. *)
Definition rectangle : Type := option (Q * Q * Q * Q).

Definition rect_add_point (g : rectangle) (p : sample * sample) : rectangle :=
  match p with
  | (Fin x, Fin y) =>
      match g with
      | Some (x0, x1, y0, y1) => Some (Qmin' x0 x, Qmax' x1 x, Qmin' y0 y, Qmax' y1 y)
      | None => Some (x, x, y, y)
      end
  | _ => g
  end.

Definition rect_polygon (ring : list (sample * sample)) : rectangle :=
  foldl rect_add_point None ring.

Definition rect_intersection (a b : rectangle) : option rectangle :=
  match a, b with
  | Some (ax0, ax1, ay0, ay1), Some (bx0, bx1, by0, by1) =>
      let x0 := Qmax' ax0 bx0 in let x1 := Qmin' ax1 bx1 in
      let y0 := Qmax' ay0 by0 in let y1 := Qmin' ay1 by1 in
      if Qle_bool x0 x1 && Qle_bool y0 y1 then Some (Some (x0, x1, y0, y1))
      else Some None
  | _, _ => None
  end.

Definition rect_area (g : rectangle) : sample :=
  match g with
  | Some (x0, x1, y0, y1) => Fin (Qred ((x1 - x0) * (y1 - y0)))
  | None => of_int 0
  end.

Definition rect_envelope (g : rectangle) : sample * sample * sample * sample :=
  match g with
  | Some (x0, x1, y0, y1) => (Fin x0, Fin x1, Fin y0, Fin y1)
  | None => (of_int 0, of_int 0, of_int 0, of_int 0)
  end.

(** The inverse of a transform without rotation terms. *)
Definition north_up_inverse (gt : geotrans) : option geotrans :=
  match gt1 gt, gt5 gt with
  | Fin a, Fin e =>
      if Qeq_bool a 0 || Qeq_bool e 0 then None
      else Some (GeoTrans (exact2 Qdiv (exact2 Qmult (of_int (-1)) (gt0 gt)) (Fin a))
                          (Fin (Qred (/ a))) (of_int 0)
                          (exact2 Qdiv (exact2 Qmult (of_int (-1)) (gt3 gt)) (Fin e))
                          (of_int 0) (Fin (Qred (/ e))))
  | _, _ => None
  end.

Definition affine_apply (gt : geotrans) (x y : sample) : sample * sample :=
  (exact2 Qplus (gt0 gt) (exact2 Qplus (exact2 Qmult x (gt1 gt)) (exact2 Qmult y (gt2 gt))),
   exact2 Qplus (gt3 gt) (exact2 Qplus (exact2 Qmult x (gt4 gt)) (exact2 Qmult y (gt5 gt)))).

(** [0] where the centre of a cell equal to 2 lies at a Euclidean
    distance of at most 5 pixels, [255] elsewhere. *)
Definition disc_proximity (src : ndarray sample) (options : list string)
    (i j : nat) : sample :=
  if existsb (λ k, existsb (λ l,
         let dy := Z.of_nat k - Z.of_nat i in
         let dx := Z.of_nat l - Z.of_nat j in
         (dx * dx + dy * dy <=? 25) && sample_eq (cell src k l) 2)
       (seq 0 (ncols src))) (seq 0 (nrows src))
  then of_int 0 else of_int 255.

(** 1 January 2023 is 11 Dey 1401; no other day is asked for, and none
    is answered. *)
Definition demo_calendar (date_time_str : string) : option (string * Z * Z) :=
  if String.eqb date_time_str "20230101" then Some ("140110", 1401, 10)
  else None.

Definition exact_externals : Externals := {|
  fadd := exact2 Qplus;
  fsub := exact2 Qminus;
  fmul := exact2 Qmult;
  geometry := rectangle;
  Polygon := rect_polygon;
  Intersection := rect_intersection;
  Area := rect_area;
  Boundary := id;
  GetEnvelope := rect_envelope;
  Warp := Some;
  InvGeoTransform := north_up_inverse;
  ApplyGeoTransform := affine_apply;
  ComputeProximity := disc_proximity;
  listdir := λ _ _, Ok [];
  mkdtemp := λ _, "/tmp/tmpdectree";
  fromgregorian := demo_calendar;
  get_token := λ _ _ _, Ok (Some "token");
  requests_get := λ _, Ok 200;
  requests_post := λ _ _ _, Ok "created"
|}.

(** A 2x3 grid of 10 m pixels with its upper left corner at (0, 20). *)
Definition demo_geotrans : geotrans :=
  GeoTrans (of_int 0) (of_int 10) (of_int 0) (of_int 20) (of_int 0) (of_int (-10)).

Definition demo_grid (rows : list (list Z)) : ndarray sample :=
  tabulate 2 3 (λ i j, of_int (default 0 (default [] (rows !! i) !! j))).

Definition demo_dataset (gt : geotrans) (grids : list (ndarray sample)) : dataset :=
  Dataset gt "EPSG:3857" 3 2 (Band None <$> grids).

(** Land cover: forest, rangeland, an excluded class. The change map is
    co-detected on the left column, weak-only in the middle, unchanged on
    the right. The false-positive mask vetoes the lower left cell. *)
Definition demo_lc : ndarray sample := demo_grid [[0; 1; 3]; [0; 1; 3]].
Definition demo_fm : ndarray sample := demo_grid [[0; 0; 0]; [1; 0; 0]].
Definition demo_blue : ndarray sample := demo_grid [[6; 5; 0]; [6; 5; 0]].
Definition demo_green : ndarray sample := demo_grid [[0; 0; 0]; [0; 0; 0]].
Definition demo_red : ndarray sample := demo_grid [[-3; -2; 0]; [-3; -2; 0]].
Definition demo_nir : ndarray sample := demo_grid [[-3; -2; 0]; [-3; -2; 0]].
Definition demo_kisqr : ndarray sample :=
  demo_grid [[800; 1800; 0]; [800; 1800; 0]].

Definition demo_lc_ds : dataset := demo_dataset demo_geotrans [demo_lc].
Definition demo_fm_ds : dataset := demo_dataset demo_geotrans [demo_fm].
Definition demo_chmap_ds : dataset :=
  demo_dataset demo_geotrans
    [demo_blue; demo_green; demo_red; demo_nir; demo_kisqr].

Definition demo_chmap : string :=
  "/in/39SUB/S2_20230101-0_CHMAP_39SUB_C_V1_FRC_CHMAP.tif".

Definition demo_bin : string :=
  "/out/39SUB/S2_20230101-0_BIN_39SUB_C_V1_FRC_BIN.tif".

Definition demo_fs : gmap string file :=
  <[demo_chmap := Raster demo_chmap_ds]>
  (<["/aux/landcover.tif" := Raster demo_lc_ds]>
  (<["/aux/false_mask.tif" := Raster demo_fm_ds]> ∅)).

Definition demo_world : world := World demo_fs ∅ [].

(** The same inputs with a land cover that lies 1 km to the east. *)
Definition far_geotrans : geotrans :=
  GeoTrans (of_int 1000) (of_int 10) (of_int 0) (of_int 20) (of_int 0) (of_int (-10)).

Definition far_lc_ds : dataset := demo_dataset far_geotrans [demo_lc].

Definition far_world : world :=
  World (<["/aux/landcover.tif" := Raster far_lc_ds]> demo_fs) ∅ [].

(** The same inputs after a first run: the output path exists. *)
Definition done_world : world :=
  World (<[demo_bin := Raster demo_fm_ds]> demo_fs) ∅ [].

Definition demo_self : DecTree :=
  Build_DecTree "/in" "/out" "/aux/landcover.tif" "/aux/false_mask.tif" None None None.

(** An instance that uploads: [seed_db] is [True]. *)
Definition seeding_self : DecTree :=
  Build_DecTree "/in" "/out" "/aux/landcover.tif" "/aux/false_mask.tif"
    (Some "http://host/gcms/api/TreeCoverLossRaster/")
    (Some "http://host/gcms/api/Sentinel2Raster/") (Some (Some true)).

(** The intersection of the two demo footprints and its envelope. *)
Definition demo_intersection : rectangle := Some (0, 30, 0, 20)%Q.

(** Windows of equal and of unequal width. *)
Definition demo_win : windows :=
  Windows demo_geotrans (of_int 0) (of_int 0) 3 2 (of_int 0) (of_int 0) 3 2.

Definition narrow_win : windows :=
  Windows demo_geotrans (of_int 0) (of_int 0) 2 2 (of_int 0) (of_int 0) 3 2.

(** A weak grid set on the two left columns, and a proximity map that is
    near everywhere. *)
Definition demo_weak : ndarray bool := tabulate 2 3 (λ _ j, bool_decide (j < 2)%nat).
Definition demo_prx : ndarray sample := np_full 2 3 (of_int 0).

Definition to_rows `{!Inhabited A} (a : ndarray A) : list (list A) :=
  (λ i, cell a i <$> seq 0 (ncols a)) <$> seq 0 (nrows a).

(** The rows of the first band of the raster stored at [path]. *)
Definition band1_rows (w : world) (path : string) : option (list (list sample)) :=
  match fs w !! path with
  | Some (Raster ds) => Some (to_rows (pixels (band1 ds)))
  | _ => None
  end.

(** ** The rules as the specification words them

    These are compared with what the array code computes. *)

(** [2.0<blue<10.0 AND -5.0<red<-1.0 AND -5.0<nir<-1.0 AND 150<stat<1500] *)
Definition STRONG (blue red nir stat : sample) : bool :=
  (sample_gt blue 2 && sample_lt blue 10)
  && (sample_gt red (-5) && sample_lt red (-1))
  && (sample_gt nir (-5) && sample_lt nir (-1))
  && (sample_gt stat 150 && sample_lt stat 1500).

(** [1.0<blue<11.0 AND -6.0<red<0.0 AND -6.0<nir<0.0 AND 100<stat<2000] *)
Definition WEAK (blue red nir stat : sample) : bool :=
  (sample_gt blue 1 && sample_lt blue 11)
  && (sample_gt red (-6) && sample_lt red 0)
  && (sample_gt nir (-6) && sample_lt nir 0)
  && (sample_gt stat 100 && sample_lt stat 2000).

(** Start from 255, set 0 where confirmed and forest, then 1 where
    confirmed and rangeland, and force 255 where the false-positive mask
    is set. *)
Definition label_of (confirmed : bool) (landcover : sample) (false_positive : bool)
    : Z :=
  let v := 255 in
  let v := if confirmed && sample_eq landcover 0 then 0 else v in
  let v := if confirmed && sample_eq landcover 1 then 1 else v in
  if false_positive then 255 else v.

(** [a] is a subset of [b]: same shape, and every set cell of [a] is set
    in [b]. *)
Definition grid_le (a b : ndarray bool) : Prop :=
  nrows a = nrows b ∧ ncols a = ncols b ∧
  ∀ i j, (i < nrows a)%nat → (j < ncols a)%nat →
    cell a i j = true → cell b i j = true.

(** No cell of the grid is set. *)
Definition grid_empty (a : ndarray bool) : Prop :=
  ∀ i j, (i < nrows a)%nat → (j < ncols a)%nat → cell a i j = false.

(** ** Effects of a computation

    [effect P Q m]: whatever the outcome, [m] leaves every path outside
    [P] as it was, and the calls it adds to the trace all satisfy [Q]. *)
Definition effect {A} (P : string → Prop) (Q : call → Prop) (m : M A) : Prop :=
  ∀ w,
    (∀ p, ¬ P p → fs (m w).2 !! p = fs w !! p) ∧
    ∃ new, calls (m w).2 = new ++ calls w ∧ Forall Q new.

(** The directory [tempfile] is about to create holds no file yet. *)
Definition temp_dir_fresh {ext : Externals} (w : world) : Prop :=
  ∀ p, in_dir (mkdtemp w) p = true → fs w !! p = None.

(** [path] holds a raster georeferenced with [gt]. *)
Definition georeferenced (gt : geotrans) (w : world) (path : string) : Prop :=
  ∃ ds, fs w !! path = Some (Raster ds) ∧ GeoTransform ds = gt.

Definition is_process_call (c : call) : bool :=
  match c with
  | CallProcessChmap _ _ _ => true
  | CallDbSeeder _ _ _ => false
  end.

(** The three rasters [__process_chmap] writes to the temporary
    directory. *)
Definition trg_fname (temp_dir : string) : string :=
  os_path_join temp_dir "CHMAP_3857_temp.tif".
Definition sum_fname (temp_dir : string) : string :=
  os_path_join temp_dir "sum_change_temp.tif".
Definition prx_fname (temp_dir : string) : string :=
  os_path_join temp_dir "proxy_temp.tif".

(** The band of a fresh [GDT_Byte] raster, and a one-band raster file. *)
Definition blank_band (xsize ysize : Z) : band :=
  Band None (np_full (Z.to_nat ysize) (Z.to_nat xsize) (of_int 0)).

Definition byte_raster (gt : geotrans) (proj : string) (xsize ysize : Z)
    (b : band) : file :=
  Raster (Dataset gt proj xsize ysize [b]).

(** [x] is [None] or an array of [r] rows and [c] columns. *)
Definition shaped (r c : nat) (x : option (ndarray sample)) : Prop :=
  ∀ a, x = Some a → nrows a = r ∧ ncols a = c.

(** [old] occurs somewhere in [s]. *)
Fixpoint occurs (old s : string) : bool :=
  String.prefix old s ||
  match s with
  | EmptyString => false
  | String _ s' => occurs old s'
  end.

(** An occurrence of [old] in [pre +:+ rest] starts inside [pre]. *)
Fixpoint starts_within (old pre rest : string) : bool :=
  match pre with
  | EmptyString => false
  | String _ pre' =>
      String.prefix old (pre +:+ rest) || starts_within old pre' rest
  end.

(** ** The pipeline cell by cell

    What the array code computes at cell [(i, j)] of windows of one
    shape: the two evidence grids after masking, the evidence sum as it
    is stored in its byte band, and the final label. *)

Definition keep_cell (lc kisqr : ndarray sample) (i j : nat) : bool :=
  negb (sample_ge (cell kisqr i j) 2000)
  && negb (existsb (sample_eq (cell lc i j)) excluded_classes).

Definition strong_cell (lc blue red nir kisqr : ndarray sample) (i j : nat) : bool :=
  keep_cell lc kisqr i j
  && STRONG (cell blue i j) (cell red i j) (cell nir i j) (cell kisqr i j).

Definition weak_cell (lc blue red nir kisqr : ndarray sample) (i j : nat) : bool :=
  keep_cell lc kisqr i j
  && WEAK (cell blue i j) (cell red i j) (cell nir i j) (cell kisqr i j).

Definition evidence_sum (lc blue red nir kisqr : ndarray sample) : ndarray sample :=
  tabulate (nrows kisqr) (ncols kisqr) (λ i j,
    to_byte (Z.b2z (strong_cell lc blue red nir kisqr i j)
             + Z.b2z (weak_cell lc blue red nir kisqr i j))).

Definition pipeline_label {ext : Externals} (lc fm blue red nir kisqr : ndarray sample)
    (i j : nat) : Z :=
  let near :=
    sample_eq (ComputeProximity (evidence_sum lc blue red nir kisqr)
                 proximity_options i j) 0 in
  label_of (weak_cell lc blue red nir kisqr i j && near)
           (cell lc i j) (sample_eq (cell fm i j) 1).

(** ** Further notions used in the statements *)

(** [DecTree.run], lines 377-378: the output directory of a tile is
    created when it is missing. *)
Definition makedirs_if_missing (out_dir : string) : M unit :=
  present ← os_path_exists out_dir;
  if negb present then os_makedirs out_dir else mret tt.

(** The character [c] occurs in [s]. *)
Fixpoint has_char (c : ascii) (s : string) : bool :=
  match s with
  | EmptyString => false
  | String a s' => Ascii.eqb a c || has_char c s'
  end.

(** [__db_seeder], lines 329-330: the name that is split at the
    underscores, i.e. the last component of the path without its
    extension. *)
Definition seeder_fname (image_path : string) : string :=
  (os_path_split (os_path_splitext image_path).1).2.

(** [x] is a finite value strictly between [lo] and [hi]. *)
Definition strictly_between (x : sample) (lo hi : Q) : Prop :=
  ∃ q, x = Fin q ∧ (lo < q)%Q ∧ (q < hi)%Q.

(** ** Further concrete inputs *)

Definition demo_file : string := "S2_20230101-0_CHMAP_39SUB_C_V1_FRC_CHMAP.tif".

(** The collaborators of [exact_externals] with a directory listing of
    the demo input tree: one tile holding one change map. *)
Definition demo_listdir (w : world) (path : string) : res (list string) :=
  if String.eqb path "/in" then Ok ["39SUB"]
  else if String.eqb path "/in/39SUB" then Ok [demo_file]
  else Raise FileNotFoundError.

Definition listing_externals : Externals := {|
  fadd := exact2 Qplus;
  fsub := exact2 Qminus;
  fmul := exact2 Qmult;
  geometry := rectangle;
  Polygon := rect_polygon;
  Intersection := rect_intersection;
  Area := rect_area;
  Boundary := id;
  GetEnvelope := rect_envelope;
  Warp := Some;
  InvGeoTransform := north_up_inverse;
  ApplyGeoTransform := affine_apply;
  ComputeProximity := disc_proximity;
  listdir := demo_listdir;
  mkdtemp := λ _, "/tmp/tmpdectree";
  fromgregorian := demo_calendar;
  get_token := λ _ _ _, Ok (Some "token");
  requests_get := λ _, Ok 200;
  requests_post := λ _ _ _, Ok "created"
|}.

(** An instance whose land-cover path holds no file, and one whose
    connection probe failed ([seed_db] is [None], assigned). *)
Definition lost_self : DecTree :=
  Build_DecTree "/in" "/out" "/aux/missing.tif" "/aux/false_mask.tif" None None None.

Definition offline_self : DecTree :=
  Build_DecTree "/in" "/out" "/aux/landcover.tif" "/aux/false_mask.tif"
    (Some "http://host/gcms/api/TreeCoverLossRaster/")
    (Some "http://host/gcms/api/Sentinel2Raster/") (Some None).

(** A change map without its green band, one whose green band is
    replaced, and a false mask of a single pixel, which does not cover
    the window. *)
Definition four_band_ds : dataset :=
  demo_dataset demo_geotrans [demo_blue; demo_red; demo_nir; demo_kisqr].

Definition regreened_ds : dataset :=
  demo_dataset demo_geotrans
    [demo_blue; demo_kisqr; demo_red; demo_nir; demo_kisqr].

Definition small_fm_ds : dataset :=
  Dataset demo_geotrans "EPSG:3857" 1 1 [Band None (np_full 1 1 (of_int 1))].

(** The demo inputs with an output stored in the input tree. *)
Definition mixed_world : world :=
  World (<["/in/39SUB/S2_20230101-0_BIN_39SUB_C_V1_FRC_BIN.tif" :=
             Raster demo_fm_ds]> demo_fs) ∅ [].

(** ** File names of the upload *)

(** A path whose last component has the eight fields that line 334
    unpacks, the second of the form [day-more], and an extension. *)
Definition product_path (dir platform day more product tile c version frc
    ftype suffix : string) : string :=
  dir +:+ "/"
  +:+ (platform +:+ "_" +:+ (day +:+ "-" +:+ more) +:+ "_" +:+ product +:+ "_"
       +:+ tile +:+ "_" +:+ c +:+ "_" +:+ version +:+ "_" +:+ frc +:+ "_" +:+ ftype)
  +:+ "." +:+ suffix.

(** Lines 341 and 343: the names of the archive member and of the
    archive. *)
Definition pname_of (ptype yyyymm tile : string) : string :=
  ptype +:+ "_" +:+ yyyymm +:+ "_" +:+ tile +:+ ".tif".

Definition zfname_of (ptype yyyymm tile : string) : string :=
  ptype +:+ "_" +:+ yyyymm +:+ "_" +:+ tile +:+ ".zip".

(** * Properties *)

(** ** Arrays *)

Section ndarray_facts.
Context {A : Type} `{!Inhabited A}.

Lemma tabulate_lookup (g : nat → nat → A) (c r s i j : nat) :
  (i < r)%nat → (j < c)%nat →
  (k ← seq s r; g k <$> seq 0 c) !! (i * c + j)%nat = Some (g (s + i)%nat j).
Proof.
  revert s i. induction r as [|r IH]; intros s i Hi Hj; [lia|].
  cbn [seq]. rewrite bind_cons. destruct i as [|i].
  - rewrite lookup_app_l by (rewrite length_fmap, length_seq; lia).
    rewrite list_lookup_fmap, lookup_seq_lt by lia.
    cbn. do 2 f_equal. lia.
  - rewrite lookup_app_r by (rewrite length_fmap, length_seq; lia).
    rewrite length_fmap, length_seq.
    replace (S i * c + j - c)%nat with (i * c + j)%nat by lia.
    rewrite IH by lia. do 2 f_equal. lia.
Qed.

Lemma cell_tabulate (g : nat → nat → A) (r c i j : nat) :
  (i < r)%nat → (j < c)%nat → cell (tabulate r c g) i j = g i j.
Proof.
  intros Hi Hj. unfold cell, tabulate. cbn [buf ncols].
  apply list_lookup_total_correct. by rewrite tabulate_lookup.
Qed.

Lemma tabulate_ext (g h : nat → nat → A) (r c : nat) :
  (∀ i j, (i < r)%nat → (j < c)%nat → g i j = h i j) →
  tabulate r c g = tabulate r c h.
Proof.
  intros Hgh. unfold tabulate. f_equal.
  apply Forall_bind_ext, Forall_seq. intros i Hi.
  apply list_fmap_ext. intros k j Hj%lookup_seq. apply Hgh; lia.
Qed.

Lemma tabulate_cell_id (g : nat → nat → A) (r c : nat) :
  tabulate r c (cell (tabulate r c g)) = tabulate r c g.
Proof. apply tabulate_ext. intros. by apply cell_tabulate. Qed.
End ndarray_facts.

Lemma bidx_id (n i : nat) : (i < n)%nat → bidx n i = i.
Proof. unfold bidx. destruct (Nat.eqb_spec n 1); lia. Qed.

Lemma bdim_refl (n : nat) : bdim n n = Some n.
Proof. unfold bdim. by rewrite Nat.eqb_refl. Qed.

Lemma bdim_Some (n m r : nat) :
  bdim n m = Some r → (n = r ∨ n = 1%nat) ∧ (m = r ∨ m = 1%nat).
Proof.
  unfold bdim.
  destruct (Nat.eqb_spec n m), (Nat.eqb_spec n 1), (Nat.eqb_spec m 1);
    intros; simplify_eq; lia.
Qed.

Lemma bidx_lt (n m r i : nat) :
  bdim n m = Some r → (i < r)%nat → (bidx n i < n)%nat ∧ (bidx m i < m)%nat.
Proof.
  intros [Hn Hm]%bdim_Some Hi. unfold bidx.
  destruct (Nat.eqb_spec n 1), (Nat.eqb_spec m 1); lia.
Qed.

Lemma same_shape_true {A B} (a : ndarray A) (b : ndarray B) :
  same_shape a b = true ↔ nrows a = nrows b ∧ ncols a = ncols b.
Proof.
  unfold same_shape. rewrite andb_true_iff, !bool_decide_eq_true. tauto.
Qed.

Lemma np_zip_Ok `{!Inhabited A, !Inhabited B} {C} (f : A → B → C) a b c :
  np_zip f a b = Ok c →
  bdim (nrows a) (nrows b) = Some (nrows c) ∧
  bdim (ncols a) (ncols b) = Some (ncols c) ∧
  c = tabulate (nrows c) (ncols c) (λ i j, f (bcell a i j) (bcell b i j)).
Proof.
  unfold np_zip.
  destruct (bdim (nrows a) (nrows b)) as [r|]; [|done].
  destruct (bdim (ncols a) (ncols b)) as [k|]; [|done].
  intros [= <-]. done.
Qed.

Lemma cell_np_zip `{!Inhabited A, !Inhabited B, !Inhabited C} (f : A → B → C)
    a b c i j :
  np_zip f a b = Ok c → (i < nrows c)%nat → (j < ncols c)%nat →
  cell c i j = f (bcell a i j) (bcell b i j).
Proof.
  intros (_ & _ & ->)%np_zip_Ok Hi Hj. cbn [nrows ncols tabulate] in *.
  by rewrite cell_tabulate.
Qed.

Lemma np_zip_same `{!Inhabited A, !Inhabited B} {C} (f : A → B → C) a b :
  same_shape a b = true →
  np_zip f a b
  = Ok (tabulate (nrows a) (ncols a) (λ i j, f (cell a i j) (cell b i j))).
Proof.
  intros [Hr Hc]%same_shape_true. unfold np_zip.
  rewrite <- Hr, <- Hc, !bdim_refl. f_equal. apply tabulate_ext.
  intros i j Hi Hj. unfold bcell. rewrite <- Hr, <- Hc. by rewrite !bidx_id.
Qed.

Lemma np_zip_tabulate `{!Inhabited A, !Inhabited B} {C} (f : A → B → C) r c g h :
  np_zip f (tabulate r c g) (tabulate r c h)
  = Ok (tabulate r c (λ i j, f (g i j) (h i j))).
Proof.
  rewrite np_zip_same by (by apply same_shape_true).
  cbn [nrows ncols tabulate]. f_equal. apply tabulate_ext.
  intros i j Hi Hj. by rewrite !cell_tabulate.
Qed.

Lemma np_map_tabulate `{!Inhabited A} {B} (f : A → B) r c g :
  np_map f (tabulate r c g) = tabulate r c (λ i j, f (g i j)).
Proof.
  unfold np_map. cbn [nrows ncols tabulate]. apply tabulate_ext.
  intros i j Hi Hj. by rewrite cell_tabulate.
Qed.

Lemma cell_np_map `{!Inhabited A, !Inhabited B} (f : A → B) a i j :
  (i < nrows a)%nat → (j < ncols a)%nat → cell (np_map f a) i j = f (cell a i j).
Proof. intros. unfold np_map. by rewrite cell_tabulate. Qed.

(** ** Samples *)

Lemma Qltb_lt (x y : Q) : Qltb x y = true ↔ (x < y)%Q.
Proof. unfold Qltb, Qlt. apply Z.ltb_lt. Qed.

Lemma sample_lt_mono (x : sample) (c d : Q) :
  (c <= d)%Q → sample_lt x c = true → sample_lt x d = true.
Proof.
  destruct x as [q| | |]; cbn; try done.
  rewrite !Qltb_lt. intros Hcd Hq. by eapply Qlt_le_trans.
Qed.

Lemma sample_gt_mono (x : sample) (c d : Q) :
  (d <= c)%Q → sample_gt x c = true → sample_gt x d = true.
Proof.
  destruct x as [q| | |]; cbn; try done.
  rewrite !Qltb_lt. intros Hcd Hq. by eapply Qle_lt_trans.
Qed.

Lemma sample_lt_not_ge (x : sample) (c : Q) :
  sample_lt x c = true → sample_ge x c = false.
Proof.
  destruct x as [q| | |]; cbn; try done.
  rewrite Qltb_lt. intros Hq. apply not_true_is_false.
  intros Hle%Qle_bool_iff. by apply (Qlt_not_le q c).
Qed.

(** ** Subset of grids *)

Lemma grid_le_refl (a : ndarray bool) : grid_le a a.
Proof. by repeat split. Qed.

Lemma grid_le_trans (a b c : ndarray bool) :
  grid_le a b → grid_le b c → grid_le a c.
Proof.
  intros (Hr & Hc & Hab) (Hr' & Hc' & Hbc). repeat split; [congruence..|].
  intros i j Hi Hj Ha. apply Hbc; [lia..|]. by apply Hab.
Qed.

Lemma np_cmp_le (f g : sample → Q → bool) x (c d : Q) a :
  (∀ s, f s c = true → g s d = true) →
  np_cmp f x c = Ok a →
  ∃ b, np_cmp g x d = Ok b ∧ grid_le a b.
Proof.
  intros Hfg. destruct x as [x|]; cbn; [|done]. intros [= <-].
  eexists; split; [done|]. repeat split. cbn [nrows ncols np_map tabulate].
  intros i j Hi Hj. rewrite !cell_np_map by done. apply Hfg.
Qed.

Lemma np_and_le (a a' b b' c : ndarray bool) :
  grid_le a a' → grid_le b b' →
  np_logical_and a (Arr b) = Ok c →
  ∃ c', np_logical_and a' (Arr b') = Ok c' ∧ grid_le c c'.
Proof.
  intros (Hr & Hc & Ha) (Hr' & Hc' & Hb) Hand. cbn in *.
  pose proof Hand as (Hbr & Hbc & Hcell)%np_zip_Ok.
  unfold np_zip. rewrite <- Hr, <- Hc, <- Hr', <- Hc', Hbr, Hbc.
  eexists; split; [done|]. repeat split. cbn [nrows ncols tabulate].
  intros i j Hi Hj. rewrite (cell_np_zip _ _ _ _ _ _ Hand), cell_tabulate by done.
  destruct (bidx_lt _ _ _ i Hbr Hi), (bidx_lt _ _ _ j Hbc Hj).
  rewrite !andb_true_iff. unfold bcell. rewrite <- Hr, <- Hc, <- Hr', <- Hc'.
  intros [??]. split; [by apply Ha | by apply Hb].
Qed.

Lemma np_setmask_le (a a' : ndarray bool) (m : mask) (b : ndarray bool) :
  grid_le a a' →
  np_setmask a m false = Ok b →
  ∃ b', np_setmask a' m false = Ok b' ∧ grid_le b b'.
Proof.
  intros (Hr & Hc & Ha). destruct m as [v|m]; cbn.
  - intros [= <-]. eexists; split; [done|]. repeat split; [done..|].
    cbn [nrows ncols np_map tabulate]. intros i j Hi Hj.
    rewrite !cell_np_map by lia. destruct v; [done|]. by apply Ha.
  - destruct (same_shape a m) eqn:Hs; [|done]. intros [= <-].
    apply same_shape_true in Hs as [Hs1 Hs2].
    replace (same_shape a' m) with true
      by (symmetry; apply same_shape_true; split; congruence).
    eexists; split; [done|]. repeat split; [done..|].
    cbn [nrows ncols tabulate]. intros i j Hi Hj.
    rewrite !cell_tabulate by lia. destruct (cell m i j); [done|]. by apply Ha.
Qed.

(** Peels one [x ← m; k] off a hypothesis [H : ... = Ok _]. *)
Ltac step_Ok H :=
  match type of H with
  | mbind _ ?m = Ok _ =>
      let E := fresh "E" in
      destruct m eqn:E; [cbn [mbind res_bind] in H | discriminate H]
  end.

Lemma rule_strong_le_weak blue red nir kisqr s :
  total_change_strong_rule blue red nir kisqr = Ok s →
  ∃ w, total_change_weak_rule blue red nir kisqr = Ok w ∧ grid_le s w.
Proof.
  intros H. unfold total_change_strong_rule in H. unfold total_change_weak_rule.
  repeat step_Ok H.
  repeat match goal with
  | E : np_cmp sample_lt ?x ?c = Ok _ |- context [np_cmp sample_lt ?x ?d] =>
      let L := fresh "L" in
      destruct (np_cmp_le sample_lt sample_lt x c d _
                  (λ s, sample_lt_mono s c d ltac:(by vm_compute)) E)
        as (? & -> & L); clear E; cbn [mbind res_bind]
  | E : np_cmp sample_gt ?x ?c = Ok _ |- context [np_cmp sample_gt ?x ?d] =>
      let L := fresh "L" in
      destruct (np_cmp_le sample_gt sample_gt x c d _
                  (λ s, sample_gt_mono s c d ltac:(by vm_compute)) E)
        as (? & -> & L); clear E; cbn [mbind res_bind]
  | E : np_logical_and ?a (Arr ?b) = Ok _,
    La : grid_le ?a ?a', Lb : grid_le ?b ?b'
    |- context [np_logical_and ?a' (Arr ?b')] =>
      let L := fresh "L" in
      destruct (np_and_le a a' b b' _ La Lb E) as (? & -> & L);
      clear E; cbn [mbind res_bind]
  end.
  eexists; split; [reflexivity | assumption].
Qed.

(** ** The threshold rules *)

Lemma STRONG_WEAK (blue red nir stat : sample) :
  STRONG blue red nir stat = true → WEAK blue red nir stat = true.
Proof.
  unfold STRONG, WEAK. rewrite !andb_true_iff.
  intros [[[[??] [??]] [??]] [??]].
  repeat split;
    first [ eapply sample_lt_mono; [|eassumption]; by vm_compute
          | eapply sample_gt_mono; [|eassumption]; by vm_compute ].
Qed.

(** On bands of one shape the array code computes the rules cell by
    cell. *)
Lemma strong_rule_cells (blue red nir kisqr : ndarray sample) :
  same_shape blue kisqr = true → same_shape red kisqr = true →
  same_shape nir kisqr = true →
  total_change_strong_rule (Some blue) (Some red) (Some nir) (Some kisqr)
  = Ok (tabulate (nrows kisqr) (ncols kisqr) (λ i j,
          STRONG (cell blue i j) (cell red i j) (cell nir i j) (cell kisqr i j))).
Proof.
  intros [Hb1 Hb2]%same_shape_true [Hr1 Hr2]%same_shape_true
         [Hn1 Hn2]%same_shape_true.
  unfold total_change_strong_rule, np_cmp, np_map.
  rewrite Hb1, Hb2, Hr1, Hr2, Hn1, Hn2.
  cbn [mbind res_bind np_logical_and]. rewrite !np_zip_tabulate.
  cbn [mbind res_bind]. rewrite !np_zip_tabulate.
  cbn [mbind res_bind]. rewrite !np_zip_tabulate.
  f_equal. apply tabulate_ext. intros i j _ _. unfold STRONG.
  destruct (sample_lt (cell blue i j) 10), (sample_gt (cell blue i j) 2),
    (sample_lt (cell red i j) (-1)), (sample_gt (cell red i j) (-5)),
    (sample_lt (cell nir i j) (-1)), (sample_gt (cell nir i j) (-5)),
    (sample_lt (cell kisqr i j) 1500), (sample_gt (cell kisqr i j) 150);
    reflexivity.
Qed.

Lemma weak_rule_cells (blue red nir kisqr : ndarray sample) :
  same_shape blue kisqr = true → same_shape red kisqr = true →
  same_shape nir kisqr = true →
  total_change_weak_rule (Some blue) (Some red) (Some nir) (Some kisqr)
  = Ok (tabulate (nrows kisqr) (ncols kisqr) (λ i j,
          WEAK (cell blue i j) (cell red i j) (cell nir i j) (cell kisqr i j))).
Proof.
  intros [Hb1 Hb2]%same_shape_true [Hr1 Hr2]%same_shape_true
         [Hn1 Hn2]%same_shape_true.
  unfold total_change_weak_rule, np_cmp, np_map.
  rewrite Hb1, Hb2, Hr1, Hr2, Hn1, Hn2.
  cbn [mbind res_bind np_logical_and]. rewrite !np_zip_tabulate.
  cbn [mbind res_bind]. rewrite !np_zip_tabulate.
  cbn [mbind res_bind]. rewrite !np_zip_tabulate.
  f_equal. apply tabulate_ext. intros i j _ _. unfold WEAK.
  destruct (sample_lt (cell blue i j) 11), (sample_gt (cell blue i j) 1),
    (sample_lt (cell red i j) 0), (sample_gt (cell red i j) (-6)),
    (sample_lt (cell nir i j) 0), (sample_gt (cell nir i j) (-6)),
    (sample_lt (cell kisqr i j) 2000), (sample_gt (cell kisqr i j) 100);
    reflexivity.
Qed.

Lemma threshold_stage_le lc blue red nir kisqr ev :
  threshold_stage lc blue red nir kisqr = Ok ev →
  grid_le (total_change_strong ev) (total_change_weak ev).
Proof.
  intros H. unfold threshold_stage in H. repeat step_Ok H.
  injection H as <-. cbn [total_change_strong total_change_weak].
  destruct (rule_strong_le_weak _ _ _ _ _ E) as (w & Hw & L0).
  rewrite E0 in Hw. injection Hw as <-.
  destruct (np_setmask_le _ _ _ _ L0 E2) as (w1 & Hw1 & L1).
  rewrite E4 in Hw1. injection Hw1 as <-.
  destruct (np_setmask_le _ _ _ _ L1 E3) as (w2 & Hw2 & L2).
  rewrite E5 in Hw2. by injection Hw2 as <-.
Qed.

(** C3. The STRONG rule implies the WEAK rule for every blue, red, nir
    and stat value; the strong grid the array code computes is a subset
    of the weak grid; and it still is after the excluded-class and
    no-data cells have been cleared in both. *)
Theorem strong_implies_weak :
  (∀ blue red nir stat,
     STRONG blue red nir stat = true → WEAK blue red nir stat = true) ∧
  (∀ blue red nir kisqr s,
     total_change_strong_rule blue red nir kisqr = Ok s →
     ∃ w, total_change_weak_rule blue red nir kisqr = Ok w ∧ grid_le s w) ∧
  (∀ lc blue red nir kisqr ev,
     threshold_stage lc blue red nir kisqr = Ok ev →
     grid_le (total_change_strong ev) (total_change_weak ev)).
Proof.
  split; [exact STRONG_WEAK|]. split; [exact rule_strong_le_weak|].
  exact threshold_stage_le.
Qed.

Lemma np_and_Ok (a b c : ndarray bool) :
  np_logical_and a (Arr b) = Ok c →
  ((nrows a = nrows c ∨ nrows a = 1%nat) ∧ (nrows b = nrows c ∨ nrows b = 1%nat)) ∧
  ((ncols a = ncols c ∨ ncols a = 1%nat) ∧ (ncols b = ncols c ∨ ncols b = 1%nat)) ∧
  ∀ i j, (i < nrows c)%nat → (j < ncols c)%nat →
    cell c i j = bcell a i j && bcell b i j.
Proof.
  cbn. intros H. pose proof H as (Hr%bdim_Some & Hc%bdim_Some & _)%np_zip_Ok.
  repeat split; try tauto. intros i j Hi Hj. by apply cell_np_zip.
Qed.

Lemma np_cmp_Ok (f : sample → Q → bool) x c a :
  np_cmp f x c = Ok a →
  ∃ b, x = Some b ∧ nrows a = nrows b ∧ ncols a = ncols b ∧
    ∀ i j, (i < nrows b)%nat → (j < ncols b)%nat →
      cell a i j = f (cell b i j) c.
Proof.
  destruct x as [b|]; [|done]. cbn. intros [= <-]. exists b.
  repeat split. intros i j Hi Hj. by rewrite cell_np_map.
Qed.

Lemma np_setmask_false_Ok (a : ndarray bool) (m : mask) (b : ndarray bool) :
  np_setmask a m false = Ok b →
  ∃ g, b = tabulate (nrows a) (ncols a) g ∧
    ∀ i j, g i j = true → cell a i j = true.
Proof.
  destruct m as [v|m]; cbn.
  - intros [= <-]. eexists; split; [done|]. intros i j. by destruct v.
  - destruct (same_shape a m); [|done]. intros [= <-].
    eexists; split; [done|]. intros i j. cbn. by destruct (cell m i j).
Qed.

(** A set cell of the weak grid has [stat < 2000], provided the grid has
    the shape of the statistic band. *)
Lemma weak_rule_stat blue red nir (kisqr : ndarray sample) w i j :
  total_change_weak_rule blue red nir (Some kisqr) = Ok w →
  nrows w = nrows kisqr → ncols w = ncols kisqr →
  (i < nrows w)%nat → (j < ncols w)%nat →
  cell w i j = true → sample_lt (cell kisqr i j) 2000 = true.
Proof.
  intros H Hr Hc Hi Hj Hw. unfold total_change_weak_rule in H.
  repeat step_Ok H.
  match goal with
  | Enk : np_logical_and _ (Arr ?k) = Ok ?nk,
    Ek : np_logical_and ?k1 (Arr _) = Ok ?k,
    Ek1 : np_cmp sample_lt (Some kisqr) _ = Ok ?k1
    |- _ =>
      match type of H with np_logical_and _ (Arr nk) = _ =>
        apply np_and_Ok in H as ((_ & Hr1) & (_ & Hc1) & Hcell);
        apply np_and_Ok in Enk as ((_ & Hr2) & (_ & Hc2) & Hcell2);
        apply np_and_Ok in Ek as ((Hr3 & _) & (Hc3 & _) & Hcell3);
        apply np_cmp_Ok in Ek1 as (? & [= <-] & Hr4 & Hc4 & Hcell4);
        assert (nrows nk = nrows w ∧ ncols nk = ncols w) as [Hr5 Hc5] by lia;
        assert (nrows k = nrows w ∧ ncols k = ncols w) as [Hr6 Hc6] by lia
      end
  end.
  rewrite Hcell in Hw by done. apply andb_true_iff in Hw as [_ Hw].
  unfold bcell in Hw. rewrite !bidx_id in Hw by lia.
  rewrite Hcell2 in Hw by lia. apply andb_true_iff in Hw as [_ Hw].
  unfold bcell in Hw. rewrite !bidx_id in Hw by lia.
  rewrite Hcell3 in Hw by lia. apply andb_true_iff in Hw as [Hw _].
  unfold bcell in Hw. rewrite !bidx_id in Hw by lia.
  rewrite Hcell4 in Hw by lia. done.
Qed.


(** C10. Clearing the no-data cells ([stat >= 2000]) in the weak grid
    changes nothing: line 256 returns the grid it was given, the weak grid
    of the finished stage is the grid of line 255, and the no-data mask
    and the weak grid have no set cell in common. *)
Theorem nodata_masking_keeps_weak lc blue red nir kisqr w ev :
  total_change_weak_255 lc blue red nir kisqr = Ok w →
  threshold_stage lc blue red nir kisqr = Ok ev →
  ∃ nodata_mask,
    np_cmp sample_ge kisqr 2000 = Ok nodata_mask ∧
    np_setmask w (Arr nodata_mask) false = Ok w ∧
    total_change_weak ev = w ∧
    ∃ both, np_logical_and w (Arr nodata_mask) = Ok both ∧ grid_empty both.
Proof.
  unfold total_change_weak_255, threshold_stage.
  destruct (total_change_strong_rule blue red nir kisqr) as [s0|]; [|done].
  destruct (total_change_weak_rule blue red nir kisqr) as [w0|] eqn:Ew0; [|done].
  destruct (np_cmp sample_ge kisqr 2000) as [nd|] eqn:End; [|done].
  cbn [mbind res_bind]. intros Hw H. rewrite Hw in H.
  repeat step_Ok H. injection H as <-. cbn [total_change_weak].
  match goal with E256 : np_setmask w (Arr nd) false = Ok ?w2 |- _ =>
    rename E256 into H256; rename w2 into w' end.
  exists nd. split; [done|].
  pose proof H256 as Hs. cbn in Hs.
  destruct (same_shape w nd) eqn:Hsh; [|done].
  apply same_shape_true in Hsh as [Hs1 Hs2].
  apply np_cmp_Ok in End as (k & -> & Hk1 & Hk2 & Hnd).
  apply np_setmask_false_Ok in Hw as (g & Hg & Hgw).
  assert (nrows w0 = nrows w ∧ ncols w0 = ncols w) as [Hr0 Hc0]
    by (by rewrite Hg).
  assert (∀ i j, (i < nrows w)%nat → (j < ncols w)%nat →
            cell w i j = true → cell nd i j = false) as Hdisj.
  { intros i j Hi Hj Hc. rewrite Hnd by lia. apply sample_lt_not_ge.
    eapply (weak_rule_stat _ _ _ _ w0); [done|lia..|].
    apply Hgw. rewrite Hg in Hc. by rewrite cell_tabulate in Hc by lia. }
  assert (w' = w) as ->.
  { injection Hs as <-. etrans; [|symmetry; exact Hg]. rewrite Hr0, Hc0.
    apply tabulate_ext. intros i j Hi Hj.
    destruct (cell nd i j) eqn:Hn; [|by rewrite Hg, cell_tabulate by lia].
    destruct (g i j) eqn:Hc; [|done].
    rewrite Hdisj in Hn; [done..|]. by rewrite Hg, cell_tabulate by lia. }
  repeat split; [done|].
  cbn. rewrite np_zip_same by (by apply same_shape_true).
  eexists; split; [done|]. intros i j Hi Hj. cbn [nrows ncols tabulate] in *.
  rewrite cell_tabulate by done. destruct (cell w i j) eqn:Hc; [|done].
  by rewrite Hdisj.
Qed.

(** ** Confirmed change and labels *)

Lemma bdim_absorb (r m : nat) : m = r ∨ m = 1%nat → bdim r m = Some r.
Proof.
  unfold bdim.
  destruct (Nat.eqb_spec r m), (Nat.eqb_spec r 1), (Nat.eqb_spec m 1);
    intros; f_equal; lia.
Qed.

Lemma total_change_of_same (weak : ndarray bool) (prx_array : ndarray sample) :
  same_shape weak prx_array = true →
  total_change_of weak prx_array
  = Ok (tabulate (nrows weak) (ncols weak) (λ i j,
          cell weak i j && sample_eq (cell prx_array i j) 0)).
Proof.
  intros Hs. pose proof Hs as [Hr Hc]%same_shape_true.
  unfold total_change_of. cbn [py_eq np_logical_and].
  rewrite np_zip_same by (by apply same_shape_true).
  f_equal. apply tabulate_ext. intros i j Hi Hj.
  by rewrite cell_np_map by lia.
Qed.

(** C4. For every weak grid and every proximity map, the confirmed grid
    [WEAK AND (proximity == 0)] is a subset of the weak grid:
    [confirmed AND NOT WEAK] has no set cell; with a proximity map of the
    shape of the weak grid, as in the pipeline, every set cell of the
    confirmed grid is a set cell of the weak grid. The strong grid plays
    no part. *)
Theorem confirmed_subset_of_weak (weak : ndarray bool)
    (prx_array : ndarray sample) (confirmed : ndarray bool) :
  total_change_of weak prx_array = Ok confirmed →
  (∃ rest, np_logical_and confirmed (Arr (np_logical_not weak)) = Ok rest
           ∧ grid_empty rest) ∧
  (same_shape weak prx_array = true → grid_le confirmed weak).
Proof.
  intros H. split.
  - unfold total_change_of in H. cbn [py_eq] in H.
    apply np_and_Ok in H as ((Hr & _) & (Hc & _) & Hcell).
    cbn [np_logical_and]. unfold np_zip, np_logical_not.
    cbn [nrows ncols np_map tabulate]. rewrite !bdim_absorb by done.
    eexists; split; [done|]. intros i j Hi Hj. cbn [nrows ncols tabulate] in Hi, Hj.
    rewrite cell_tabulate by done. unfold bcell at 1.
    rewrite !bidx_id, Hcell by done.
    destruct (bcell weak i j) eqn:Hw; [|done]. cbn [andb].
    apply andb_false_intro2. unfold bcell in *.
    change (nrows (np_map negb weak)) with (nrows weak).
    change (ncols (np_map negb weak)) with (ncols weak).
    rewrite cell_np_map; [by rewrite Hw|..]; unfold bidx;
      destruct (Nat.eqb_spec (nrows weak) 1), (Nat.eqb_spec (ncols weak) 1); lia.
  - intros Hs. rewrite total_change_of_same in H by done. injection H as <-.
    repeat split. cbn [nrows ncols tabulate]. intros i j Hi Hj.
    rewrite cell_tabulate by done. by intros [??]%andb_true_iff.
Qed.

(** On grids of one shape the label grid is [label_of] cell by cell. *)
Lemma label_stage_cells (confirmed : ndarray bool) (lc fm : ndarray sample) :
  same_shape confirmed lc = true → same_shape fm lc = true →
  label_stage confirmed (Some lc) (py_eq (Some fm) 1)
  = Ok (tabulate (nrows lc) (ncols lc) (λ i j,
          label_of (cell confirmed i j) (cell lc i j)
                   (sample_eq (cell fm i j) 1))).
Proof.
  intros [Hr Hc]%same_shape_true [Hr' Hc']%same_shape_true.
  unfold label_stage. cbn [py_eq np_logical_and py_shape].
  rewrite !np_zip_same by (by apply same_shape_true).
  cbn [mbind res_bind]. unfold np_full. rewrite Hr, Hc.
  cbn [np_setmask]. unfold same_shape. cbn [nrows ncols tabulate np_map].
  rewrite !bool_decide_eq_true_2 by done. cbn [andb mbind res_bind].
  rewrite !bool_decide_eq_true_2 by done. cbn [andb mbind res_bind].
  rewrite Hr', Hc', !bool_decide_eq_true_2 by done. cbn [andb].
  f_equal. apply tabulate_ext. intros i j Hi Hj.
  rewrite !cell_tabulate by done. rewrite !cell_np_map by lia.
  unfold label_of.
  destruct (sample_eq (cell fm i j) 1); [done|].
  destruct (cell confirmed i j && sample_eq (cell lc i j) 1); [done|].
  by destruct (cell confirmed i j && sample_eq (cell lc i j) 0).
Qed.

(** ** The state monad *)

Lemma M_bind_Ok {A B} (m : M A) (f : A → M B) w a w1 :
  m w = (Ok a, w1) → (m ≫= f) w = f a w1.
Proof. intros H. unfold mbind, M_bind. by rewrite H. Qed.

Lemma M_bind_Raise {A B} (m : M A) (f : A → M B) w e w1 :
  m w = (Raise e, w1) → (m ≫= f) w = (Raise e, w1).
Proof. intros H. unfold mbind, M_bind. by rewrite H. Qed.

Lemma M_bind_inv_Ok {A B} (m : M A) (f : A → M B) w b w' :
  (m ≫= f) w = (Ok b, w') →
  ∃ a w1, m w = (Ok a, w1) ∧ f a w1 = (Ok b, w').
Proof.
  unfold mbind, M_bind. destruct (m w) as [[a|e] w1]; [|done]. eauto.
Qed.

Section effects.
Context {A B : Type} (P : string → Prop) (Q : call → Prop).

Lemma effect_bind (m : M A) (f : A → M B) :
  effect P Q m → (∀ a, effect P Q (f a)) → effect P Q (m ≫= f).
Proof.
  intros Hm Hf w. destruct (Hm w) as [Hfs (new & Hc & Hnew)].
  unfold mbind, M_bind. destruct (m w) as [[a|e] w1]; cbn [snd] in *.
  - destruct (Hf a w1) as [Hfs' (new' & Hc' & Hnew')]. split.
    + intros p Hp. by rewrite Hfs', Hfs.
    + exists (new' ++ new). rewrite Hc', Hc, (assoc_L (++)).
      split; [done|]. by apply Forall_app.
  - split; [done|]. by exists new.
Qed.

Lemma effect_pure (m : M A) :
  (∀ w, (m w).2 = w) → effect P Q m.
Proof.
  intros Hm w. rewrite Hm. split; [done|]. by exists [].
Qed.

Lemma effect_mono (P' : string → Prop) (Q' : call → Prop) (m : M A) :
  (∀ p, P' p → P p) → (∀ c, Q' c → Q c) → effect P' Q' m → effect P Q m.
Proof.
  intros HP HQ Hm w. destruct (Hm w) as [Hfs (new & Hc & Hnew)]. split.
  - intros p Hp. apply Hfs. naive_solver.
  - exists new. split; [done|]. eapply Forall_impl; eauto.
Qed.
End effects.

Lemma effect_mret {A} P Q (a : A) : effect P Q (mret a).
Proof. by apply effect_pure. Qed.

Lemma effect_lift {A} P Q (r : res A) : effect P Q (lift r).
Proof. by apply effect_pure. Qed.

Lemma effect_raise {A} P Q e : effect P Q (raise (A:=A) e).
Proof. by apply effect_pure. Qed.

Lemma effect_get_world P Q : effect P Q get_world.
Proof. by apply effect_pure. Qed.

Lemma effect_gdal_Open P Q path : effect P Q (gdal_Open path).
Proof. by apply effect_pure. Qed.

Lemma effect_os_path_exists P Q path : effect P Q (os_path_exists path).
Proof. by apply effect_pure. Qed.

Lemma effect_commit (P : string → Prop) Q path f :
  P path → effect P Q (commit path f).
Proof.
  intros HP w. cbn. split.
  - intros p Hp. apply lookup_insert_ne. congruence.
  - by exists [].
Qed.

Lemma effect_record_call P (Q : call → Prop) c :
  Q c → effect P Q (record_call c).
Proof.
  intros HQ w. cbn. split; [done|]. exists [c]. split; [done|].
  by apply Forall_singleton.
Qed.

Lemma effect_gdal_Create (P : string → Prop) Q path xsize ysize :
  P path → effect P Q (gdal_Create path xsize ysize).
Proof.
  intros HP. unfold gdal_Create. case_match.
  - apply effect_bind; [by apply effect_commit|]. intros _. apply effect_mret.
  - apply effect_raise.
Qed.

(** Solves [effect] goals by following the structure of the program. *)
Ltac effect_tac :=
  repeat first
    [ apply effect_mret | apply effect_lift | apply effect_raise
    | apply effect_get_world | apply effect_gdal_Open
    | apply effect_os_path_exists
    | apply effect_commit; tauto
    | apply effect_gdal_Create; tauto
    | apply effect_record_call; done
    | apply effect_bind; [|intros ?]
    | progress case_match ].

(** ** Paths *)

Lemma prefix_app (a b : string) : String.prefix a (a +:+ b) = true.
Proof.
  induction a as [|c a IH]; [by destruct b|].
  change (String.prefix (String c a) (String c (a +:+ b)) = true).
  cbn [String.prefix]. by destruct (ascii_dec c c).
Qed.

Lemma os_path_join_relative (a b : string) :
  String.prefix "/" b = false → os_path_join a b = dir_prefix a +:+ b.
Proof. intros H. unfold os_path_join. by rewrite H. Qed.

Lemma os_path_join_in_dir (a b : string) :
  String.prefix "/" b = false → in_dir a (os_path_join a b) = true.
Proof.
  intros H. rewrite os_path_join_relative by done. apply prefix_app.
Qed.

Lemma not_absolute_app (a b : string) :
  String.prefix "/" a = false →
  String.prefix "/" (a +:+ "_" +:+ b) = false.
Proof.
  destruct a as [|c a]; [by vm_compute|]. intros H.
  change (String.prefix "/" (String c (a +:+ "_" +:+ b)) = false).
  cbn [String.prefix] in *. destruct (ascii_dec "/" c); [by destruct a|done].
Qed.

Section program_facts.
Context {ext : Externals}.

Lemma effect_gdal_Warp (P : string → Prop) Q dst src :
  P dst → effect P Q (gdal_Warp dst src).
Proof. intros HP. unfold gdal_Warp. effect_tac. Qed.

Lemma effect_write_sum_and_proximity (P : string → Prop) Q temp_dir proj win sum :
  P (sum_fname temp_dir) → P (prx_fname temp_dir) →
  effect P Q (write_sum_and_proximity temp_dir proj win sum).
Proof.
  intros H1 H2. unfold write_sum_and_proximity, sum_fname, prx_fname in *.
  effect_tac.
Qed.

Lemma effect_write_labels (P : string → Prop) Q bin proj win final :
  P bin → effect P Q (write_labels bin proj win final).
Proof. intros H. unfold write_labels. effect_tac. Qed.

Lemma effect_classify_and_write (P : string → Prop) Q temp_dir bin
    lc_band fm_band trg_ds win :
  P (sum_fname temp_dir) → P (prx_fname temp_dir) → P bin →
  effect P Q (classify_and_write temp_dir bin lc_band fm_band trg_ds win).
Proof.
  intros H1 H2 H3. unfold classify_and_write.
  apply effect_bind; [apply effect_lift|]. intros [[lc fm] image_bands].
  repeat case_match; try apply effect_raise.
  apply effect_bind; [apply effect_lift|]. intros ev.
  apply effect_bind; [by apply effect_write_sum_and_proximity|]. intros prx.
  apply effect_bind; [apply effect_lift|]. intros tc.
  apply effect_bind; [apply effect_lift|]. intros final.
  by apply effect_write_labels.
Qed.

Lemma effect_process_chmap (P : string → Prop) (Q : call → Prop) self
    temp_dir chmap bin :
  P (trg_fname temp_dir) → P (sum_fname temp_dir) → P (prx_fname temp_dir) →
  P bin → Q (CallProcessChmap temp_dir chmap bin) →
  effect P Q (process_chmap self temp_dir chmap bin).
Proof.
  intros H0 H1 H2 H3 HQ. unfold process_chmap.
  apply effect_bind; [by apply effect_record_call|]. intros _.
  apply effect_bind; [apply effect_gdal_Open|]. intros [lc_ds|]; [|apply effect_raise].
  apply effect_bind; [apply effect_gdal_Open|]. intros [fm_ds|]; [|apply effect_raise].
  apply effect_bind; [by apply effect_gdal_Warp|]. intros [trg_ds|]; [|apply effect_raise].
  repeat case_match; try apply effect_mret.
  unfold process_overlap.
  apply effect_bind; [apply effect_lift|]. intros win.
  by apply effect_classify_and_write.
Qed.

Lemma effect_db_seeder (P : string → Prop) (Q : call → Prop) self
    temp_dir image_path ptype :
  (∀ p, in_dir temp_dir p = true → P p) →
  String.prefix "/" ptype = false →
  Q (CallDbSeeder temp_dir image_path ptype) →
  effect P Q (db_seeder self temp_dir image_path ptype).
Proof.
  intros HP Hptype HQ. unfold db_seeder.
  apply effect_bind; [by apply effect_record_call|]. intros _.
  assert (∀ rest f,
    effect P Q (commit (os_path_join temp_dir (ptype +:+ "_" +:+ rest)) f))
    as Hzip.
  { intros rest f.
    by apply effect_commit, HP, os_path_join_in_dir, not_absolute_app. }
  repeat first
    [ apply effect_mret | apply effect_lift | apply effect_raise
    | apply effect_get_world | apply Hzip
    | apply effect_bind; [|intros ?]
    | progress case_match ].
Qed.
End program_facts.

(** ** No overlap *)

Section chmap_facts.
Context {ext : Externals}.

(** C5. When the land cover, the false mask and the change map open,
    and the two bounding polygons have no intersection or one whose
    area is not positive, [__process_chmap] returns normally; the only
    file it writes is the reprojected change map in the temporary
    directory, so the output path is neither created nor written. *)
Theorem no_overlap_no_output self temp_dir chmap bin w lc_ds fm_ds src trg_ds :
  fs w !! landcover self = Some (Raster lc_ds) →
  fs w !! false_mask self = Some (Raster fm_ds) →
  fs w !! chmap = Some (Raster src) →
  Warp src = Some trg_ds →
  (∀ g, Intersection (getBBox lc_ds) (getBBox trg_ds) = Some g →
        sample_gt (Area g) 0 = false) →
  bin ≠ trg_fname temp_dir →
  ∃ w', process_chmap self temp_dir chmap bin w = (Ok tt, w') ∧
        fs w' = <[trg_fname temp_dir := Raster trg_ds]> (fs w) ∧
        fs w' !! bin = fs w !! bin.
Proof.
  intros Hlc Hfm Hsrc Hwarp Hg Hbin. unfold process_chmap.
  eexists. split.
  - erewrite M_bind_Ok by reflexivity. cbn beta.
    erewrite M_bind_Ok by (unfold gdal_Open; cbn [fs]; by rewrite Hlc).
    cbn beta iota.
    erewrite M_bind_Ok by (unfold gdal_Open; cbn [fs]; by rewrite Hfm).
    cbn beta iota.
    erewrite M_bind_Ok.
    2:{ unfold gdal_Warp. erewrite M_bind_Ok
          by (unfold gdal_Open; cbn [fs]; by rewrite Hsrc).
        cbn [mbind option_bind]. rewrite Hwarp.
        erewrite M_bind_Ok by reflexivity. reflexivity. }
    cbn beta iota.
    destruct (Intersection _ _) as [g|] eqn:Hi; [|reflexivity].
    by rewrite (Hg g).
  - cbn [fs]. split; [done|]. apply lookup_insert_ne. unfold trg_fname in Hbin.
    congruence.
Qed.

End chmap_facts.

(** ** The three rasters of the overlap branch *)

Section write_facts.
Context {ext : Externals}.

Lemma write_labels_eq bin proj win final w :
  write_labels bin proj win final w =
  if (0 <? xsize win) && (0 <? ysize win) then
    let b0 := SetNoDataValue (of_int 255) (blank_band (xsize win) (ysize win)) in
    match WriteArray b0 final with
    | Ok b =>
        (Ok tt,
         World (<[bin := byte_raster (new_trg_geoTrans win) proj
                           (xsize win) (ysize win) b]> (fs w))
               (dirs w) (calls w))
    | Raise e =>
        (Raise e,
         World (<[bin := byte_raster (new_trg_geoTrans win) proj
                           (xsize win) (ysize win) b0]> (fs w))
               (dirs w) (calls w))
    end
  else (Raise AttributeError, w).
Proof.
  unfold write_labels, gdal_Create.
  destruct ((0 <? xsize win) && (0 <? ysize win)); [|done].
  unfold mbind, M_bind, commit, lift, mret, M_ret.
  cbn -[WriteArray insert]. unfold blank_band, byte_raster.
  destruct (WriteArray _ _); cbn [fs dirs calls];
    by rewrite ?insert_insert_eq.
Qed.


Lemma write_sum_and_proximity_eq temp_dir proj win sum w :
  write_sum_and_proximity temp_dir proj win sum w =
  if (0 <? xsize win) && (0 <? ysize win) then
    let b0 := blank_band (xsize win) (ysize win) in
    match WriteArray b0 sum with
    | Ok sum_band =>
        let prx_band := gdal_ComputeProximity sum_band b0 proximity_options in
        (Ok (pixels prx_band),
         World (<[prx_fname temp_dir :=
                    byte_raster (new_trg_geoTrans win) proj
                      (xsize win) (ysize win) prx_band]>
                (<[sum_fname temp_dir :=
                    byte_raster (new_trg_geoTrans win) proj
                      (xsize win) (ysize win) sum_band]> (fs w)))
               (dirs w) (calls w))
    | Raise e =>
        (Raise e,
         World (<[sum_fname temp_dir :=
                    byte_raster (new_trg_geoTrans win) proj
                      (xsize win) (ysize win) b0]> (fs w))
               (dirs w) (calls w))
    end
  else (Raise AttributeError, w).
Proof.
  unfold write_sum_and_proximity, gdal_Create, sum_fname, prx_fname.
  destruct ((0 <? xsize win) && (0 <? ysize win)); [|done].
  unfold mbind, M_bind, commit, lift, mret, M_ret.
  cbn -[WriteArray insert os_path_join gdal_ComputeProximity].
  unfold blank_band, byte_raster.
  destruct (WriteArray _ _); cbn [fs dirs calls];
    by rewrite ?insert_insert_eq.
Qed.

Lemma aligned_windows_geotrans lc_inv gt g win xmin xmax ymin ymax :
  GetEnvelope (Boundary g) = (xmin, xmax, ymin, ymax) →
  aligned_windows lc_inv gt g = Ok win →
  new_trg_geoTrans win = GeoTrans xmin (gt1 gt) (gt2 gt) ymax (gt4 gt) (gt5 gt).
Proof.
  intros Henv H. unfold aligned_windows in H. rewrite Henv in H.
  repeat (step_Ok H; try match goal with p : (_ * _)%type |- _ => destruct p end).
  by injection H as <-.
Qed.

Lemma georeferenced_insert gt m d c q proj xs ys b p :
  p = q ∨ georeferenced gt (World m d c) p →
  georeferenced gt (World (<[q := byte_raster gt proj xs ys b]> m) d c) p.
Proof.
  unfold georeferenced. cbn [fs]. destruct (decide (p = q)) as [->|Hne].
  - intros _. eexists. by rewrite lookup_insert_eq.
  - intros [?|?]; [done|]. by rewrite lookup_insert_ne.
Qed.

Lemma classify_and_write_georeferenced temp_dir bin lc_band fm_band trg_ds
    win w w' p :
  classify_and_write temp_dir bin lc_band fm_band trg_ds win w = (Ok tt, w') →
  p ∈ [sum_fname temp_dir; prx_fname temp_dir; bin] →
  georeferenced (new_trg_geoTrans win) w' p.
Proof.
  intros H Hp. unfold classify_and_write in H.
  apply M_bind_inv_Ok in H as ([[lc fm] image_bands] & w1 & Hread & H).
  injection Hread as _ <-.
  repeat case_match; try done.
  apply M_bind_inv_Ok in H as (ev & w1 & [= _ <-] & H).
  apply M_bind_inv_Ok in H as (prx & w1 & Hsum & H).
  apply M_bind_inv_Ok in H as (tc & w2 & [= _ <-] & H).
  apply M_bind_inv_Ok in H as (final & w2 & [= _ <-] & H).
  rewrite write_sum_and_proximity_eq in Hsum.
  rewrite write_labels_eq in H.
  destruct ((0 <? xsize win) && (0 <? ysize win)); [|done].
  cbn zeta in *. repeat case_match; try done.
  injection Hsum as _ <-. injection H as <-. cbn [fs dirs calls].
  apply georeferenced_insert. rewrite !elem_of_cons in Hp.
  destruct Hp as [->|[->|[->|[]%elem_of_nil]]]; [right|right|by left].
  - apply georeferenced_insert. right. apply georeferenced_insert. by left.
  - apply georeferenced_insert. by left.
Qed.
End write_facts.

(** ** Labels and georeference *)

Lemma to_byte_label c lc fp : to_byte (label_of c lc fp) = of_int (label_of c lc fp).
Proof.
  unfold label_of.
  destruct fp, (c && sample_eq lc 1), (c && sample_eq lc 0); reflexivity.
Qed.

Lemma WriteArray_fits (b : band) (array : ndarray Z) :
  nrows array = nrows (pixels b) → ncols array = ncols (pixels b) →
  WriteArray b array
  = Ok (Band (NoDataValue b)
          (tabulate (nrows array) (ncols array) (λ i j, to_byte (cell array i j)))).
Proof.
  intros Hr Hc. unfold WriteArray, XSize, YSize. rewrite Hr, Hc.
  rewrite !Z.ltb_irrefl. cbn [orb]. do 2 f_equal. apply tabulate_ext.
  intros i j Hi Hj. 
  by rewrite (proj2 (Nat.ltb_lt _ _) Hi), (proj2 (Nat.ltb_lt _ _) Hj).
Qed.

Section label_facts.
Context {ext : Externals}.

(** C2. For a confirmed grid, a land-cover grid and a false-positive
    mask of one shape, read over a non-empty window of that shape, the
    label grid is 255 everywhere, then 0 where confirmed and land cover
    0, then 1 where confirmed and land cover 1, then 255 wherever the
    mask is set ([label_of], cell by cell); the band written to the
    output path holds exactly these labels and its no-data value is
    255. *)
Theorem label_assignment (confirmed : ndarray bool) (lc fm : ndarray sample)
    bin proj win w :
  same_shape confirmed lc = true → same_shape fm lc = true →
  nrows lc = Z.to_nat (ysize win) → ncols lc = Z.to_nat (xsize win) →
  0 < xsize win → 0 < ysize win →
  let labels := tabulate (nrows lc) (ncols lc) (λ i j,
    label_of (cell confirmed i j) (cell lc i j) (sample_eq (cell fm i j) 1)) in
  label_stage confirmed (Some lc) (py_eq (Some fm) 1) = Ok labels ∧
  ∃ w', write_labels bin proj win labels w = (Ok tt, w') ∧
        fs w' !! bin
        = Some (byte_raster (new_trg_geoTrans win) proj (xsize win) (ysize win)
                  (Band (Some (of_int 255)) (np_map of_int labels))).
Proof.
  intros Hc Hf Hr Hk Hx Hy labels. split; [by apply label_stage_cells|].
  rewrite write_labels_eq.
  rewrite (proj2 (Z.ltb_lt _ _) Hx), (proj2 (Z.ltb_lt _ _) Hy). cbn [andb].
  cbn zeta. rewrite WriteArray_fits by (by cbn; rewrite ?Hr, ?Hk).
  eexists; split; [done|]. cbn [fs]. rewrite lookup_insert_eq.
  do 3 f_equal. unfold np_map. subst labels. cbn [nrows ncols tabulate].
  apply tabulate_ext. intros i j Hi Hj.
  rewrite cell_tabulate by done. apply to_byte_label.
Qed.

(** C7. After a run of [__process_chmap] on an overlapping pair, the
    evidence sum, the proximity map and the label raster are all
    georeferenced with the transform of the (reprojected) target raster
    in which only the origin is replaced, by (xmin, ymax) of the
    envelope of the intersection: pixel sizes and rotation terms are
    those of the target. *)
Theorem outputs_share_relocated_transform self temp_dir chmap bin w w'
    lc_ds src trg_ds g xmin xmax ymin ymax p :
  fs w !! landcover self = Some (Raster lc_ds) →
  fs w !! chmap = Some (Raster src) →
  Warp src = Some trg_ds →
  Intersection (getBBox lc_ds) (getBBox trg_ds) = Some g →
  sample_gt (Area g) 0 = true →
  GetEnvelope (Boundary g) = (xmin, xmax, ymin, ymax) →
  process_chmap self temp_dir chmap bin w = (Ok tt, w') →
  p ∈ [sum_fname temp_dir; prx_fname temp_dir; bin] →
  georeferenced
    (GeoTrans xmin (gt1 (GeoTransform trg_ds)) (gt2 (GeoTransform trg_ds))
              ymax (gt4 (GeoTransform trg_ds)) (gt5 (GeoTransform trg_ds)))
    w' p.
Proof.
  intros Hlc Hsrc Hwarp Hint Harea Henv H Hp. unfold process_chmap in H.
  apply M_bind_inv_Ok in H as ([] & w1 & [= <-] & H).
  apply M_bind_inv_Ok in H as (lc' & w1 & [= <- <-] & H). cbn [fs] in H.
  rewrite Hlc in H.
  apply M_bind_inv_Ok in H as ([fm_ds|] & w1 & [= Hfm <-] & H); [|done].
  apply M_bind_inv_Ok in H as ([trg'|] & w1 & Hw & H); [|done].
  unfold gdal_Warp in Hw.
  apply M_bind_inv_Ok in Hw as (src' & w2 & [= <- <-] & Hw). cbn [fs] in Hw.
  rewrite Hsrc in Hw. cbn [mbind option_bind] in Hw. rewrite Hwarp in Hw.
  apply M_bind_inv_Ok in Hw as ([] & w2 & [= <-] & [= <- <-]).
  rewrite Hint, Harea in H. unfold process_overlap in H.
  apply M_bind_inv_Ok in H as (win & w2 & [= Hwin <-] & H).
  rewrite <- (aligned_windows_geotrans _ _ _ _ _ _ _ _ Henv Hwin).
  by eapply classify_and_write_georeferenced.
Qed.
End label_facts.

(** ** Windows of different sizes *)

Lemma ReadAsArray_Ok b x y xs ys r :
  ReadAsArray b x y xs ys = Ok r →
  shaped (Z.to_nat ys) (Z.to_nat xs) r ∧ 0 ≤ xs ∧ 0 ≤ ys.
Proof.
  unfold ReadAsArray.
  destruct (xs <? 0) eqn:Hx; [done|]. destruct (ys <? 0) eqn:Hy; [done|].
  cbn [orb]. intros H. split; [|lia]. intros arr ->.
  case_match; [|done]. by injection H as <-.
Qed.

Lemma band_ReadAsArray_Ok b x y xs ys r :
  band_ReadAsArray b x y xs ys = Ok r →
  shaped (Z.to_nat ys) (Z.to_nat xs) r ∧ 0 ≤ xs ∧ 0 ≤ ys.
Proof.
  destruct b as [b|]; [|done]. cbn. intros H. repeat step_Ok H.
  by eapply ReadAsArray_Ok.
Qed.

Lemma mapM_res_Forall {A B} (f : A → res B) (l : list A) (l' : list B) :
  mapM f l = Ok l' → Forall (λ y, ∃ x, f x = Ok y) l'.
Proof.
  revert l'. induction l as [|x l IH]; intros l' H; cbn in H.
  - injection H as <-. constructor.
  - repeat step_Ok H. injection H as <-. constructor; eauto.
Qed.

Lemma strong_rule_Some blue red nir kisqr s :
  total_change_strong_rule blue red nir kisqr = Ok s →
  is_Some blue ∧ is_Some red ∧ is_Some nir ∧ is_Some kisqr.
Proof.
  intros H. unfold total_change_strong_rule in H.
  destruct blue, red, nir, kisqr; try done; cbn in H; repeat step_Ok H; done.
Qed.

Lemma label_stage_None total_change mask_fchm :
  label_stage total_change None mask_fchm = Raise AttributeError.
Proof. reflexivity. Qed.

(** With a land-cover array of another shape than the bands, the
    threshold stage stops on line 251 at the latest. *)
Lemma threshold_stage_mismatch (lc : ndarray sample) blue red nir kisqr r c :
  shaped r c blue → shaped r c red → shaped r c nir → shaped r c kisqr →
  (nrows lc, ncols lc) ≠ (r, c) →
  ∃ e, threshold_stage (Some lc) blue red nir kisqr = Raise e ∧
       (is_Some blue → is_Some red → is_Some nir → is_Some kisqr →
        e = IndexError).
Proof.
  intros Hb Hr Hn Hk Hne. unfold threshold_stage.
  destruct (total_change_strong_rule blue red nir kisqr) as [s|e] eqn:Es.
  - destruct (strong_rule_Some _ _ _ _ _ Es)
      as ([b ->] & [r' ->] & [n ->] & [k ->]).
    destruct (Hb b eq_refl), (Hr r' eq_refl), (Hn n eq_refl), (Hk k eq_refl).
    rewrite strong_rule_cells in Es
      by (apply same_shape_true; split; congruence).
    injection Es as <-.
    rewrite weak_rule_cells by (apply same_shape_true; split; congruence).
    cbn [mbind res_bind np_cmp np_isin np_setmask].
    destruct (same_shape _ _) eqn:Hs; [|by eexists].
    apply same_shape_true in Hs as [??].
    cbn [nrows ncols tabulate np_map] in *. destruct Hne. congruence.
  - eexists. split; [done|]. intros [b ->] [r' ->] [n ->] [k ->].
    destruct (Hb b eq_refl), (Hr r' eq_refl), (Hn n eq_refl), (Hk k eq_refl).
    rewrite strong_rule_cells in Es
      by (apply same_shape_true; split; congruence). done.
Qed.

Lemma M_bind_lift {A B} (r : res A) (f : A → M B) w :
  (lift r ≫= f) w = match r with Ok a => f a w | Raise e => (Raise e, w) end.
Proof. unfold mbind, M_bind, lift. by destruct r. Qed.

Section mismatch.
Context {ext : Externals}.

(** C8. When the window into the land cover and the window into the
    change map differ in width or in height, the classification never
    returns normally and never touches the output path: it ends in an
    exception, whatever the reads return. When the reads return arrays,
    the exception is the [IndexError] of the boolean-mask assignment on
    line 251, raised before anything is written. *)
Theorem mismatched_windows_raise temp_dir bin lc_band fm_band trg_ds win w :
  xsize win ≠ xsize_sub win ∨ ysize win ≠ ysize_sub win →
  bin ≠ sum_fname temp_dir → bin ≠ prx_fname temp_dir →
  (∃ e w',
     classify_and_write temp_dir bin lc_band fm_band trg_ds win w = (Raise e, w')
     ∧ fs w' !! bin = fs w !! bin) ∧
  (∀ lc fm blue green red nir kisqr,
     read_windows lc_band fm_band trg_ds win
     = Ok (Some lc, fm, [Some blue; green; Some red; Some nir; Some kisqr]) →
     classify_and_write temp_dir bin lc_band fm_band trg_ds win w
     = (Raise IndexError, w)).
Proof.
  intros Hne Hsum Hprx.
  assert (∀ lc fm b1 b2 b3 b4 b5,
    read_windows lc_band fm_band trg_ds win
    = Ok (Some lc, fm, [b1; b2; b3; b4; b5]) →
    ∃ e, threshold_stage (Some lc) b1 b3 b4 b5 = Raise e ∧
         (is_Some b1 → is_Some b3 → is_Some b4 → is_Some b5 → e = IndexError))
    as Hmis.
  { intros lc fm b1 b2 b3 b4 b5 Hread. unfold read_windows in Hread.
    repeat step_Ok Hread. injection Hread as -> -> ->.
    match goal with E : band_ReadAsArray lc_band _ _ _ _ = Ok _ |- _ =>
      apply band_ReadAsArray_Ok in E as (Hlc & ? & ?) end.
    match goal with E : mapM _ _ = Ok _ |- _ =>
      apply mapM_res_Forall in E end.
    repeat match goal with
    | F : Forall _ (_ :: _) |- _ =>
        apply Forall_cons in F as [(? & (? & ? & ?)%band_ReadAsArray_Ok) F]
    end.
    destruct (Hlc lc eq_refl).
    eapply threshold_stage_mismatch; [eassumption..|].
    intros [= ??]. lia. }
  split.
  - unfold classify_and_write. rewrite M_bind_lift.
    destruct (read_windows _ _ _ _) as [[[lc fm] bands]|e] eqn:Hread;
      [|by eexists _, _].
    destruct bands as [|b1 [|b2 [|b3 [|b4 [|b5 [|b6 bands]]]]]];
      try by eexists _, _.
    destruct lc as [lc|].
    + destruct (Hmis _ _ _ _ _ _ _ eq_refl) as (e & -> & _).
      rewrite M_bind_lift. by eexists _, _.
    + rewrite M_bind_lift. destruct (threshold_stage _ _ _ _ _) as [ev|e];
        [|by eexists _, _].
      destruct (effect_write_sum_and_proximity
                  (λ p, p = sum_fname temp_dir ∨ p = prx_fname temp_dir)
                  (λ _, True) temp_dir (Projection trg_ds) win (sum_change ev)
                  ltac:(tauto) ltac:(tauto) w) as [Hfs _].
      specialize (Hfs bin ltac:(intros [?|?]; congruence)).
      destruct (write_sum_and_proximity _ _ _ _ w) as [[prx|e] w1] eqn:Hw;
        cbn [snd] in Hfs.
      * erewrite M_bind_Ok by done. rewrite M_bind_lift.
        destruct (total_change_of _ _); [|by eexists _, _].
        rewrite M_bind_lift, label_stage_None. by eexists _, _.
      * erewrite M_bind_Raise by done. by eexists _, _.
  - intros lc fm blue green red nir kisqr Hread.
    unfold classify_and_write. rewrite M_bind_lift, Hread.
    destruct (Hmis _ _ _ _ _ _ _ Hread) as (e & -> & He).
    rewrite He by done. by rewrite M_bind_lift.
Qed.
End mismatch.

(** ** Replacing CHMAP by BIN *)

Lemma str_replace_from_skip (old new x s : string) :
  str_replace_from (String.length x) old new (x +:+ s)
  = str_replace_from 0 old new s.
Proof.
  induction x as [|c x IH]; [done|]. cbn. apply IH.
Qed.

Lemma str_replace_no_occurrence (old new s : string) :
  occurs old s = false → str_replace old new s = s.
Proof.
  unfold str_replace. induction s as [|c s IH]; [done|].
  cbn [occurs str_replace_from]. intros [Hp Ho]%orb_false_iff.
  rewrite Hp. f_equal. by apply IH.
Qed.

Lemma str_replace_at_head (old new s : string) :
  old ≠ EmptyString →
  str_replace old new (old +:+ s) = new +:+ str_replace old new s.
Proof.
  destruct old as [|c old]; [done|]. intros _. unfold str_replace.
  change (String c old +:+ s) with (String c (old +:+ s)).
  cbn [str_replace_from].
  change (String c (old +:+ s)) with (String c old +:+ s).
  rewrite prefix_app. f_equal. cbn [String.length].
  rewrite Nat.sub_1_r. cbn [Nat.pred]. apply str_replace_from_skip.
Qed.

Lemma str_replace_first (old new pre suf : string) :
  old ≠ EmptyString →
  starts_within old pre (old +:+ suf) = false →
  str_replace old new (pre +:+ old +:+ suf)
  = pre +:+ new +:+ str_replace old new suf.
Proof.
  intros Hold. induction pre as [|c pre IH]; intros Hs.
  - by apply (str_replace_at_head old new suf).
  - cbn [starts_within] in Hs. apply orb_false_iff in Hs as [Hp Hs].
    unfold str_replace in *.
    change (String c pre +:+ ?x) with (String c (pre +:+ x)) in *.
    cbn [str_replace_from]. rewrite Hp. f_equal. by apply IH.
Qed.

Lemma str_replace_not_absolute (file : string) :
  String.prefix "/" file = false →
  String.prefix "/" (str_replace "CHMAP" "BIN" file) = false.
Proof.
  destruct file as [|c file]; [done|]. unfold str_replace.
  cbn [str_replace_from]. destruct (String.prefix "CHMAP" _).
  - intros _. reflexivity.
  - cbn [String.prefix]. destruct (ascii_dec "/" c); [by destruct file|done].
Qed.

(** ** One file of a tile *)

Section run_facts.
Context {ext : Externals}.

(** What follows the classification in both branches of [run]. *)
Lemma effect_seeding (P : string → Prop) (Q : call → Prop) self temp_dir bin :
  (∀ p, in_dir temp_dir p = true → P p) →
  Q (CallDbSeeder temp_dir bin "CHMAP") →
  effect P Q
    (seed ← read_seed_db self;
     if seed : bool then db_seeder self temp_dir bin "CHMAP";; mret tt
     else mret tt).
Proof.
  intros HP HQ. apply effect_bind.
  { unfold read_seed_db. case_match; [apply effect_mret|apply effect_raise]. }
  intros [|]; [|apply effect_mret].
  apply effect_bind; [|intros ?; apply effect_mret].
  by apply effect_db_seeder.
Qed.

Lemma leave_temp_dir_lookup temp_dir w p :
  in_dir temp_dir p = false →
  fs (leave_temp_dir temp_dir w) !! p = fs w !! p.
Proof.
  intros Hp. unfold leave_temp_dir. cbn [fs].
  destruct (fs w !! p) as [f|] eqn:Hf.
  - by apply map_lookup_filter_Some.
  - apply map_lookup_filter_None. by left.
Qed.

Lemma leave_temp_dir_lookup_inside temp_dir w p :
  in_dir temp_dir p = true →
  fs (leave_temp_dir temp_dir w) !! p = None.
Proof.
  intros Hp. unfold leave_temp_dir. cbn [fs].
  apply map_lookup_filter_None. right. intros f _ Hq. unfold in_dir in *. cbn in Hq.
  congruence.
Qed.

(** C6. When the output path of a file already holds a file (and the
    fresh temporary directory holds none), one pass of the inner loop of
    [run] leaves that file exactly as it was, contents and metadata,
    and never calls [__process_chmap]: every call it makes is a call
    of [__db_seeder]. This holds whether the pass ends normally or in
    an exception. *)
Theorem existing_output_is_skipped self out_dir chmap_paths file w f :
  let bin_file_path := os_path_join out_dir (str_replace "CHMAP" "BIN" file) in
  let w' := (run_file self out_dir chmap_paths file w).2 in
  fs w !! bin_file_path = Some f →
  temp_dir_fresh w →
  fs w' !! bin_file_path = Some f ∧
  ∃ new, calls w' = new ++ calls w ∧
         Forall (λ c, is_process_call c = false) new.
Proof.
  intros bin w' Hf Hfresh. subst w'. unfold run_file, with_TemporaryDirectory.
  fold bin. set (temp := mkdtemp w).
  assert (in_dir temp bin = false) as Hout.
  { apply not_true_is_false. intros Hin%Hfresh. congruence. }
  erewrite M_bind_Ok.
  2:{ unfold os_path_exists, enter_temp_dir. cbn [fs].
      rewrite bool_decide_eq_true_2 by (by rewrite Hf). reflexivity. }
  cbn [negb orb].
  destruct (effect_seeding (λ p, in_dir temp p = true)
              (λ c, is_process_call c = false) self temp bin
              ltac:(done) ltac:(done) (enter_temp_dir w))
    as [Hfs (new & Hc & Hnew)].
  fold (enter_temp_dir w).
  match goal with |- context [let '(_, _) := ?m in _] =>
    destruct m as [r w1] end.
  cbn [snd] in *. split.
  - rewrite leave_temp_dir_lookup by done. rewrite Hfs by congruence. done.
  - by exists new.
Qed.

Lemma effect_run_file_body self temp_dir chmap bin :
  effect (λ p, in_dir temp_dir p = true ∨ p = bin)
    (λ c, c = CallProcessChmap temp_dir chmap bin
          ∨ c = CallDbSeeder temp_dir bin "CHMAP")
    (present ← os_path_exists bin;
     if negb present then
       process_chmap self temp_dir chmap bin;;
       seed ← read_seed_db self;
       if seed : bool then db_seeder self temp_dir bin "CHMAP";; mret tt
       else mret tt
     else
       seed ← read_seed_db self;
       if seed : bool then db_seeder self temp_dir bin "CHMAP";; mret tt
       else mret tt).
Proof.
  apply effect_bind; [apply effect_os_path_exists|]. intros [|]; cbn [negb].
  - apply effect_seeding; tauto.
  - apply effect_bind; [|intros _; apply effect_seeding; tauto].
    apply effect_process_chmap; try tauto;
      left; by apply os_path_join_in_dir.
Qed.

End run_facts.

(** ** The threshold stage on aligned windows *)

Lemma np_setmask_tabulate `{!Inhabited A} r c (g : nat → nat → A) m v :
  np_setmask (tabulate r c g) (Arr (tabulate r c m)) v
  = Ok (tabulate r c (λ i j, if m i j then v else g i j)).
Proof.
  cbn [np_setmask].
  assert (same_shape (tabulate r c g) (tabulate r c m) = true) as ->
    by (by apply same_shape_true).
  change (nrows (tabulate r c g)) with r.
  change (ncols (tabulate r c g)) with c.
  f_equal. apply tabulate_ext. intros i j Hi Hj. by rewrite !cell_tabulate.
Qed.

(** The cells of the two grids once the excluded classes and the no-data
    cells are cleared. *)
Lemma threshold_stage_cells (lc blue red nir kisqr : ndarray sample) :
  same_shape lc kisqr = true → same_shape blue kisqr = true →
  same_shape red kisqr = true → same_shape nir kisqr = true →
  threshold_stage (Some lc) (Some blue) (Some red) (Some nir) (Some kisqr)
  = Ok (Evidence
          (tabulate (nrows kisqr) (ncols kisqr) (strong_cell lc blue red nir kisqr))
          (tabulate (nrows kisqr) (ncols kisqr) (weak_cell lc blue red nir kisqr))
          (tabulate (nrows kisqr) (ncols kisqr) (λ i j,
             Z.b2z (strong_cell lc blue red nir kisqr i j)
             + Z.b2z (weak_cell lc blue red nir kisqr i j)))).
Proof.
  intros Hlc Hb Hr Hn. unfold threshold_stage.
  rewrite strong_rule_cells, weak_rule_cells by done.
  apply same_shape_true in Hlc as [Hl1 Hl2].
  cbn [mbind res_bind np_cmp np_isin]. unfold np_map. rewrite Hl1, Hl2.
  repeat (rewrite !(np_setmask_tabulate (A:=bool)); cbn [mbind res_bind]).
  rewrite np_zip_tabulate. cbn [mbind res_bind mret res_ret].
  assert (∀ i j x, (if sample_ge (cell kisqr i j) 2000 then false
            else if existsb (sample_eq (cell lc i j)) excluded_classes
                 then false else x) = keep_cell lc kisqr i j && x) as Hk.
  { intros i j x. unfold keep_cell.
    by destruct (sample_ge _ _), (existsb _ _). }
  do 2 f_equal; apply tabulate_ext; intros i j _ _;
    unfold strong_cell, weak_cell; by rewrite !Hk.
Qed.

Ltac in_list :=
  repeat first [apply list_elem_of_here | apply list_elem_of_further].

Section end_to_end.
Context {ext : Externals}.

(** On windows of one non-empty shape, with every read returning an
    array, the classification runs to completion, and the band written
    to the output path holds [pipeline_label] cell by cell, with 255 as
    its no-data value and the relocated transform. *)
Theorem classify_and_write_labels temp_dir bin lc_band fm_band trg_ds win w
    lc fm blue green red nir kisqr :
  read_windows lc_band fm_band trg_ds win
  = Ok (Some lc, Some fm, [Some blue; green; Some red; Some nir; Some kisqr]) →
  xsize win = xsize_sub win → ysize win = ysize_sub win →
  0 < xsize win → 0 < ysize win →
  ∃ w',
    classify_and_write temp_dir bin lc_band fm_band trg_ds win w = (Ok tt, w') ∧
    fs w' !! bin
    = Some (byte_raster (new_trg_geoTrans win) (Projection trg_ds)
              (xsize win) (ysize win)
              (Band (Some (of_int 255))
                 (tabulate (nrows lc) (ncols lc) (λ i j,
                    of_int (pipeline_label lc fm blue red nir kisqr i j))))).
Proof.
  intros Hread Hx Hy Hxpos Hypos.
  assert (∀ a, a ∈ [lc; fm; blue; red; nir; kisqr] →
            nrows a = Z.to_nat (ysize win) ∧ ncols a = Z.to_nat (xsize win))
    as Hshape.
  { pose proof Hread as H. unfold read_windows in H.
    repeat step_Ok H. injection H as -> -> ->.
    repeat match goal with
    | E : band_ReadAsArray _ _ _ _ _ = Ok _ |- _ =>
        apply band_ReadAsArray_Ok in E as (? & _ & _)
    | E : mapM _ _ = Ok _ |- _ => apply mapM_res_Forall in E
    | F : Forall _ (_ :: _) |- _ =>
        apply Forall_cons in F as [(? & (? & _ & _)%band_ReadAsArray_Ok) F]
    end.
    rewrite Hx, Hy. intros a Ha. rewrite !elem_of_cons in Ha.
    unfold shaped in *. rewrite <- Hx, <- Hy.
    destruct Ha as [->|[->|[->|[->|[->|[->|[]%elem_of_nil]]]]]];
      first [ rewrite Hx, Hy; by eauto | by eauto ]. }
  assert (∀ a b, a ∈ [lc; fm; blue; red; nir; kisqr] →
            b ∈ [lc; fm; blue; red; nir; kisqr] → same_shape a b = true)
    as Hsame.
  { intros a b [??]%Hshape [??]%Hshape. apply same_shape_true.
    split; congruence. }
  destruct (Hshape lc ltac:(in_list)) as [Hlr Hlc].
  destruct (Hshape kisqr ltac:(in_list)) as [Hkr Hkc].
  unfold classify_and_write. rewrite M_bind_lift, Hread.
  rewrite M_bind_lift, threshold_stage_cells by (apply Hsame; in_list).
  cbn [sum_change total_change_weak].
  erewrite M_bind_Ok.
  2:{ rewrite write_sum_and_proximity_eq.
      rewrite (proj2 (Z.ltb_lt _ _) Hxpos), (proj2 (Z.ltb_lt _ _) Hypos).
      cbn [andb]. cbn zeta.
      rewrite WriteArray_fits by (cbn; congruence). reflexivity. }
  rewrite M_bind_lift.
  rewrite total_change_of_same by (apply same_shape_true; cbn; split; congruence).
  rewrite M_bind_lift.
  rewrite label_stage_cells
    by first [ apply Hsame; in_list
             | apply same_shape_true; cbn; split; congruence ].
  rewrite write_labels_eq.
  rewrite (proj2 (Z.ltb_lt _ _) Hxpos), (proj2 (Z.ltb_lt _ _) Hypos).
  cbn [andb]. cbn zeta.
  rewrite WriteArray_fits by (cbn; congruence).
  eexists; split; [reflexivity|]. cbn [fs]. rewrite lookup_insert_eq.
  do 3 f_equal. cbn [nrows ncols tabulate NoDataValue SetNoDataValue].
  apply tabulate_ext. intros i j Hi Hj.
  rewrite cell_tabulate by done. rewrite to_byte_label.
  unfold pipeline_label. do 2 f_equal.
  rewrite !cell_tabulate by lia. do 2 f_equal.
  cbn [pixels gdal_ComputeProximity blank_band]. unfold np_full.
  change (nrows (tabulate ?r _ _)) with r.
  change (ncols (tabulate _ ?c _)) with c.
  rewrite cell_tabulate by lia. f_equal.
  unfold evidence_sum. apply tabulate_ext. intros i' j' Hi' Hj'.
  by rewrite cell_tabulate.
Qed.
End end_to_end.

(** ** The whole of [__process_chmap] and of one pass *)

Section whole_run.
Context {ext : Externals}.

(** X1. On an overlapping pair whose windows have one non-empty shape and
    are read as arrays, [__process_chmap] returns normally, and the output
    path holds a one-band raster of the size of the land-cover window,
    with the relocated transform, the projection of the reprojected
    change map, no-data value 255, and [pipeline_label] cell by cell. *)
Theorem process_chmap_labels self temp_dir chmap bin w lc_ds fm_ds src trg_ds g
    win lc fm blue green red nir kisqr :
  fs w !! landcover self = Some (Raster lc_ds) →
  fs w !! false_mask self = Some (Raster fm_ds) →
  fs w !! chmap = Some (Raster src) →
  Warp src = Some trg_ds →
  Intersection (getBBox lc_ds) (getBBox trg_ds) = Some g →
  sample_gt (Area g) 0 = true →
  aligned_windows (InvGeoTransform (GeoTransform lc_ds)) (GeoTransform trg_ds) g
  = Ok win →
  read_windows (GetRasterBand lc_ds 1) (GetRasterBand fm_ds 1) trg_ds win
  = Ok (Some lc, Some fm, [Some blue; green; Some red; Some nir; Some kisqr]) →
  xsize win = xsize_sub win → ysize win = ysize_sub win →
  0 < xsize win → 0 < ysize win →
  ∃ w',
    process_chmap self temp_dir chmap bin w = (Ok tt, w') ∧
    fs w' !! bin
    = Some (byte_raster (new_trg_geoTrans win) (Projection trg_ds)
              (xsize win) (ysize win)
              (Band (Some (of_int 255))
                 (tabulate (nrows lc) (ncols lc) (λ i j,
                    of_int (pipeline_label lc fm blue red nir kisqr i j))))).
Proof.
  intros Hlc Hfm Hsrc Hwarp Hint Harea Hwin Hread Hx Hy Hxpos Hypos.
  unfold process_chmap.
  erewrite M_bind_Ok by reflexivity. cbn beta.
  erewrite M_bind_Ok by (unfold gdal_Open; cbn [fs]; by rewrite Hlc).
  cbn beta iota.
  erewrite M_bind_Ok by (unfold gdal_Open; cbn [fs]; by rewrite Hfm).
  cbn beta iota.
  erewrite M_bind_Ok.
  2:{ unfold gdal_Warp. erewrite M_bind_Ok
        by (unfold gdal_Open; cbn [fs]; by rewrite Hsrc).
      cbn [mbind option_bind]. rewrite Hwarp.
      erewrite M_bind_Ok by reflexivity. reflexivity. }
  cbn beta iota. rewrite Hint, Harea. unfold process_overlap.
  rewrite M_bind_lift, Hwin.
  by eapply classify_and_write_labels.
Qed.

(** [__init__] without [--seed_db] never assigns [self.seed_db]. *)
Lemma DecTree_init_plain address username password input output lc fm :
  DecTree_init address username password input output lc fm false
  = Ok (Build_DecTree input output lc fm None None None).
Proof. reflexivity. Qed.

(** On such an instance every pass of the inner loop of [run] ends in an
    exception: both branches read [self.seed_db]. *)
Lemma run_file_without_seed_db self out_dir chmap_paths file w :
  seed_db self = None →
  ∃ e, (run_file self out_dir chmap_paths file w).1 = Raise e.
Proof.
  intros Hseed. unfold run_file, with_TemporaryDirectory.
  assert (∀ w1, (seed ← read_seed_db self;
                 if seed : bool
                 then db_seeder self (mkdtemp w)
                        (os_path_join out_dir (str_replace "CHMAP" "BIN" file))
                        "CHMAP";; mret tt
                 else mret tt) w1 = (Raise AttributeError, w1)) as Hraise.
  { intros w1. apply M_bind_Raise. unfold read_seed_db. by rewrite Hseed. }
  erewrite M_bind_Ok by reflexivity.
  destruct (negb _).
  - match goal with |- context [(?m ≫= _) ?w0] =>
      destruct (m w0) as [[[]|e] w1] eqn:Hm end.
    + erewrite M_bind_Ok by exact Hm. rewrite Hraise. by eexists.
    + erewrite M_bind_Raise by exact Hm. by eexists.
  - rewrite Hraise. by eexists.
Qed.
End whole_run.

(** Without overlap, the pass that called [__process_chmap] still ends in
    an exception: [AttributeError] where [seed_db] was never assigned,
    [FileNotFoundError] from [__db_seeder] where it is [True], since there
    is no output to upload. *)
Example no_overlap_pass_plain :
  let pass := run_file (ext:=exact_externals) demo_self "/out/39SUB" "/in/39SUB"
                "S2_20230101-0_CHMAP_39SUB_C_V1_FRC_CHMAP.tif" far_world in
  pass.1 = Raise AttributeError ∧ fs pass.2 = fs far_world.
Proof. split; vm_compute; reflexivity. Qed.

Example no_overlap_pass_seeding :
  let pass := run_file (ext:=exact_externals) seeding_self "/out/39SUB" "/in/39SUB"
                "S2_20230101-0_CHMAP_39SUB_C_V1_FRC_CHMAP.tif" far_world in
  pass.1 = Raise FileNotFoundError ∧ fs pass.2 = fs far_world.
Proof. split; vm_compute; reflexivity. Qed.

(** ** The results on concrete inputs *)

Lemma temp_dir_fresh_intro {ext : Externals} (w : world) :
  map_Forall (λ p _, in_dir (mkdtemp w) p = false) (fs w) → temp_dir_fresh w.
Proof.
  intros Hall p Hp. destruct (fs w !! p) as [f|] eqn:Hf; [|done].
  apply Hall in Hf. congruence.
Qed.

Lemma demo_world_fresh : temp_dir_fresh (ext:=exact_externals) demo_world.
Proof.
  apply temp_dir_fresh_intro. unfold demo_world, demo_fs. cbn [fs].
  repeat (apply map_Forall_insert_2; [reflexivity|]). apply map_Forall_empty.
Qed.

Lemma done_world_fresh : temp_dir_fresh (ext:=exact_externals) done_world.
Proof.
  apply temp_dir_fresh_intro. unfold done_world, demo_fs. cbn [fs].
  repeat (apply map_Forall_insert_2; [reflexivity|]). apply map_Forall_empty.
Qed.

Lemma label_assignment_witness :
  same_shape demo_weak demo_lc = true ∧ same_shape demo_fm demo_lc = true ∧
  nrows demo_lc = Z.to_nat (ysize demo_win) ∧
  ncols demo_lc = Z.to_nat (xsize demo_win) ∧
  0 < xsize demo_win ∧ 0 < ysize demo_win ∧
  ∃ labels w',
    label_stage demo_weak (Some demo_lc) (py_eq (Some demo_fm) 1) = Ok labels ∧
    to_rows labels = [[0; 1; 255]; [255; 1; 255]] ∧
    write_labels demo_bin "EPSG:3857" demo_win labels demo_world = (Ok tt, w') ∧
    fs w' !! demo_bin
    = Some (byte_raster demo_geotrans "EPSG:3857" 3 2
              (Band (Some (of_int 255)) (np_map of_int labels))).
Proof.
  repeat (split; [reflexivity|]).
  destruct (label_assignment demo_weak demo_lc demo_fm demo_bin "EPSG:3857"
              demo_win demo_world) as (Hl & w' & Hw & Hfs);
    [reflexivity..|].
  eexists _, w'. split; [exact Hl|]. split; [reflexivity|]. by split.
Defined.

Lemma strong_implies_weak_witness :
  STRONG (of_int 6) (of_int (-3)) (of_int (-3)) (of_int 800) = true ∧
  WEAK (of_int 6) (of_int (-3)) (of_int (-3)) (of_int 800) = true ∧
  ∃ ev,
    threshold_stage (Some demo_lc) (Some demo_blue) (Some demo_red)
      (Some demo_nir) (Some demo_kisqr) = Ok ev ∧
    grid_le (total_change_strong ev) (total_change_weak ev).
Proof.
  destruct strong_implies_weak as (Hcell & _ & Hgrid).
  split; [reflexivity|]. split; [by apply Hcell|].
  eexists. split; [vm_compute; reflexivity|].
  apply (Hgrid (Some demo_lc) (Some demo_blue) (Some demo_red)
           (Some demo_nir) (Some demo_kisqr)).
  vm_compute; reflexivity.
Defined.

Lemma confirmed_subset_of_weak_witness :
  ∃ confirmed,
    total_change_of demo_weak demo_prx = Ok confirmed ∧
    grid_le confirmed demo_weak ∧
    ∃ rest, np_logical_and confirmed (Arr (np_logical_not demo_weak)) = Ok rest
            ∧ grid_empty rest.
Proof.
  eexists. split; [vm_compute; reflexivity|].
  destruct (confirmed_subset_of_weak demo_weak demo_prx
              (tabulate 2 3 (λ _ j, bool_decide (j < 2)%nat)))
    as [Hempty Hle]; [vm_compute; reflexivity|].
  split; [by apply Hle|exact Hempty].
Defined.

Lemma nodata_masking_keeps_weak_witness :
  ∃ w ev,
    total_change_weak_255 (Some demo_lc) (Some demo_blue) (Some demo_red)
      (Some demo_nir) (Some demo_kisqr) = Ok w ∧
    threshold_stage (Some demo_lc) (Some demo_blue) (Some demo_red)
      (Some demo_nir) (Some demo_kisqr) = Ok ev ∧
    total_change_weak ev = w ∧
    to_rows w = [[true; true; false]; [true; true; false]].
Proof.
  eexists _, _.
  split; [vm_compute; reflexivity|]. split; [vm_compute; reflexivity|].
  split; [|reflexivity].
  destruct (nodata_masking_keeps_weak (Some demo_lc) (Some demo_blue)
              (Some demo_red) (Some demo_nir) (Some demo_kisqr)
              (NdArray 2 3 [true; true; false; true; true; false])
              (Evidence (NdArray 2 3 [true; false; false; true; false; false])
                 (NdArray 2 3 [true; true; false; true; true; false])
                 (NdArray 2 3 [2; 1; 0; 2; 1; 0])))
    as (nd & _ & _ & Heq & _); [vm_compute; reflexivity..|].
  exact Heq.
Defined.

Lemma no_overlap_no_output_witness :
  fs far_world !! landcover demo_self = Some (Raster far_lc_ds) ∧
  fs far_world !! false_mask demo_self = Some (Raster demo_fm_ds) ∧
  fs far_world !! demo_chmap = Some (Raster demo_chmap_ds) ∧
  Warp (Externals:=exact_externals) demo_chmap_ds = Some demo_chmap_ds ∧
  Intersection (Externals:=exact_externals)
    (getBBox far_lc_ds) (getBBox demo_chmap_ds) = Some None ∧
  ∃ w', process_chmap (ext:=exact_externals) demo_self "/tmp/t" demo_chmap
          demo_bin far_world = (Ok tt, w') ∧
        fs w' !! demo_bin = None.
Proof.
  repeat (split; [vm_compute; reflexivity|]).
  destruct (no_overlap_no_output (ext:=exact_externals) demo_self "/tmp/t"
              demo_chmap demo_bin far_world far_lc_ds demo_fm_ds
              demo_chmap_ds demo_chmap_ds) as (w' & Hrun & _ & Hbin);
    [vm_compute; reflexivity.. | | |].
  - intros g Hg. vm_compute in Hg. injection Hg as <-. reflexivity.
  - intros Heq. vm_compute in Heq. discriminate Heq.
  - exists w'. split; [exact Hrun|]. rewrite Hbin. vm_compute. reflexivity.
Defined.

Lemma existing_output_is_skipped_witness :
  fs done_world !! demo_bin = Some (Raster demo_fm_ds) ∧
  temp_dir_fresh (ext:=exact_externals) done_world ∧
  let w' := (run_file (ext:=exact_externals) seeding_self "/out/39SUB" "/in/39SUB"
               "S2_20230101-0_CHMAP_39SUB_C_V1_FRC_CHMAP.tif" done_world).2 in
  fs w' !! demo_bin = Some (Raster demo_fm_ds) ∧
  calls w' = [CallDbSeeder "/tmp/tmpdectree" demo_bin "CHMAP"].
Proof.
  split; [vm_compute; reflexivity|]. split; [exact done_world_fresh|].
  intros w'.
  destruct (existing_output_is_skipped (ext:=exact_externals) seeding_self
              "/out/39SUB" "/in/39SUB"
              "S2_20230101-0_CHMAP_39SUB_C_V1_FRC_CHMAP.tif" done_world
              (Raster demo_fm_ds)) as [Hkept _];
    [vm_compute; reflexivity | exact done_world_fresh |].
  split; [exact Hkept|]. vm_compute. reflexivity.
Defined.

Lemma outputs_share_relocated_transform_witness :
  let run := process_chmap (ext:=exact_externals) demo_self "/tmp/t" demo_chmap
               demo_bin demo_world in
  run.1 = Ok tt ∧
  Intersection (Externals:=exact_externals)
    (getBBox demo_lc_ds) (getBBox demo_chmap_ds) = Some demo_intersection ∧
  georeferenced demo_geotrans run.2 demo_bin ∧
  georeferenced demo_geotrans run.2 (sum_fname "/tmp/t") ∧
  georeferenced demo_geotrans run.2 (prx_fname "/tmp/t").
Proof.
  intros run. split; [vm_compute; reflexivity|].
  split; [vm_compute; reflexivity|].
  assert (∀ p, p ∈ [sum_fname "/tmp/t"; prx_fname "/tmp/t"; demo_bin] →
               georeferenced demo_geotrans run.2 p) as Hall.
  { intros p Hp.
    apply (outputs_share_relocated_transform (ext:=exact_externals) demo_self
             "/tmp/t" demo_chmap demo_bin demo_world run.2 demo_lc_ds
             demo_chmap_ds demo_chmap_ds demo_intersection
             (of_int 0) (of_int 30) (of_int 0) (of_int 20) p);
      first [exact Hp | vm_compute; reflexivity]. }
  repeat split; apply Hall; in_list.
Defined.

Lemma mismatched_windows_raise_witness :
  xsize narrow_win ≠ xsize_sub narrow_win ∧
  classify_and_write (ext:=exact_externals) "/tmp/t" demo_bin
    (GetRasterBand demo_lc_ds 1) (GetRasterBand demo_fm_ds 1) demo_chmap_ds
    narrow_win demo_world
  = (Raise IndexError, demo_world).
Proof.
  split; [vm_compute; discriminate|].
  destruct (mismatched_windows_raise (ext:=exact_externals) "/tmp/t" demo_bin
              (GetRasterBand demo_lc_ds 1) (GetRasterBand demo_fm_ds 1)
              demo_chmap_ds narrow_win demo_world) as [_ Hindex].
  - left. vm_compute. discriminate.
  - intros Heq. vm_compute in Heq. discriminate Heq.
  - intros Heq. vm_compute in Heq. discriminate Heq.
  - eapply Hindex. vm_compute. reflexivity.
Defined.


(** * Further properties of the program *)

(** ** Opening the inputs, and what is left untouched *)

Lemma gdal_Open_eq path w :
  gdal_Open path w
  = (Ok match fs w !! path with Some (Raster ds) => Some ds | _ => None end, w).
Proof. reflexivity. Qed.

Section open_failures.
Context {ext : Externals}.

(** X2. When the land cover or the false mask cannot be opened as a
    raster, [__process_chmap] ends in [SystemExit(1)] (lines 138-140 and
    152-154) before anything is reprojected: no file is written, and the
    call is the only trace it leaves. *)
Theorem unreadable_inputs_exit self temp_dir chmap bin w :
  (∀ ds, fs w !! landcover self ≠ Some (Raster ds)) ∨
  (∀ ds, fs w !! false_mask self ≠ Some (Raster ds)) →
  process_chmap self temp_dir chmap bin w
  = (Raise (SystemExit 1),
     World (fs w) (dirs w) (CallProcessChmap temp_dir chmap bin :: calls w)).
Proof.
  intros Hbad. unfold process_chmap.
  erewrite M_bind_Ok by reflexivity. cbn beta.
  erewrite M_bind_Ok by apply gdal_Open_eq. cbn [fs].
  destruct (fs w !! landcover self) as [[lc_ds| |]|] eqn:Hlc; try reflexivity.
  erewrite M_bind_Ok by apply gdal_Open_eq. cbn [fs].
  destruct (fs w !! false_mask self) as [[fm_ds| |]|] eqn:Hfm; try reflexivity.
  destruct Hbad as [Hbad|Hbad]; by edestruct Hbad.
Qed.

(** X3. A change map that cannot be opened or reprojected is not tested
    for as the other two inputs are: [__process_chmap] ends in an
    exception that is not a [SystemExit], whatever its code. Nothing has
    been written by then, and the call is the only trace it leaves. *)
Theorem unreadable_chmap_raises self temp_dir chmap bin w lc_ds fm_ds :
  fs w !! landcover self = Some (Raster lc_ds) →
  fs w !! false_mask self = Some (Raster fm_ds) →
  (∀ src, fs w !! chmap = Some (Raster src) → Warp src = None) →
  ∃ e,
    process_chmap self temp_dir chmap bin w
    = (Raise e,
       World (fs w) (dirs w) (CallProcessChmap temp_dir chmap bin :: calls w)) ∧
    ∀ code, e ≠ SystemExit code.
Proof.
  intros Hlc Hfm Hsrc. exists AttributeError. split; [|done].
  unfold process_chmap.
  erewrite M_bind_Ok by reflexivity. cbn beta.
  erewrite M_bind_Ok by apply gdal_Open_eq. cbn [fs]. rewrite Hlc.
  erewrite M_bind_Ok by apply gdal_Open_eq. cbn [fs]. rewrite Hfm.
  set (w1 := World _ _ _).
  assert (gdal_Warp (os_path_join temp_dir "CHMAP_3857_temp.tif") chmap w1
          = (Ok None, w1)) as Hwarp.
  { unfold gdal_Warp. erewrite M_bind_Ok by apply gdal_Open_eq. cbn [fs w1].
    destruct (fs w !! chmap) as [[src| |]|] eqn:Hc; try reflexivity.
    cbn [mbind option_bind]. by rewrite (Hsrc src). }
  by erewrite M_bind_Ok by exact Hwarp.
Qed.

(** X4. Whatever its outcome, [__process_chmap] changes no path but the
    four it writes: the reprojected change map, the evidence sum and the
    proximity map in the temporary directory, and the output path. The
    land cover, the false mask and the change map are left as they
    were. *)
Theorem process_chmap_writes_only_its_outputs self temp_dir chmap bin w p :
  p ∉ [trg_fname temp_dir; sum_fname temp_dir; prx_fname temp_dir; bin] →
  fs (process_chmap self temp_dir chmap bin w).2 !! p = fs w !! p.
Proof.
  intros Hp.
  destruct (effect_process_chmap
              (λ q, q ∈ [trg_fname temp_dir; sum_fname temp_dir;
                         prx_fname temp_dir; bin])
              (λ _, True) self temp_dir chmap bin
              ltac:(in_list) ltac:(in_list) ltac:(in_list) ltac:(in_list) I w)
    as [Hfs _].
  by apply Hfs.
Qed.
End open_failures.

(** ** The bands of the change map *)

Lemma mapM_res_length {A B} (f : A → res B) (l : list A) (l' : list B) :
  mapM f l = Ok l' → length l' = length l.
Proof.
  revert l'. induction l as [|x l IH]; intros l' H; cbn in H.
  - by injection H as <-.
  - destruct (f x); [|done]. cbn in H. destruct (mapM f l); [|done].
    injection H as <-. cbn. f_equal. by apply IH.
Qed.

(** The outcome of a window read depends on the size of the band only. *)
Lemma band_ReadAsArray_shape_only (b b' : band) x y xs ys :
  nrows (pixels b') = nrows (pixels b) → ncols (pixels b') = ncols (pixels b) →
  match band_ReadAsArray (Some b) x y xs ys, band_ReadAsArray (Some b') x y xs ys with
  | Ok (Some _), Ok (Some _) | Ok None, Ok None => True
  | Raise e, Raise e' => e = e'
  | _, _ => False
  end.
Proof.
  intros Hr Hc. unfold band_ReadAsArray, ReadAsArray, XSize, YSize.
  rewrite Hr, Hc. destruct (py_int x) as [x'|]; [|done].
  destruct (py_int y) as [y'|]; [|done]. cbn [mbind res_bind].
  destruct ((xs <? 0) || (ys <? 0)); [done|].
  by destruct ((xs =? 0) || (ys =? 0) || _).
Qed.

Section band_facts.
Context {ext : Externals}.

(** X5. Line 222 unpacks exactly five bands. With a reprojected change
    map of any other band count the classification ends in an exception
    and writes nothing; it is [ValueError] whenever the windows were read
    without an exception. *)
Theorem wrong_band_count_raises temp_dir bin lc_band fm_band trg_ds win w :
  length (bands trg_ds) ≠ 5%nat →
  ∃ e, classify_and_write temp_dir bin lc_band fm_band trg_ds win w = (Raise e, w) ∧
       (∀ r, read_windows lc_band fm_band trg_ds win = Ok r → e = ValueError).
Proof.
  intros Hlen. unfold classify_and_write. rewrite M_bind_lift.
  destruct (read_windows lc_band fm_band trg_ds win)
    as [[[lc fm] image_bands]|e] eqn:Hread; [|by exists e].
  exists ValueError. split; [|done].
  assert (length image_bands ≠ 5%nat) as Hlen'.
  { unfold read_windows in Hread. repeat step_Ok Hread.
    injection Hread as <- <- <-.
    match goal with E : mapM _ _ = Ok _ |- _ =>
      apply mapM_res_length in E; congruence end. }
  by destruct image_bands as [|? [|? [|? [|? [|? [|? ?]]]]]].
Qed.

(** X6. The green band is read and never used: replacing the second
    band of the change map by any band of the same size changes neither
    the outcome nor a single file. *)
Theorem green_band_is_ignored temp_dir bin lc_band fm_band trg_ds trg_ds' win w
    blue green green' rest :
  bands trg_ds = blue :: green :: rest →
  bands trg_ds' = blue :: green' :: rest →
  Projection trg_ds' = Projection trg_ds →
  nrows (pixels green') = nrows (pixels green) →
  ncols (pixels green') = ncols (pixels green) →
  classify_and_write temp_dir bin lc_band fm_band trg_ds' win w
  = classify_and_write temp_dir bin lc_band fm_band trg_ds win w.
Proof.
  intros Hb Hb' Hproj Hr Hc. unfold classify_and_write, read_windows.
  rewrite Hb, Hb', Hproj, !M_bind_lift.
  destruct (band_ReadAsArray lc_band _ _ _ _) as [lc|]; [|done].
  destruct (band_ReadAsArray fm_band _ _ _ _) as [fm|]; [|done].
  cbn [mbind res_bind mapM].
  destruct (band_ReadAsArray (Some blue) _ _ _ _) as [b|]; [|done].
  cbn [mbind res_bind].
  pose proof (band_ReadAsArray_shape_only green green' (ulX_sub win)
                (ulY_sub win) (xsize_sub win) (ysize_sub win) Hr Hc) as Hg.
  destruct (band_ReadAsArray (Some green) _ _ _ _) as [[g|]|e],
    (band_ReadAsArray (Some green') _ _ _ _) as [[g'|]|e']; try done;
    cbn [mbind res_bind]; try (by subst).
  all: destruct (mapM _ rest) as [[|? [|? [|? [|? ?]]]]|]; done.
Qed.

End band_facts.

(** ** Evidence and labels, whatever the shapes *)

(** X7. Whenever the threshold stage completes, whatever the shapes
    that were broadcast, the evidence sum of line 258 has the shape of
    the weak grid and is 2 on the strong cells, 1 on the cells that are
    weak only, and 0 elsewhere: the value 2 that [ComputeProximity] is
    told to look for marks exactly the strong cells. *)
Theorem evidence_sum_grades lc blue red nir kisqr ev :
  threshold_stage lc blue red nir kisqr = Ok ev →
  nrows (sum_change ev) = nrows (total_change_weak ev) ∧
  ncols (sum_change ev) = ncols (total_change_weak ev) ∧
  ∀ i j, (i < nrows (sum_change ev))%nat → (j < ncols (sum_change ev))%nat →
    cell (sum_change ev) i j
    = if cell (total_change_strong ev) i j then 2
      else if cell (total_change_weak ev) i j then 1 else 0.
Proof.
  intros H. pose proof (threshold_stage_le _ _ _ _ _ _ H) as (Hr & Hc & Hle).
  unfold threshold_stage in H. repeat step_Ok H. injection H as <-.
  cbn [sum_change total_change_strong total_change_weak] in *.
  match goal with E : np_zip _ _ _ = Ok _ |- _ =>
    rewrite np_zip_same in E by (by apply same_shape_true);
    injection E as <- end.
  cbn [nrows ncols tabulate]. split; [done|]. split; [done|].
  intros i j Hi Hj. rewrite cell_tabulate by done.
  match goal with |- context [Z.b2z (cell ?s i j)] =>
    destruct (cell s i j) eqn:Hs end.
  - by rewrite Hle.
  - by match goal with |- context [Z.b2z (cell ?x i j)] =>
      destruct (cell x i j) end.
Qed.

Lemma np_setmask_Ok `{!Inhabited A} (a : ndarray A) (m : mask) (v : A) b :
  np_setmask a m v = Ok b →
  nrows b = nrows a ∧ ncols b = ncols a ∧
  ∀ i j, (i < nrows a)%nat → (j < ncols a)%nat →
    cell b i j = v ∨ cell b i j = cell a i j.
Proof.
  destruct m as [s|m]; cbn.
  - intros [= <-]. repeat split. intros i j Hi Hj.
    rewrite cell_np_map by done. destruct s; auto.
  - destruct (same_shape a m); [|done]. intros [= <-]. repeat split.
    intros i j Hi Hj. rewrite cell_tabulate by done.
    destruct (cell m i j); auto.
Qed.

Lemma np_setmask_Arr_Ok `{!Inhabited A} (a : ndarray A) (m : ndarray bool) (v : A) b :
  np_setmask a (Arr m) v = Ok b →
  nrows m = nrows a ∧ ncols m = ncols a ∧
  ∀ i j, (i < nrows a)%nat → (j < ncols a)%nat →
    cell b i j = if cell m i j then v else cell a i j.
Proof.
  cbn. destruct (same_shape a m) eqn:Hs; [|done]. intros [= <-].
  apply same_shape_true in Hs as [??]. repeat split; [done..|].
  intros i j Hi Hj. by rewrite cell_tabulate.
Qed.

Lemma np_and_py_eq_cell (a : ndarray bool) (lc : ndarray sample) (c : Q) b i j :
  np_logical_and a (py_eq (Some lc) c) = Ok b →
  nrows b = nrows lc → ncols b = ncols lc →
  (i < nrows lc)%nat → (j < ncols lc)%nat →
  cell b i j = bcell a i j && sample_eq (cell lc i j) c.
Proof.
  intros H Hr Hc Hi Hj. cbn [py_eq] in H.
  apply np_and_Ok in H as (_ & _ & Hcell).
  rewrite Hcell by lia. f_equal. unfold bcell.
  change (nrows (np_map _ lc)) with (nrows lc).
  change (ncols (np_map _ lc)) with (ncols lc).
  rewrite !bidx_id by done. by rewrite cell_np_map.
Qed.

(** X8. Every label grid lines 287-297 produce has the shape of the
    land-cover window and holds only 0, 1 and 255; a cell is 0 only
    where the land cover is 0, and 1 only where it is 1, and in both
    cases only where the confirmed grid is set; where an array mask is
    set the label is 255. This holds for every confirmed grid and mask
    that numpy accepts, broadcast or scalar. *)
Theorem labels_follow_land_cover total_change lc mask_fchm final :
  label_stage total_change (Some lc) mask_fchm = Ok final →
  nrows final = nrows lc ∧ ncols final = ncols lc ∧
  ∀ i j, (i < nrows lc)%nat → (j < ncols lc)%nat →
    ((cell final i j = 0 ∧ sample_eq (cell lc i j) 0 = true
        ∧ bcell total_change i j = true) ∨
     (cell final i j = 1 ∧ sample_eq (cell lc i j) 1 = true
        ∧ bcell total_change i j = true) ∨
     cell final i j = 255) ∧
    (∀ m, mask_fchm = Arr m → cell m i j = true → cell final i j = 255).
Proof.
  intros H. unfold label_stage in H.
  destruct (np_logical_and total_change (py_eq (Some lc) 0))
    as [forest|] eqn:Hforest; [|done].
  destruct (np_logical_and total_change (py_eq (Some lc) 1))
    as [range|] eqn:Hrange; [|done].
  cbn [mbind res_bind py_shape] in H.
  destruct (np_setmask (np_full (nrows lc) (ncols lc) 255) (Arr forest) 0)
    as [a1|] eqn:H1; [|done].
  cbn [mbind res_bind] in H.
  destruct (np_setmask a1 (Arr range) 1) as [a2|] eqn:H2; [|done].
  cbn [mbind res_bind] in H.
  pose proof H1 as (Hr1 & Hc1 & _)%np_setmask_Ok.
  apply np_setmask_Arr_Ok in H1 as (Hfr & Hfc & Hcell1).
  pose proof H2 as (Hr2 & Hc2 & _)%np_setmask_Ok.
  apply np_setmask_Arr_Ok in H2 as (Hrr & Hrc & Hcell2).
  pose proof H as (Hr3 & Hc3 & Hcell3)%np_setmask_Ok.
  unfold np_full in *. cbn [nrows ncols tabulate] in Hr1, Hc1, Hfr, Hfc, Hcell1.
  split; [congruence|]. split; [congruence|]. intros i j Hi Hj. split.
  - destruct (Hcell3 i j) as [-> | ->]; [lia..|by auto|].
    rewrite Hcell2, Hcell1 by lia. rewrite cell_tabulate by done.
    rewrite (np_and_py_eq_cell _ _ _ _ i j Hforest) by lia.
    rewrite (np_and_py_eq_cell _ _ _ _ i j Hrange) by lia.
    destruct (bcell total_change i j); cbn [andb]; [|by auto].
    destruct (sample_eq (cell lc i j) 1); [by auto|].
    destruct (sample_eq (cell lc i j) 0); by auto.
  - intros m -> Hm. apply np_setmask_Arr_Ok in H as (_ & _ & Hcell).
    rewrite Hcell by lia. by rewrite Hm.
Qed.

(** ** The thresholds cell by cell *)

Lemma strictly_between_spec (x : sample) (lo hi : Q) :
  sample_gt x lo && sample_lt x hi = true ↔ strictly_between x lo hi.
Proof.
  unfold strictly_between. rewrite andb_true_iff. destruct x as [q| | |]; cbn.
  - rewrite !Qltb_lt. split; [intros [??]; by exists q|].
    by intros (q' & [= <-] & ? & ?).
  - split; [by intros [_ ?]|by intros (? & ? & _)].
  - split; [by intros [? _]|by intros (? & ? & _)].
  - split; [by intros [? _]|by intros (? & ? & _)].
Qed.

(** X9. On bands of one shape a cell passes a rule exactly when its
    four values are finite and lie strictly inside the four intervals:
    a value on a bound, an infinity or a NaN never passes. *)
Theorem thresholds_are_strict (blue red nir kisqr : ndarray sample) i j :
  same_shape blue kisqr = true → same_shape red kisqr = true →
  same_shape nir kisqr = true →
  (i < nrows kisqr)%nat → (j < ncols kisqr)%nat →
  ∃ strong weak,
    total_change_strong_rule (Some blue) (Some red) (Some nir) (Some kisqr)
    = Ok strong ∧
    total_change_weak_rule (Some blue) (Some red) (Some nir) (Some kisqr)
    = Ok weak ∧
    (cell strong i j = true ↔
       strictly_between (cell blue i j) 2 10 ∧
       strictly_between (cell red i j) (-5) (-1) ∧
       strictly_between (cell nir i j) (-5) (-1) ∧
       strictly_between (cell kisqr i j) 150 1500) ∧
    (cell weak i j = true ↔
       strictly_between (cell blue i j) 1 11 ∧
       strictly_between (cell red i j) (-6) 0 ∧
       strictly_between (cell nir i j) (-6) 0 ∧
       strictly_between (cell kisqr i j) 100 2000).
Proof.
  intros Hb Hr Hn Hi Hj. eexists _, _.
  split; [by apply strong_rule_cells|]. split; [by apply weak_rule_cells|].
  rewrite !cell_tabulate by done. unfold STRONG, WEAK.
  rewrite <- !strictly_between_spec, !andb_true_iff. tauto.
Qed.

(** X10. A cell whose land cover is one of the classes 2 to 6, or whose
    statistic is 2000 or more, is cleared in both grids (lines 251-256):
    its evidence sum is 0, so it is never a target of the proximity
    search, whatever its band values. *)
Theorem masked_cells_carry_no_evidence (lc blue red nir kisqr : ndarray sample)
    ev i j :
  same_shape lc kisqr = true → same_shape blue kisqr = true →
  same_shape red kisqr = true → same_shape nir kisqr = true →
  threshold_stage (Some lc) (Some blue) (Some red) (Some nir) (Some kisqr) = Ok ev →
  (i < nrows kisqr)%nat → (j < ncols kisqr)%nat →
  existsb (sample_eq (cell lc i j)) excluded_classes = true
  ∨ sample_ge (cell kisqr i j) 2000 = true →
  cell (total_change_strong ev) i j = false ∧
  cell (total_change_weak ev) i j = false ∧
  cell (sum_change ev) i j = 0.
Proof.
  intros Hlc Hb Hr Hn H Hi Hj Hmask.
  rewrite threshold_stage_cells in H by done. injection H as <-.
  cbn [total_change_strong total_change_weak sum_change].
  rewrite !cell_tabulate by done. unfold strong_cell, weak_cell.
  assert (keep_cell lc kisqr i j = false) as ->; [|done].
  unfold keep_cell. destruct Hmask as [-> | ->]; [apply andb_false_r|done].
Qed.

(** ** A false mask that does not cover the window *)

Lemma label_stage_cells_unmasked (confirmed : ndarray bool) (lc : ndarray sample) :
  same_shape confirmed lc = true →
  label_stage confirmed (Some lc) (py_eq None 1)
  = Ok (tabulate (nrows lc) (ncols lc) (λ i j,
          label_of (cell confirmed i j) (cell lc i j) false)).
Proof.
  intros [Hr Hc]%same_shape_true.
  unfold label_stage. cbn [py_eq np_logical_and py_shape].
  rewrite !np_zip_same by (by apply same_shape_true).
  cbn [mbind res_bind]. unfold np_full. rewrite Hr, Hc.
  cbn [np_setmask]. unfold same_shape. cbn [nrows ncols tabulate np_map].
  rewrite !bool_decide_eq_true_2 by done. cbn [andb mbind res_bind].
  rewrite !bool_decide_eq_true_2 by done. cbn [andb mbind res_bind].
  f_equal. unfold np_map. cbn [nrows ncols tabulate].
  apply tabulate_ext. intros i j Hi Hj.
  rewrite !cell_tabulate by lia. rewrite ?cell_np_map by lia.
  unfold label_of.
  destruct (cell confirmed i j && sample_eq (cell lc i j) 1); [done|].
  by destruct (cell confirmed i j && sample_eq (cell lc i j) 0).
Qed.

Section uncovered.
Context {ext : Externals}.

(** X11. The false mask is read over the window of the land cover
    (line 213). When it does not cover that window the read returns
    [None], [None == 1] is [False], and line 297 selects nothing: the
    pass completes and the labels are those of an all-zero mask. *)
Theorem uncovered_false_mask_is_ignored temp_dir bin lc_band fm_band trg_ds win w
    lc blue green red nir kisqr :
  read_windows lc_band fm_band trg_ds win
  = Ok (Some lc, None, [Some blue; green; Some red; Some nir; Some kisqr]) →
  xsize win = xsize_sub win → ysize win = ysize_sub win →
  0 < xsize win → 0 < ysize win →
  let no_mask := np_full (nrows lc) (ncols lc) (of_int 0) in
  ∃ w',
    classify_and_write temp_dir bin lc_band fm_band trg_ds win w = (Ok tt, w') ∧
    fs w' !! bin
    = Some (byte_raster (new_trg_geoTrans win) (Projection trg_ds)
              (xsize win) (ysize win)
              (Band (Some (of_int 255))
                 (tabulate (nrows lc) (ncols lc) (λ i j,
                    of_int (pipeline_label lc no_mask blue red nir kisqr i j))))).
Proof.
  intros Hread Hx Hy Hxpos Hypos no_mask.
  assert (∀ a, a ∈ [lc; blue; red; nir; kisqr] →
            nrows a = Z.to_nat (ysize win) ∧ ncols a = Z.to_nat (xsize win))
    as Hshape.
  { pose proof Hread as H. unfold read_windows in H.
    repeat step_Ok H. injection H as -> -> ->.
    repeat match goal with
    | E : band_ReadAsArray _ _ _ _ _ = Ok _ |- _ =>
        apply band_ReadAsArray_Ok in E as (? & _ & _)
    | E : mapM _ _ = Ok _ |- _ => apply mapM_res_Forall in E
    | F : Forall _ (_ :: _) |- _ =>
        apply Forall_cons in F as [(? & (? & _ & _)%band_ReadAsArray_Ok) F]
    end.
    rewrite Hx, Hy. intros a Ha. rewrite !elem_of_cons in Ha.
    unfold shaped in *. rewrite <- Hx, <- Hy.
    destruct Ha as [->|[->|[->|[->|[->|[]%elem_of_nil]]]]];
      first [ rewrite Hx, Hy; by eauto | by eauto ]. }
  assert (∀ a b, a ∈ [lc; blue; red; nir; kisqr] →
            b ∈ [lc; blue; red; nir; kisqr] → same_shape a b = true)
    as Hsame.
  { intros a b [??]%Hshape [??]%Hshape. apply same_shape_true.
    split; congruence. }
  destruct (Hshape lc ltac:(in_list)) as [Hlr Hlc].
  destruct (Hshape kisqr ltac:(in_list)) as [Hkr Hkc].
  unfold classify_and_write. rewrite M_bind_lift, Hread.
  rewrite M_bind_lift, threshold_stage_cells by (apply Hsame; in_list).
  cbn [sum_change total_change_weak].
  erewrite M_bind_Ok.
  2:{ rewrite write_sum_and_proximity_eq.
      rewrite (proj2 (Z.ltb_lt _ _) Hxpos), (proj2 (Z.ltb_lt _ _) Hypos).
      cbn [andb]. cbn zeta.
      rewrite WriteArray_fits by (cbn; congruence). reflexivity. }
  rewrite M_bind_lift.
  rewrite total_change_of_same by (apply same_shape_true; cbn; split; congruence).
  rewrite M_bind_lift.
  rewrite label_stage_cells_unmasked
    by (apply same_shape_true; cbn; split; congruence).
  rewrite write_labels_eq.
  rewrite (proj2 (Z.ltb_lt _ _) Hxpos), (proj2 (Z.ltb_lt _ _) Hypos).
  cbn [andb]. cbn zeta.
  rewrite WriteArray_fits by (cbn; congruence).
  eexists; split; [reflexivity|]. cbn [fs]. rewrite lookup_insert_eq.
  do 3 f_equal. cbn [nrows ncols tabulate NoDataValue SetNoDataValue].
  apply tabulate_ext. intros i j Hi Hj.
  rewrite cell_tabulate by done. rewrite to_byte_label.
  unfold pipeline_label. f_equal.
  assert (sample_eq (cell no_mask i j) 1 = false) as ->.
  { subst no_mask. unfold np_full. by rewrite cell_tabulate. }
  f_equal.
  rewrite !cell_tabulate by lia. do 2 f_equal.
  cbn [pixels gdal_ComputeProximity blank_band]. unfold np_full.
  change (nrows (tabulate ?r _ _)) with r.
  change (ncols (tabulate _ ?c _)) with c.
  rewrite cell_tabulate by lia. f_equal.
  unfold evidence_sum. apply tabulate_ext. intros i' j' Hi' Hj'.
  by rewrite cell_tabulate.
Qed.

End uncovered.

(** ** The constructor *)

Section init_facts.
Context {ext : Externals}.

(** X12. [__init__]: the constructor fails only when the upload was
    asked for with all three credentials and the token request raised;
    a failing connection probe is swallowed. [self.seed_db] is left
    unassigned exactly when the upload was not asked for or a
    credential is missing, and it is [True] exactly when the token is
    non-empty and the probe answered 200; it is never [False]. *)
Theorem uploads_need_a_successful_probe address username password
    input output lc fm (flag : bool) :
  let asked := flag && truthy address && truthy username && truthy password in
  let host := default EmptyString address in
  let token := get_token host (default EmptyString username)
                 (default EmptyString password) in
  let probe := requests_get (host +:+ "/gcms/api/TreeCoverLossRaster/") in
  let made := DecTree_init address username password input output lc fm flag in
  (∀ e, made = Raise e ↔ asked = true ∧ token = Raise e) ∧
  (∀ self, made = Ok self →
     (seed_db self = None ↔ asked = false) ∧
     (seed_db self = Some (Some true) ↔
        asked = true ∧ ∃ tok, token = Ok tok ∧ truthy tok = true ∧ probe = Ok 200) ∧
     seed_db self ≠ Some (Some false)).
Proof.
  intros asked host token probe made. subst made. unfold DecTree_init.
  fold asked host. fold token. fold probe.
  destruct asked; [|split; [intros e; split; [done|by intros [? _]]|]].
  - destruct token as [tok|e0]; cbn [mbind res_bind mret res_ret].
    + split; [intros e; split; [done|by intros [_ ?]]|].
      intros self [= <-]. cbn [seed_db]. split; [done|].
      destruct (truthy tok) eqn:Htok.
      * destruct probe as [code|e1].
        -- destruct (decide (code = 200)) as [->|Hne].
           ++ repeat split; eauto.
           ++ assert (match code with 200 => Some true | _ => None end = None)
                as -> by (by repeat case_match).
              split; [|done]. split; [done|].
              intros [_ (tok' & [= <-] & _ & [= ?])]. done.
        -- split; [|done]. split; [done|]. by intros [_ (? & _ & _ & ?)].
      * split; [|done]. split; [done|].
        intros [_ (tok' & [= <-] & ? & _)]. congruence.
    + split; [intros e; split; [intros [= <-]; done|by intros [_ [= <-]]]|done].
  - intros self [= <-]. cbn [seed_db]. split; [done|]. split; [|done].
    split; [done|by intros [? _]].
Qed.

End init_facts.

(** ** The calls of a pass *)

Lemma effect_calls_unchanged {A} (P : string → Prop) (m : M A) w :
  effect P (λ _, False) m → calls (m w).2 = calls w.
Proof.
  intros Hm. destruct (Hm w) as [_ (new & -> & Hnew)].
  destruct new as [|c new]; [done|]. by apply Forall_cons in Hnew as [[] _].
Qed.

Section pass_calls.
Context {ext : Externals}.

Lemma db_seeder_calls self temp_dir image_path ptype w :
  calls (db_seeder self temp_dir image_path ptype w).2
  = CallDbSeeder temp_dir image_path ptype :: calls w.
Proof.
  unfold db_seeder. erewrite M_bind_Ok by reflexivity.
  match goal with |- calls (?m ?w1).2 = _ =>
    rewrite (effect_calls_unchanged (λ _, True) m w1); [done|] end.
  repeat first
    [ apply effect_mret | apply effect_lift | apply effect_raise
    | apply effect_get_world | apply effect_commit; done
    | apply effect_bind; [|intros ?]
    | progress case_match ].
Qed.

Lemma process_chmap_calls self temp_dir chmap bin w :
  calls (process_chmap self temp_dir chmap bin w).2
  = CallProcessChmap temp_dir chmap bin :: calls w.
Proof.
  unfold process_chmap. erewrite M_bind_Ok by reflexivity.
  match goal with |- calls (?m ?w1).2 = _ =>
    rewrite (effect_calls_unchanged (λ _, True) m w1); [done|] end.
  apply effect_bind; [apply effect_gdal_Open|]. intros [lc_ds|]; [|apply effect_raise].
  apply effect_bind; [apply effect_gdal_Open|]. intros [fm_ds|]; [|apply effect_raise].
  apply effect_bind; [by apply effect_gdal_Warp|]. intros [trg_ds|]; [|apply effect_raise].
  repeat case_match; try apply effect_mret.
  unfold process_overlap.
  apply effect_bind; [apply effect_lift|]. intros win.
  by apply effect_classify_and_write.
Qed.

(** X13. Unless [self.seed_db] is [True], a pass of the inner loop of
    [run] never calls [__db_seeder], whatever its outcome. *)
Theorem no_upload_unless_connected self out_dir chmap_paths file w :
  seed_db self ≠ Some (Some true) →
  ∃ new, calls (run_file self out_dir chmap_paths file w).2 = new ++ calls w ∧
         Forall (λ c, is_process_call c = true) new.
Proof.
  intros Hseed. unfold run_file, with_TemporaryDirectory.
  set (temp := mkdtemp w). set (bin := os_path_join out_dir _).
  set (chmap := os_path_join chmap_paths _).
  assert (effect (λ _, True) (λ c, is_process_call c = true)
            (seed ← read_seed_db self;
             if seed : bool then db_seeder self temp bin "CHMAP";; mret tt
             else mret tt)) as Hs.
  { intros w0. unfold read_seed_db.
    destruct (seed_db self) as [[[|]|]|]; [done|..];
      (split; [done|by exists []]). }
  pose proof (effect_bind (λ _, True) (λ c, is_process_call c = true)
                (os_path_exists bin)
                (λ present, if negb present
                   then process_chmap self temp chmap bin;;
                        seed ← read_seed_db self;
                        if seed : bool
                        then db_seeder self temp bin "CHMAP";; mret tt
                        else mret tt
                   else seed ← read_seed_db self;
                        if seed : bool
                        then db_seeder self temp bin "CHMAP";; mret tt
                        else mret tt)) as Hbody.
  destruct (Hbody (effect_os_path_exists _ _ _)) with (w := enter_temp_dir w)
    as [_ Hcalls].
  { intros [|]; cbn [negb]; [done|].
    apply effect_bind; [by apply effect_process_chmap|done]. }
  fold (enter_temp_dir w).
  match goal with |- context [let '(_, _) := ?m in _] =>
    destruct m as [r w1] end.
  done.
Qed.

(** X14. With [self.seed_db] set, a pass that finds its output in place
    uploads it again (lines 408-419): its only call is
    [__db_seeder(temp_dir, bin_file_path, 'CHMAP')], and the pass ends
    as that call ends. *)
Theorem existing_output_is_uploaded_again self out_dir chmap_paths file w f :
  let bin_file_path := os_path_join out_dir (str_replace "CHMAP" "BIN" file) in
  let temp_dir := mkdtemp w in
  let pass := run_file self out_dir chmap_paths file w in
  let upload := db_seeder self temp_dir bin_file_path "CHMAP" (enter_temp_dir w) in
  fs w !! bin_file_path = Some f →
  seed_db self = Some (Some true) →
  calls pass.2 = CallDbSeeder temp_dir bin_file_path "CHMAP" :: calls w ∧
  pass.1 = (upload.1 ≫= λ _, Ok tt) ∧
  pass.2 = leave_temp_dir temp_dir upload.2.
Proof.
  intros bin temp pass upload Hf Hseed. subst pass upload.
  unfold run_file, with_TemporaryDirectory. fold bin temp.
  erewrite M_bind_Ok.
  2:{ unfold os_path_exists, enter_temp_dir. cbn [fs].
      rewrite bool_decide_eq_true_2 by (by rewrite Hf). reflexivity. }
  cbn [negb orb]. fold (enter_temp_dir w).
  erewrite M_bind_Ok by (unfold read_seed_db; by rewrite Hseed).
  cbn [default from_option id].
  pose proof (db_seeder_calls self temp bin "CHMAP" (enter_temp_dir w)) as Hc.
  destruct (db_seeder self temp bin "CHMAP" (enter_temp_dir w)) as [[s|e] w1] eqn:Hup.
  - erewrite M_bind_Ok by exact Hup. cbn in *. done.
  - erewrite M_bind_Raise by exact Hup. cbn in *. done.
Qed.

(** X15. When [__process_chmap] raises, the pass ends with the same
    exception once the temporary directory is removed, and
    [__db_seeder] is not called: a failed classification is never
    uploaded. *)
Theorem failed_processing_is_not_uploaded self out_dir chmap_paths file w e w1 :
  let chmap_file_path := os_path_join chmap_paths file in
  let bin_file_path := os_path_join out_dir (str_replace "CHMAP" "BIN" file) in
  let temp_dir := mkdtemp w in
  fs w !! bin_file_path = None → bin_file_path ∉ dirs w →
  bin_file_path ≠ temp_dir →
  process_chmap self temp_dir chmap_file_path bin_file_path (enter_temp_dir w)
  = (Raise e, w1) →
  run_file self out_dir chmap_paths file w = (Raise e, leave_temp_dir temp_dir w1) ∧
  calls (leave_temp_dir temp_dir w1)
  = CallProcessChmap temp_dir chmap_file_path bin_file_path :: calls w.
Proof.
  intros chmap bin temp Hfs Hdirs Htemp Hproc. split.
  - unfold run_file, with_TemporaryDirectory. fold chmap bin temp.
    fold (enter_temp_dir w).
    erewrite M_bind_Ok.
    2:{ unfold os_path_exists, enter_temp_dir. cbn [fs dirs]. fold temp.
        rewrite Hfs, bool_decide_eq_false_2 by (by intros [??]).
        rewrite bool_decide_eq_false_2; [reflexivity|].
        rewrite elem_of_union, elem_of_singleton. by intros [?|?]. }
    cbn [negb orb]. by erewrite M_bind_Raise by exact Hproc.
  - pose proof (process_chmap_calls self temp chmap bin (enter_temp_dir w)) as Hc.
    rewrite Hproc in Hc. exact Hc.
Qed.

End pass_calls.

(** ** The loops of [run] *)

Lemma for_each_app {A} (l1 l2 : list A) (body : A → M unit) w w1 :
  for_each l1 body w = (Ok tt, w1) →
  for_each (l1 ++ l2) body w = for_each l2 body w1.
Proof.
  revert w. induction l1 as [|x l1 IH]; intros w H.
  - by injection H as <-.
  - cbn [for_each foldr app] in *.
    apply M_bind_inv_Ok in H as ([] & w2 & Hx & H).
    erewrite M_bind_Ok by exact Hx. by apply IH.
Qed.

Lemma for_each_raise {A} (x : A) (l : list A) (body : A → M unit) w e w1 :
  body x w = (Raise e, w1) → for_each (x :: l) body w = (Raise e, w1).
Proof. intros H. cbn [for_each foldr]. by apply M_bind_Raise. Qed.

Section loops.
Context {ext : Externals}.

Lemma run_tile_eq self tile w :
  run_tile self tile w
  = (chmaps ← os_listdir (os_path_join (input_base_dir self) tile);
     for_each chmaps
       (run_file self (os_path_join (output_base_dir self) tile)
          (os_path_join (input_base_dir self) tile)))
      (makedirs_if_missing (os_path_join (output_base_dir self) tile) w).2.
Proof.
  unfold run_tile, makedirs_if_missing, os_path_exists.
  unfold mbind at 1 2 5, M_bind. by destruct (negb _).
Qed.

(** X16. [run] has no error handling: when a tile raises after the
    tiles before it completed, [run] ends with that exception in the
    state the tile left, and the remaining tiles are not visited. *)
Theorem run_has_no_error_skipping self w before tile rest w1 e w2 :
  listdir w (input_base_dir self) = Ok (before ++ tile :: rest) →
  for_each before (run_tile self) w = (Ok tt, w1) →
  run_tile self tile w1 = (Raise e, w2) →
  run self w = (Raise e, w2).
Proof.
  intros Hls Hbefore Htile. unfold run.
  erewrite M_bind_Ok by (unfold os_listdir; by rewrite Hls).
  erewrite for_each_app by exact Hbefore. by apply for_each_raise.
Qed.

(** X17. On an instance made without [--seed_db] [run] never gets
    past the first change map of the first tile: the whole run is that
    one pass, and it ends in an exception. *)
Theorem run_without_seed_db_fails self w tile tiles file files :
  let out_dir := os_path_join (output_base_dir self) tile in
  let chmap_paths := os_path_join (input_base_dir self) tile in
  let w1 := (makedirs_if_missing out_dir w).2 in
  seed_db self = None →
  listdir w (input_base_dir self) = Ok (tile :: tiles) →
  listdir w1 chmap_paths = Ok (file :: files) →
  run self w = run_file self out_dir chmap_paths file w1 ∧
  ∃ e, (run self w).1 = Raise e.
Proof.
  intros out_dir chmap_paths w1 Hseed Htiles Hfiles.
  destruct (run_file_without_seed_db self out_dir chmap_paths file w1 Hseed)
    as [e He].
  destruct (run_file self out_dir chmap_paths file w1) as [r w2] eqn:Hpass.
  cbn [fst] in He. subst r.
  assert (run self w = (Raise e, w2)) as ->; [|by eauto].
  unfold run. erewrite M_bind_Ok by (unfold os_listdir; by rewrite Htiles).
  apply for_each_raise. rewrite run_tile_eq. fold out_dir chmap_paths w1.
  erewrite M_bind_Ok by (unfold os_listdir; by rewrite Hfiles).
  by apply for_each_raise.
Qed.

End loops.

(** ** The name and the place of the output *)

Lemma M_bind_at {A B} (m1 m2 : M A) (f : A → M B) w w' :
  m1 w = m2 w' → (m1 ≫= f) w = (m2 ≫= f) w'.
Proof. intros H. unfold mbind, M_bind. by rewrite H. Qed.

Section output_place.
Context {ext : Externals}.

(** The loops of [run] up to a file of a tile. *)
Lemma run_reaches_file self w tiles_before tile tiles_after wt before file after w2 :
  let out_dir := os_path_join (output_base_dir self) tile in
  let chmap_paths := os_path_join (input_base_dir self) tile in
  listdir w (input_base_dir self) = Ok (tiles_before ++ tile :: tiles_after) →
  for_each tiles_before (run_tile self) w = (Ok tt, wt) →
  listdir (makedirs_if_missing out_dir wt).2 chmap_paths
  = Ok (before ++ file :: after) →
  for_each before (run_file self out_dir chmap_paths)
    (makedirs_if_missing out_dir wt).2 = (Ok tt, w2) →
  run self w
  = ((run_file self out_dir chmap_paths file;;
      for_each after (run_file self out_dir chmap_paths));;
     for_each tiles_after (run_tile self)) w2.
Proof.
  intros out_dir chmap_paths Htiles Hbefore Hfiles Hpasses. unfold run.
  erewrite M_bind_Ok by (unfold os_listdir; by rewrite Htiles).
  erewrite for_each_app by exact Hbefore.
  cbn [for_each foldr]. apply M_bind_at.
  rewrite run_tile_eq. fold out_dir chmap_paths.
  erewrite M_bind_Ok by (unfold os_listdir; by rewrite Hfiles).
  by erewrite for_each_app by exact Hpasses.
Qed.

(** C9. The output name is the input name with CHMAP replaced by BIN:
    unchanged when CHMAP does not occur, and otherwise the text before
    the first occurrence, BIN, and the rest treated the same way; the
    output path is that name joined to the output directory of the tile,
    [os.path.join(self.output_base_dir, tile)], and lies in it. When the
    loops of [run] reach a file whose output is absent and whose change
    map overlaps the land cover on aligned windows, [run] goes on with
    the pass over that file, the pass calls [__process_chmap] with that
    path, the label raster is written there, and no other path is
    changed by the pass. *)
Theorem output_name_and_place self tile file :
  let out_dir := os_path_join (output_base_dir self) tile in
  let chmap_paths := os_path_join (input_base_dir self) tile in
  let bname := str_replace "CHMAP" "BIN" file in
  let bin_file_path := os_path_join out_dir bname in
  let chmap_file_path := os_path_join chmap_paths file in
  (occurs "CHMAP" file = false → bname = file) ∧
  (∀ pre suf,
     file = pre +:+ "CHMAP" +:+ suf →
     starts_within "CHMAP" pre ("CHMAP" +:+ suf) = false →
     bname = pre +:+ "BIN" +:+ str_replace "CHMAP" "BIN" suf) ∧
  (String.prefix "/" file = false → in_dir out_dir bin_file_path = true) ∧
  ∀ w tiles_before tiles_after wt before after w2
    lc_ds fm_ds src trg_ds g win lc fm blue green red nir kisqr,
    let temp_dir := mkdtemp w2 in
    let pass := run_file self out_dir chmap_paths file w2 in
    listdir w (input_base_dir self) = Ok (tiles_before ++ tile :: tiles_after) →
    for_each tiles_before (run_tile self) w = (Ok tt, wt) →
    listdir (makedirs_if_missing out_dir wt).2 chmap_paths
    = Ok (before ++ file :: after) →
    for_each before (run_file self out_dir chmap_paths)
      (makedirs_if_missing out_dir wt).2 = (Ok tt, w2) →
    temp_dir_fresh w2 → in_dir temp_dir bin_file_path = false →
    fs w2 !! bin_file_path = None → bin_file_path ∉ dirs w2 →
    bin_file_path ≠ temp_dir →
    fs w2 !! landcover self = Some (Raster lc_ds) →
    fs w2 !! false_mask self = Some (Raster fm_ds) →
    fs w2 !! chmap_file_path = Some (Raster src) →
    Warp src = Some trg_ds →
    Intersection (getBBox lc_ds) (getBBox trg_ds) = Some g →
    sample_gt (Area g) 0 = true →
    aligned_windows (InvGeoTransform (GeoTransform lc_ds)) (GeoTransform trg_ds) g
    = Ok win →
    read_windows (GetRasterBand lc_ds 1) (GetRasterBand fm_ds 1) trg_ds win
    = Ok (Some lc, Some fm, [Some blue; green; Some red; Some nir; Some kisqr]) →
    xsize win = xsize_sub win → ysize win = ysize_sub win →
    0 < xsize win → 0 < ysize win →
    run self w
    = ((run_file self out_dir chmap_paths file;;
        for_each after (run_file self out_dir chmap_paths));;
       for_each tiles_after (run_tile self)) w2 ∧
    fs pass.2 !! bin_file_path
    = Some (byte_raster (new_trg_geoTrans win) (Projection trg_ds)
              (xsize win) (ysize win)
              (Band (Some (of_int 255))
                 (tabulate (nrows lc) (ncols lc) (λ i j,
                    of_int (pipeline_label lc fm blue red nir kisqr i j))))) ∧
    (∃ later,
       calls pass.2
       = later ++ CallProcessChmap temp_dir chmap_file_path bin_file_path
                  :: calls w2 ∧
       Forall (λ c, c = CallDbSeeder temp_dir bin_file_path "CHMAP") later) ∧
    (∀ p, p ≠ bin_file_path → fs pass.2 !! p = fs w2 !! p).
Proof.
  intros out_dir chmap_paths bname bin chmap.
  split; [by apply str_replace_no_occurrence|].
  split; [intros pre suf -> Hs; by apply str_replace_first|].
  split; [intros Hf; by apply os_path_join_in_dir, str_replace_not_absolute|].
  intros w tiles_before tiles_after wt before after w2 lc_ds fm_ds src trg_ds g
    win lc fm blue green red nir kisqr temp pass Htiles Hbefore Hfiles Hpasses
    Hfresh Hout Habsent Hnodir Hnottemp Hlc Hfm Hsrc Hwarp Hint Harea Hwin Hread
    Hx Hy Hxpos Hypos.
  split; [by eapply run_reaches_file|].
  assert (∃ wp,
    process_chmap self temp chmap bin (enter_temp_dir w2) = (Ok tt, wp) ∧
    fs wp !! bin
    = Some (byte_raster (new_trg_geoTrans win) (Projection trg_ds)
              (xsize win) (ysize win)
              (Band (Some (of_int 255))
                 (tabulate (nrows lc) (ncols lc) (λ i j,
                    of_int (pipeline_label lc fm blue red nir kisqr i j))))))
    as (wp & Hproc & Hwritten).
  { unfold process_chmap.
    erewrite M_bind_Ok by reflexivity. cbn beta.
    erewrite M_bind_Ok by (unfold gdal_Open; cbn [fs enter_temp_dir]; by rewrite Hlc).
    cbn beta iota.
    erewrite M_bind_Ok by (unfold gdal_Open; cbn [fs enter_temp_dir]; by rewrite Hfm).
    cbn beta iota.
    erewrite M_bind_Ok.
    2:{ unfold gdal_Warp. erewrite M_bind_Ok
          by (unfold gdal_Open; cbn [fs enter_temp_dir]; by rewrite Hsrc).
        cbn [mbind option_bind]. rewrite Hwarp.
        erewrite M_bind_Ok by reflexivity. reflexivity. }
    cbn beta iota. rewrite Hint, Harea. unfold process_overlap.
    rewrite M_bind_lift, Hwin.
    by eapply classify_and_write_labels. }
  pose proof (process_chmap_calls self temp chmap bin (enter_temp_dir w2)) as Hpc.
  rewrite Hproc in Hpc. cbn [snd calls enter_temp_dir] in Hpc.
  destruct (effect_seeding (λ p, in_dir temp p = true)
              (λ c, c = CallDbSeeder temp bin "CHMAP") self temp bin
              ltac:(done) ltac:(done) wp) as [Hfs (later & Hcalls & Hlater)].
  assert (pass
          = (((seed ← read_seed_db self;
               if seed : bool then db_seeder self temp bin "CHMAP";; mret tt
               else mret tt) wp).1,
             leave_temp_dir temp
               ((seed ← read_seed_db self;
                 if seed : bool then db_seeder self temp bin "CHMAP";; mret tt
                 else mret tt) wp).2)) as Hpass.
  { subst pass. unfold run_file, with_TemporaryDirectory.
    fold bname. fold bin. fold chmap. fold temp. fold (enter_temp_dir w2).
    erewrite M_bind_Ok.
    2:{ unfold os_path_exists, enter_temp_dir. cbn [fs dirs]. fold temp.
        rewrite Habsent, bool_decide_eq_false_2 by (by intros [??]).
        rewrite bool_decide_eq_false_2; [reflexivity|].
        rewrite elem_of_union, elem_of_singleton. by intros [?|?]. }
    cbn [negb orb]. erewrite M_bind_Ok by exact Hproc.
    match goal with |- context [let '(_, _) := ?m in _] => by destruct m end. }
  split; [|split].
  - rewrite Hpass. cbn [snd]. rewrite leave_temp_dir_lookup by done.
    rewrite Hfs by congruence. exact Hwritten.
  - exists later. rewrite Hpass. cbn [snd leave_temp_dir calls].
    rewrite Hcalls, Hpc. split; [done|exact Hlater].
  - intros p Hp. subst pass. unfold run_file, with_TemporaryDirectory.
    fold bname. fold bin. fold chmap. fold temp.
    pose proof (effect_run_file_body self temp chmap bin (enter_temp_dir w2))
      as [Hframe _].
    match goal with |- context [let '(_, _) := ?m in _] =>
      destruct m as [r w3] end.
    cbn [snd] in *.
    destruct (in_dir temp p) eqn:Hin.
    + rewrite leave_temp_dir_lookup_inside by done. symmetry. by apply Hfresh.
    + rewrite leave_temp_dir_lookup by done. rewrite Hframe; [done|].
      intros [?|?]; congruence.
Qed.
End output_place.

(** ** The upload *)

Lemma append_nil (a : string) : EmptyString +:+ a = a.
Proof. reflexivity. Qed.

Lemma append_cons x (a b : string) : String x a +:+ b = String x (a +:+ b).
Proof. reflexivity. Qed.

Lemma append_assoc (a b c : string) : (a +:+ b) +:+ c = a +:+ (b +:+ c).
Proof.
  induction a as [|x a IH]; [done|]. by rewrite !append_cons, IH.
Qed.

Lemma has_char_app c (a b : string) :
  has_char c (a +:+ b) = has_char c a || has_char c b.
Proof.
  induction a as [|x a IH]; [done|]. rewrite append_cons.
  cbn [has_char]. by rewrite IH, orb_assoc.
Qed.

Lemma rsplit1_absent c (s : string) : has_char c s = false → rsplit1 c s = None.
Proof.
  induction s as [|a s IH]; [done|]. cbn [has_char rsplit1].
  intros [Ha Hs]%orb_false_iff. by rewrite IH, Ha.
Qed.

Lemma rsplit1_last c (a b : string) :
  has_char c b = false → rsplit1 c (a +:+ String c b) = Some (a, b).
Proof.
  intros Hb. induction a as [|x a IH].
  - rewrite append_nil. cbn [rsplit1]. by rewrite rsplit1_absent, Ascii.eqb_refl.
  - rewrite append_cons. cbn [rsplit1]. by rewrite IH.
Qed.

Lemma str_split_absent sep (s : string) :
  has_char sep s = false → str_split sep s = [s].
Proof.
  induction s as [|a s IH]; [done|]. cbn [has_char str_split].
  intros [Ha Hs]%orb_false_iff. by rewrite Ha, IH.
Qed.

Lemma str_split_app sep (a b : string) :
  has_char sep a = false →
  str_split sep (a +:+ String sep b) = a :: str_split sep b.
Proof.
  induction a as [|x a IH].
  - intros _. rewrite append_nil. cbn [str_split]. by rewrite Ascii.eqb_refl.
  - rewrite append_cons. cbn [has_char str_split].
    intros [Hx Ha]%orb_false_iff. by rewrite Hx, IH.
Qed.

Lemma all_char_app_other c x (a b : string) :
  x ≠ c → all_char c (a +:+ String x b) = false.
Proof.
  intros Hx. induction a as [|y a IH].
  - rewrite append_nil. cbn [all_char]. by rewrite (proj2 (Ascii.eqb_neq x c)).
  - rewrite append_cons. cbn [all_char]. rewrite IH. apply andb_false_r.
Qed.

(** The name [__db_seeder] takes apart, for a path that ends in a
    component [stem.suffix]. *)
Lemma seeder_fname_of_path (dir stem ext : string) :
  has_char "/" stem = false → has_char "/" ext = false →
  has_char "." ext = false → all_char "." stem = false →
  seeder_fname (dir +:+ "/" +:+ stem +:+ "." +:+ ext) = stem.
Proof.
  intros Hs He Hd Hdot. unfold seeder_fname, os_path_splitext.
  assert (has_char "/" (stem +:+ "." +:+ ext) = false) as Hbase.
  { rewrite !has_char_app, Hs, He. done. }
  change (dir +:+ "/" +:+ stem +:+ "." +:+ ext)
    with (dir +:+ String "/" (stem +:+ "." +:+ ext)).
  rewrite rsplit1_last by done.
  change (stem +:+ "." +:+ ext) with (stem +:+ String "." ext).
  rewrite rsplit1_last by done. rewrite Hdot.
  cbn [fst]. unfold os_path_split.
  rewrite append_assoc. change ("/" +:+ stem) with (String "/" stem).
  by rewrite rsplit1_last.
Qed.

Section seeder_names.
Context {ext : Externals}.
Context (self : DecTree) (temp_dir ptype dir : string).
Context (platform day more product tile c version frc ftype suffix : string).

Hypothesis fields_plain :
  Forall (λ s, has_char "_" s = false ∧ has_char "/" s = false)
    [platform; day; more; product; tile; c; version; frc; ftype].
Hypothesis day_plain : has_char "-" day = false.
Hypothesis suffix_plain : has_char "/" suffix = false ∧ has_char "." suffix = false.

Lemma seeder_fields :
  str_split "_"
    (seeder_fname (product_path dir platform day more product tile c version
                     frc ftype suffix))
  = [platform; day +:+ "-" +:+ more; product; tile; c; version; frc; ftype].
Proof.
  repeat match goal with
  | H : Forall _ (_ :: _) |- _ => apply Forall_cons in H as [[??] H]
  end.
  destruct suffix_plain as [??].
  assert (has_char "_" (day +:+ "-" +:+ more) = false
          ∧ has_char "/" (day +:+ "-" +:+ more) = false) as [??].
  { rewrite !has_char_app. cbn [has_char].
    split; repeat (apply orb_false_iff; split); done. }
  unfold product_path. rewrite seeder_fname_of_path; try done.
  - repeat (change (?a +:+ "_" +:+ ?b) with (a +:+ String "_" b);
            rewrite str_split_app by done).
    by rewrite str_split_absent.
  - rewrite !has_char_app. cbn [has_char].
    repeat (apply orb_false_iff; split); done.
  - apply all_char_app_other. done.
Qed.

Lemma seeder_day :
  default EmptyString (head (str_split "-" (day +:+ "-" +:+ more))) = day.
Proof.
  change (day +:+ "-" +:+ more) with (day +:+ String "-" more).
  by rewrite str_split_app.
Qed.

Context (yyyymm : string) (year month : Z) (url_b url_n : string) (w : world).

Hypothesis day_valid : fromgregorian day = Some (yyyymm, year, month).
Hypothesis urls : url_bin self = Some url_b ∧ url_nrgb self = Some url_n.
Hypothesis not_the_archive :
  product_path dir platform day more product tile c version frc ftype suffix
  ≠ os_path_join temp_dir (zfname_of ptype yyyymm tile).

(** X18. For an image at [product_path], i.e.
    [dir/platform_day-more_product_tile_c_version_frc_ftype.suffix],
    whose fields hold no underscore or slash, [__db_seeder] writes
    [ptype_yyyymm_tile.zip] to the temporary directory, with the image
    as its only member under the name [ptype_yyyymm_tile.tif], where
    [yyyymm] is the Jalali month of [day]; it posts the archive to
    [url_nrgb] when [ftype] is NRGB and to [url_bin] otherwise, and
    returns the response. *)
Theorem upload_archive_is_named_after_tile image :
  let image_path :=
    product_path dir platform day more product tile c version frc ftype suffix in
  let zpath := os_path_join temp_dir (zfname_of ptype yyyymm tile) in
  let zf := ZipFile (pname_of ptype yyyymm tile) image in
  fs w !! image_path = Some image →
  db_seeder self temp_dir image_path ptype w
  = (requests_post (if String.eqb ftype "NRGB" then url_n else url_b)
       (zfname_of ptype yyyymm tile) zf,
     World (<[zpath := zf]> (fs w)) (dirs w)
       (CallDbSeeder temp_dir image_path ptype :: calls w)).
Proof.
  intros image_path zpath zf Himage. destruct urls as [Hb Hn]. unfold db_seeder.
  erewrite M_bind_Ok by reflexivity. cbn beta.
  pose proof seeder_fields as Hf. unfold seeder_fname in Hf. fold image_path in Hf.
  destruct (os_path_splitext image_path) as [base _ext]. cbn [fst] in Hf.
  destruct (os_path_split base) as [base_dir name]. cbn [snd] in Hf.
  rewrite Hf, seeder_day, day_valid.
  fold (zfname_of ptype yyyymm tile) (pname_of ptype yyyymm tile).
  fold zpath. fold zf.
  erewrite M_bind_Ok by reflexivity. cbn beta.
  erewrite M_bind_Ok by reflexivity. cbn beta. cbn [fs].
  rewrite lookup_insert_ne by (by apply not_eq_sym). rewrite Himage.
  erewrite M_bind_Ok by reflexivity. cbn beta. cbn [fs].
  rewrite Hb, Hn. rewrite insert_insert_eq.
  by destruct (String.eqb ftype "NRGB").
Qed.

(** X19. When such an image does not exist, [zf.write] raises
    [FileNotFoundError]; the archive has been created by then and is
    left empty, and nothing is posted. *)
Theorem upload_of_a_missing_image_raises :
  let image_path :=
    product_path dir platform day more product tile c version frc ftype suffix in
  let zpath := os_path_join temp_dir (zfname_of ptype yyyymm tile) in
  fs w !! image_path = None →
  db_seeder self temp_dir image_path ptype w
  = (Raise FileNotFoundError,
     World (<[zpath := EmptyZip]> (fs w)) (dirs w)
       (CallDbSeeder temp_dir image_path ptype :: calls w)).
Proof.
  intros image_path zpath Himage. unfold db_seeder.
  erewrite M_bind_Ok by reflexivity. cbn beta.
  pose proof seeder_fields as Hf. unfold seeder_fname in Hf. fold image_path in Hf.
  destruct (os_path_splitext image_path) as [base _ext]. cbn [fst] in Hf.
  destruct (os_path_split base) as [base_dir name]. cbn [snd] in Hf.
  rewrite Hf, seeder_day, day_valid.
  fold (zfname_of ptype yyyymm tile) (pname_of ptype yyyymm tile).
  fold zpath.
  erewrite M_bind_Ok by reflexivity. cbn beta.
  erewrite M_bind_Ok by reflexivity. cbn beta. cbn [fs].
  rewrite lookup_insert_ne by (by apply not_eq_sym). by rewrite Himage.
Qed.
End seeder_names.

Section seeder_errors.
Context {ext : Externals}.

(** X20. Line 334 unpacks exactly eight fields: for a file name that
    does not split into eight parts at its underscores [__db_seeder]
    raises [ValueError] before it writes or posts anything. *)
Theorem malformed_name_is_rejected self temp_dir image_path ptype w :
  length (str_split "_" (seeder_fname image_path)) ≠ 8%nat →
  db_seeder self temp_dir image_path ptype w
  = (Raise ValueError,
     World (fs w) (dirs w) (CallDbSeeder temp_dir image_path ptype :: calls w)).
Proof.
  intros Hlen. unfold db_seeder, seeder_fname in *.
  erewrite M_bind_Ok by reflexivity. cbn beta.
  destruct (os_path_splitext image_path) as [base _ext]. cbn [fst] in Hlen.
  destruct (os_path_split base) as [base_dir name]. cbn [snd] in Hlen.
  by destruct (str_split "_" name) as [|? [|? [|? [|? [|? [|? [|? [|? [|? ?]]]]]]]]].
Qed.

End seeder_errors.

(** ** Renaming twice *)

Lemma prefix_nil (s : string) : String.prefix EmptyString s = true.
Proof. by destruct s. Qed.

(** A text without the letter B that starts the renamed name starts the
    original one. *)
Lemma prefix_before_replace (u s : string) :
  has_char "B" u = false →
  String.prefix u (str_replace "CHMAP" "BIN" s) = true → String.prefix u s = true.
Proof.
  unfold str_replace. revert s. induction u as [|a u IH]; intros s Hu H.
  { apply prefix_nil. }
  cbn [has_char] in Hu. apply orb_false_iff in Hu as [Ha Hu].
  apply Ascii.eqb_neq in Ha.
  destruct s as [|c s]; [done|]. cbn [str_replace_from] in H.
  destruct (String.prefix "CHMAP" (String c s)).
  - exfalso. revert H. change ("BIN" +:+ ?x) with (String "B" ("IN" +:+ x)).
    cbn [String.prefix]. by destruct (ascii_dec a "B").
  - cbn [String.prefix] in *. destruct (ascii_dec a c); [|done]. by apply IH.
Qed.

Lemma replace_leaves_no_CHMAP (k : nat) (s : string) :
  occurs "CHMAP" (str_replace_from k "CHMAP" "BIN" s) = false.
Proof.
  revert k. induction s as [|c s IH]; intros k; [by destruct k|].
  cbn [str_replace_from]. destruct k as [|k]; [|apply IH].
  destruct (String.prefix "CHMAP" (String c s)) eqn:Hp.
  - change ("BIN" +:+ ?x) with (String "B" (String "I" (String "N" x))).
    cbn [occurs]. rewrite IH. reflexivity.
  - cbn [occurs]. rewrite IH, orb_false_r.
    apply not_true_is_false. intros H. cbn [String.prefix] in H, Hp.
    destruct (ascii_dec "C" c); [|done].
    apply (prefix_before_replace "HMAP" s) in H; [congruence|reflexivity].
Qed.

(** X21. The output name of line 386 never contains CHMAP, so renaming
    it again gives the same name. A pass of [run] over an output name,
    as when the outputs are stored in the input tree, therefore looks
    for that very name: it finds the output in place, leaves it as it
    was and never calls [__process_chmap]. *)
Theorem renaming_is_idempotent (file : string) :
  let bname := str_replace "CHMAP" "BIN" file in
  occurs "CHMAP" bname = false ∧ str_replace "CHMAP" "BIN" bname = bname ∧
  ∀ (ext : Externals) self dir w f,
    let w' := (run_file self dir dir bname w).2 in
    fs w !! os_path_join dir bname = Some f →
    temp_dir_fresh w →
    fs w' !! os_path_join dir bname = Some f ∧
    ∃ new, calls w' = new ++ calls w ∧
           Forall (λ c, is_process_call c = false) new.
Proof.
  intros bname.
  assert (occurs "CHMAP" bname = false) as H by apply replace_leaves_no_CHMAP.
  assert (str_replace "CHMAP" "BIN" bname = bname) as Hsame
    by (by apply str_replace_no_occurrence).
  split; [done|]. split; [done|].
  intros ext self dir w f w' Hf Hfresh. subst w'.
  unfold run_file, with_TemporaryDirectory. rewrite Hsame.
  set (bin := os_path_join dir bname) in *. set (temp := mkdtemp w).
  assert (in_dir temp bin = false) as Hout.
  { apply not_true_is_false. intros Hin%Hfresh. congruence. }
  erewrite M_bind_Ok.
  2:{ unfold os_path_exists, enter_temp_dir. cbn [fs].
      rewrite bool_decide_eq_true_2 by (by rewrite Hf). reflexivity. }
  cbn [negb orb].
  destruct (effect_seeding (λ p, in_dir temp p = true)
              (λ c, is_process_call c = false) self temp bin
              ltac:(done) ltac:(done) (enter_temp_dir w))
    as [Hfs (new & Hc & Hnew)].
  fold (enter_temp_dir w).
  match goal with |- context [let '(_, _) := ?m in _] =>
    destruct m as [r w1] end.
  cbn [snd] in *. split.
  - rewrite leave_temp_dir_lookup by done. rewrite Hfs by congruence. done.
  - by exists new.
Qed.

(** ** Further results on concrete inputs *)

Lemma process_chmap_labels_witness :
  ∃ w',
    process_chmap (ext:=exact_externals) demo_self "/tmp/t" demo_chmap demo_bin
      demo_world = (Ok tt, w') ∧
    band1_rows w' demo_bin
    = Some (to_rows (np_map of_int (NdArray 2 3 [0; 1; 255; 255; 1; 255]))).
Proof.
  destruct (process_chmap_labels (ext:=exact_externals) demo_self "/tmp/t"
              demo_chmap demo_bin demo_world demo_lc_ds demo_fm_ds
              demo_chmap_ds demo_chmap_ds demo_intersection demo_win
              demo_lc demo_fm demo_blue (Some demo_green) demo_red demo_nir
              demo_kisqr) as (w' & Hrun & Hfs);
    [vm_compute; reflexivity..|].
  exists w'. split; [exact Hrun|]. unfold band1_rows. rewrite Hfs.
  vm_compute. reflexivity.
Defined.

Lemma labels_follow_land_cover_witness :
  ∃ final,
    label_stage demo_weak (Some demo_lc) (py_eq (Some demo_fm) 1) = Ok final ∧
    to_rows final = [[0; 1; 255]; [255; 1; 255]] ∧
    ∀ i j, (i < 2)%nat → (j < 3)%nat →
      ((cell final i j = 0 ∧ sample_eq (cell demo_lc i j) 0 = true
          ∧ bcell demo_weak i j = true) ∨
       (cell final i j = 1 ∧ sample_eq (cell demo_lc i j) 1 = true
          ∧ bcell demo_weak i j = true) ∨
       cell final i j = 255) ∧
      (∀ m, py_eq (Some demo_fm) 1 = Arr m → cell m i j = true →
            cell final i j = 255).
Proof.
  eexists. split; [vm_compute; reflexivity|]. split; [reflexivity|].
  apply (labels_follow_land_cover demo_weak demo_lc (py_eq (Some demo_fm) 1)).
  vm_compute. reflexivity.
Defined.

Lemma evidence_sum_grades_witness :
  ∃ ev,
    threshold_stage (Some demo_lc) (Some demo_blue) (Some demo_red)
      (Some demo_nir) (Some demo_kisqr) = Ok ev ∧
    to_rows (sum_change ev) = [[2; 1; 0]; [2; 1; 0]] ∧
    ∀ i j, (i < nrows (sum_change ev))%nat → (j < ncols (sum_change ev))%nat →
      cell (sum_change ev) i j
      = if cell (total_change_strong ev) i j then 2
        else if cell (total_change_weak ev) i j then 1 else 0.
Proof.
  eexists. split; [vm_compute; reflexivity|]. split; [reflexivity|].
  apply (evidence_sum_grades (Some demo_lc) (Some demo_blue) (Some demo_red)
           (Some demo_nir) (Some demo_kisqr)).
  vm_compute. reflexivity.
Defined.

Lemma run_without_seed_db_fails_witness :
  let w1 := (makedirs_if_missing "/out/39SUB" demo_world).2 in
  run (ext:=listing_externals) demo_self demo_world
  = run_file (ext:=listing_externals) demo_self "/out/39SUB" "/in/39SUB"
      demo_file w1 ∧
  (run (ext:=listing_externals) demo_self demo_world).1 = Raise AttributeError.
Proof.
  intros w1.
  destruct (run_without_seed_db_fails (ext:=listing_externals) demo_self
              demo_world "39SUB" [] demo_file []) as [Hrun _];
    [reflexivity..|].
  split; [exact Hrun|]. vm_compute. reflexivity.
Defined.

Lemma unreadable_inputs_exit_witness :
  fs demo_world !! landcover lost_self = None ∧
  process_chmap (ext:=exact_externals) lost_self "/tmp/t" demo_chmap demo_bin
    demo_world
  = (Raise (SystemExit 1),
     World demo_fs ∅ [CallProcessChmap "/tmp/t" demo_chmap demo_bin]).
Proof.
  assert (fs demo_world !! landcover lost_self = None) as Hnone
    by (vm_compute; reflexivity).
  split; [exact Hnone|].
  apply (unreadable_inputs_exit (ext:=exact_externals) lost_self "/tmp/t"
           demo_chmap demo_bin demo_world).
  left. intros ds. rewrite Hnone. discriminate.
Defined.

Lemma unreadable_chmap_raises_witness :
  fs demo_world !! "/in/39SUB/none.tif" = None ∧
  ∃ e,
    process_chmap (ext:=exact_externals) demo_self "/tmp/t" "/in/39SUB/none.tif"
      demo_bin demo_world
    = (Raise e,
       World demo_fs ∅ [CallProcessChmap "/tmp/t" "/in/39SUB/none.tif" demo_bin]) ∧
    ∀ code, e ≠ SystemExit code.
Proof.
  assert (fs demo_world !! "/in/39SUB/none.tif" = None) as Hnone
    by (vm_compute; reflexivity).
  split; [exact Hnone|].
  apply (unreadable_chmap_raises (ext:=exact_externals) demo_self "/tmp/t"
           "/in/39SUB/none.tif" demo_bin demo_world demo_lc_ds demo_fm_ds);
    [vm_compute; reflexivity..|].
  intros src Hsrc. rewrite Hnone in Hsrc. discriminate Hsrc.
Defined.

Lemma wrong_band_count_raises_witness :
  length (bands four_band_ds) = 4%nat ∧
  classify_and_write (ext:=exact_externals) "/tmp/t" demo_bin
    (GetRasterBand demo_lc_ds 1) (GetRasterBand demo_fm_ds 1) four_band_ds
    demo_win demo_world
  = (Raise ValueError, demo_world).
Proof.
  split; [reflexivity|].
  destruct (wrong_band_count_raises (ext:=exact_externals) "/tmp/t" demo_bin
              (GetRasterBand demo_lc_ds 1) (GetRasterBand demo_fm_ds 1)
              four_band_ds demo_win demo_world) as (e & Hrun & He).
  - vm_compute. discriminate.
  - rewrite Hrun. f_equal. f_equal. eapply He. vm_compute. reflexivity.
Defined.

Lemma no_upload_unless_connected_witness :
  seed_db offline_self = Some None ∧
  ∃ new,
    calls (run_file (ext:=exact_externals) offline_self "/out/39SUB" "/in/39SUB"
             demo_file demo_world).2 = new ++ calls demo_world ∧
    Forall (λ c, is_process_call c = true) new.
Proof.
  split; [reflexivity|].
  apply (no_upload_unless_connected (ext:=exact_externals) offline_self
           "/out/39SUB" "/in/39SUB" demo_file demo_world).
  discriminate.
Defined.

Lemma existing_output_is_uploaded_again_witness :
  let pass := run_file (ext:=exact_externals) seeding_self "/out/39SUB" "/in/39SUB"
                demo_file done_world in
  fs done_world !! demo_bin = Some (Raster demo_fm_ds) ∧
  calls pass.2 = [CallDbSeeder "/tmp/tmpdectree" demo_bin "CHMAP"] ∧
  pass.1 = Ok tt.
Proof.
  intros pass.
  destruct (existing_output_is_uploaded_again (ext:=exact_externals) seeding_self
              "/out/39SUB" "/in/39SUB" demo_file done_world (Raster demo_fm_ds))
    as (Hcalls & Hres & _); [vm_compute; reflexivity..|].
  split; [vm_compute; reflexivity|]. split; [exact Hcalls|].
  subst pass. rewrite Hres. vm_compute. reflexivity.
Defined.

Lemma run_has_no_error_skipping_witness :
  ∃ w2,
    run_tile (ext:=listing_externals) demo_self "39SUB" demo_world
    = (Raise AttributeError, w2) ∧
    run (ext:=listing_externals) demo_self demo_world = (Raise AttributeError, w2).
Proof.
  eexists. split; [vm_compute; reflexivity|].
  apply (run_has_no_error_skipping (ext:=listing_externals) demo_self demo_world
           [] "39SUB" [] demo_world); [reflexivity..|].
  vm_compute. reflexivity.
Defined.

Lemma green_band_is_ignored_witness :
  classify_and_write (ext:=exact_externals) "/tmp/t" demo_bin
    (GetRasterBand demo_lc_ds 1) (GetRasterBand demo_fm_ds 1) regreened_ds
    demo_win demo_world
  = classify_and_write (ext:=exact_externals) "/tmp/t" demo_bin
      (GetRasterBand demo_lc_ds 1) (GetRasterBand demo_fm_ds 1) demo_chmap_ds
      demo_win demo_world.
Proof.
  apply (green_band_is_ignored (ext:=exact_externals) "/tmp/t" demo_bin
           (GetRasterBand demo_lc_ds 1) (GetRasterBand demo_fm_ds 1)
           demo_chmap_ds regreened_ds demo_win demo_world
           (Band None demo_blue) (Band None demo_green) (Band None demo_kisqr)
           [Band None demo_red; Band None demo_nir; Band None demo_kisqr]);
    reflexivity.
Defined.

Lemma uncovered_false_mask_is_ignored_witness :
  ∃ w',
    classify_and_write (ext:=exact_externals) "/tmp/t" demo_bin
      (GetRasterBand demo_lc_ds 1) (GetRasterBand small_fm_ds 1) demo_chmap_ds
      demo_win demo_world = (Ok tt, w') ∧
    band1_rows w' demo_bin
    = Some (to_rows (np_map of_int (NdArray 2 3 [0; 1; 255; 0; 1; 255]))).
Proof.
  destruct (uncovered_false_mask_is_ignored (ext:=exact_externals) "/tmp/t"
              demo_bin (GetRasterBand demo_lc_ds 1) (GetRasterBand small_fm_ds 1)
              demo_chmap_ds demo_win demo_world demo_lc demo_blue
              (Some demo_green) demo_red demo_nir demo_kisqr)
    as (w' & Hrun & Hfs); [vm_compute; reflexivity..|].
  exists w'. split; [exact Hrun|]. unfold band1_rows. rewrite Hfs.
  vm_compute. reflexivity.
Defined.

Lemma malformed_name_is_rejected_witness :
  str_split "_" (seeder_fname "/out/39SUB/mosaic_2023.tif") = ["mosaic"; "2023"] ∧
  db_seeder (ext:=exact_externals) seeding_self "/tmp/t"
    "/out/39SUB/mosaic_2023.tif" "CHMAP" demo_world
  = (Raise ValueError,
     World demo_fs ∅ [CallDbSeeder "/tmp/t" "/out/39SUB/mosaic_2023.tif" "CHMAP"]).
Proof.
  split; [reflexivity|].
  apply (malformed_name_is_rejected (ext:=exact_externals) seeding_self "/tmp/t"
           "/out/39SUB/mosaic_2023.tif" "CHMAP" demo_world).
  vm_compute. discriminate.
Defined.

Lemma upload_archive_is_named_after_tile_witness :
  fs done_world !! demo_bin = Some (Raster demo_fm_ds) ∧
  db_seeder (ext:=exact_externals) seeding_self "/tmp/t" demo_bin "CHMAP" done_world
  = (Ok "created",
     World (<["/tmp/t/CHMAP_140110_39SUB.zip" :=
               ZipFile "CHMAP_140110_39SUB.tif" (Raster demo_fm_ds)]>
              (fs done_world)) ∅
       [CallDbSeeder "/tmp/t" demo_bin "CHMAP"]).
Proof.
  split; [vm_compute; reflexivity|].
  apply (upload_archive_is_named_after_tile (ext:=exact_externals) seeding_self
           "/tmp/t" "CHMAP" "/out/39SUB" "S2" "20230101" "0" "BIN" "39SUB" "C"
           "V1" "FRC" "BIN" "tif" ltac:(repeat constructor) eq_refl
           (conj eq_refl eq_refl) "140110" 1401 10
           "http://host/gcms/api/TreeCoverLossRaster/"
           "http://host/gcms/api/Sentinel2Raster/" done_world eq_refl
           (conj eq_refl eq_refl) ltac:(discriminate) (Raster demo_fm_ds)).
  vm_compute. reflexivity.
Defined.

Lemma upload_of_a_missing_image_raises_witness :
  fs demo_world !! demo_bin = None ∧
  db_seeder (ext:=exact_externals) seeding_self "/tmp/t" demo_bin "CHMAP" demo_world
  = (Raise FileNotFoundError,
     World (<["/tmp/t/CHMAP_140110_39SUB.zip" := EmptyZip]> demo_fs) ∅
       [CallDbSeeder "/tmp/t" demo_bin "CHMAP"]).
Proof.
  assert (fs demo_world !! demo_bin = None) as Hnone by (vm_compute; reflexivity).
  split; [exact Hnone|].
  apply (upload_of_a_missing_image_raises (ext:=exact_externals) seeding_self
           "/tmp/t" "CHMAP" "/out/39SUB" "S2" "20230101" "0" "BIN" "39SUB" "C"
           "V1" "FRC" "BIN" "tif" ltac:(repeat constructor) eq_refl
           (conj eq_refl eq_refl) "140110" 1401 10 demo_world eq_refl
           ltac:(discriminate)).
  exact Hnone.
Defined.

Lemma failed_processing_is_not_uploaded_witness :
  let pass := run_file (ext:=exact_externals) lost_self "/out/39SUB" "/in/39SUB"
                demo_file demo_world in
  pass.1 = Raise (SystemExit 1) ∧
  calls pass.2 = [CallProcessChmap "/tmp/tmpdectree" demo_chmap demo_bin].
Proof.
  intros pass.
  destruct (failed_processing_is_not_uploaded (ext:=exact_externals) lost_self
              "/out/39SUB" "/in/39SUB" demo_file demo_world (SystemExit 1)
              (process_chmap (ext:=exact_externals) lost_self "/tmp/tmpdectree"
                 demo_chmap demo_bin (enter_temp_dir (ext:=exact_externals)
                                        demo_world)).2)
    as [Hrun Hcalls].
  - vm_compute. reflexivity.
  - apply not_elem_of_empty.
  - discriminate.
  - vm_compute. reflexivity.
  - subst pass. rewrite Hrun. cbn [fst snd]. split; [reflexivity|exact Hcalls].
Defined.

Lemma thresholds_are_strict_witness :
  ∃ strong weak,
    total_change_strong_rule (Some demo_blue) (Some demo_red) (Some demo_nir)
      (Some demo_kisqr) = Ok strong ∧
    total_change_weak_rule (Some demo_blue) (Some demo_red) (Some demo_nir)
      (Some demo_kisqr) = Ok weak ∧
    (cell strong 0 1 = true ↔
       strictly_between (cell demo_blue 0 1) 2 10 ∧
       strictly_between (cell demo_red 0 1) (-5) (-1) ∧
       strictly_between (cell demo_nir 0 1) (-5) (-1) ∧
       strictly_between (cell demo_kisqr 0 1) 150 1500) ∧
    (cell weak 0 1 = true ↔
       strictly_between (cell demo_blue 0 1) 1 11 ∧
       strictly_between (cell demo_red 0 1) (-6) 0 ∧
       strictly_between (cell demo_nir 0 1) (-6) 0 ∧
       strictly_between (cell demo_kisqr 0 1) 100 2000).
Proof.
  apply (thresholds_are_strict demo_blue demo_red demo_nir demo_kisqr 0 1);
    first [reflexivity | cbn; lia].
Defined.

Lemma masked_cells_carry_no_evidence_witness :
  existsb (sample_eq (cell demo_lc 0 2)) excluded_classes = true ∧
  ∃ ev,
    threshold_stage (Some demo_lc) (Some demo_blue) (Some demo_red)
      (Some demo_nir) (Some demo_kisqr) = Ok ev ∧
    cell (total_change_strong ev) 0 2 = false ∧
    cell (total_change_weak ev) 0 2 = false ∧
    cell (sum_change ev) 0 2 = 0.
Proof.
  split; [reflexivity|]. eexists. split; [vm_compute; reflexivity|].
  apply (masked_cells_carry_no_evidence demo_lc demo_blue demo_red demo_nir
           demo_kisqr _ 0 2); first [reflexivity | cbn; lia | by left].
Defined.

Lemma process_chmap_writes_only_its_outputs_witness :
  fs (process_chmap (ext:=exact_externals) demo_self "/tmp/t" demo_chmap demo_bin
        demo_world).2 !! "/aux/landcover.tif"
  = Some (Raster demo_lc_ds).
Proof.
  rewrite (process_chmap_writes_only_its_outputs (ext:=exact_externals) demo_self
             "/tmp/t" demo_chmap demo_bin demo_world "/aux/landcover.tif").
  - vm_compute. reflexivity.
  - intros H.
    repeat (apply elem_of_cons in H as [H|H]; [vm_compute in H; discriminate H|]).
    by apply elem_of_nil in H.
Defined.


Lemma uploads_need_a_successful_probe_witness :
  ∃ self,
    DecTree_init (ext:=exact_externals) (Some "http://host") (Some "someone")
      (Some "word") "/in" "/out" "/aux/landcover.tif" "/aux/false_mask.tif" true
    = Ok self ∧
    seed_db self = Some (Some true).
Proof.
  eexists. split; [reflexivity|].
  destruct (uploads_need_a_successful_probe (ext:=exact_externals)
              (Some "http://host") (Some "someone") (Some "word") "/in" "/out"
              "/aux/landcover.tif" "/aux/false_mask.tif" true) as [_ Hmade].
  destruct (Hmade _ eq_refl) as (_ & Hon & _). apply Hon.
  split; [reflexivity|]. exists (Some "token"). by repeat split.
Defined.

Lemma mixed_world_fresh : temp_dir_fresh (ext:=exact_externals) mixed_world.
Proof.
  apply temp_dir_fresh_intro. unfold mixed_world, demo_fs. cbn [fs].
  repeat (apply map_Forall_insert_2; [reflexivity|]). apply map_Forall_empty.
Qed.

Lemma renaming_is_idempotent_witness :
  let bname := "S2_20230101-0_BIN_39SUB_C_V1_FRC_BIN.tif" in
  let w' := (run_file (ext:=exact_externals) seeding_self "/in/39SUB" "/in/39SUB"
               bname mixed_world).2 in
  str_replace "CHMAP" "BIN" demo_file = bname ∧
  fs mixed_world !! os_path_join "/in/39SUB" bname = Some (Raster demo_fm_ds) ∧
  fs w' !! os_path_join "/in/39SUB" bname = Some (Raster demo_fm_ds) ∧
  ∃ new, calls w' = new ++ calls mixed_world ∧
         Forall (λ c, is_process_call c = false) new.
Proof.
  intros bname w'. split; [reflexivity|].
  assert (fs mixed_world !! os_path_join "/in/39SUB" bname
          = Some (Raster demo_fm_ds)) as Hf by (vm_compute; reflexivity).
  split; [exact Hf|].
  destruct (renaming_is_idempotent demo_file) as (_ & _ & Hpass).
  exact (Hpass exact_externals seeding_self "/in/39SUB" mixed_world
           (Raster demo_fm_ds) Hf mixed_world_fresh).
Defined.

Lemma output_name_and_place_witness :
  let out := run (ext:=listing_externals) offline_self demo_world in
  str_replace "CHMAP" "BIN" demo_file = "S2_20230101-0_BIN_39SUB_C_V1_FRC_BIN.tif" ∧
  demo_bin = os_path_join (os_path_join "/out" "39SUB")
               (str_replace "CHMAP" "BIN" demo_file) ∧
  fs demo_world !! demo_bin = None ∧
  out.1 = Ok tt ∧
  band1_rows out.2 demo_bin
  = Some (to_rows (np_map of_int (NdArray 2 3 [0; 1; 255; 255; 1; 255]))) ∧
  calls out.2 = [CallProcessChmap "/tmp/tmpdectree" demo_chmap demo_bin] ∧
  (∀ p, p ≠ demo_bin → fs out.2 !! p = fs demo_world !! p).
Proof.
  intros out. split; [reflexivity|]. split; [reflexivity|].
  split; [vm_compute; reflexivity|].
  set (w2 := (makedirs_if_missing "/out/39SUB" demo_world).2).
  assert (temp_dir_fresh (ext:=listing_externals) w2) as Hfresh.
  { apply temp_dir_fresh_intro. change (fs w2) with demo_fs. unfold demo_fs.
    repeat (apply map_Forall_insert_2; [reflexivity|]). apply map_Forall_empty. }
  destruct (output_name_and_place (ext:=listing_externals) offline_self "39SUB"
              demo_file) as (_ & _ & _ & Hplace).
  destruct (Hplace demo_world [] [] demo_world [] [] w2 demo_lc_ds demo_fm_ds
              demo_chmap_ds demo_chmap_ds demo_intersection demo_win demo_lc
              demo_fm demo_blue (Some demo_green) demo_red demo_nir demo_kisqr)
    as (Hrun & Hwritten & _ & Hframe);
    [ first [ exact Hfresh | apply not_elem_of_empty | discriminate
            | vm_compute; reflexivity ] .. | ].
  change (output_base_dir offline_self) with "/out" in Hrun, Hwritten, Hframe.
  change (input_base_dir offline_self) with "/in" in Hrun, Hwritten, Hframe.
  assert (out = run_file (ext:=listing_externals) offline_self
                  (os_path_join "/out" "39SUB") (os_path_join "/in" "39SUB")
                  demo_file w2) as Hout.
  { subst out. rewrite Hrun. cbn [for_each foldr].
    unfold mbind, M_bind, mret, M_ret.
    by destruct (run_file _ _ _ _ w2) as [[[]|e] w3]. }
  split; [vm_compute; reflexivity|]. split; [|split; [vm_compute; reflexivity|]].
  - unfold band1_rows. rewrite Hout.
    change demo_bin with (os_path_join (os_path_join "/out" "39SUB")
                            (str_replace "CHMAP" "BIN" demo_file)).
    rewrite Hwritten. vm_compute. reflexivity.
  - intros p Hp. rewrite Hout. etrans; [by apply Hframe|]. reflexivity.
Defined.
